(** * telegram-secretary: the message triage pipeline

    A shallow embedding of the scoring engine and the text helpers
    ([utils.py]), the filter cache and ingestion pipeline ([userbot.py]),
    the digest selection and the digest job ([scheduler.py]), the
    feedback handlers, keyboards and interactive configuration
    ([bot.py]), the configuration loader ([config.py]), the engine URL
    ([database.py]) and the cleanup script
    ([cleanup_filtered_messages.py]), followed by the properties of the
    specification that are settled on it and by further properties of
    the code.

    Conventions of the embedding:
    - Python [int] is [Z]; a [datetime] is a [Z] (an instant on the naive
      UTC time line); [Optional[T]] is [option T].
    - Python [str] is [string]; [len] is [String.length] (texts are taken
      byte per character; character classes are the ASCII ones).
    - The [messages] table is a finite map from the primary key [id] to
      the row; the process-wide caches [_muted_chats] and [_group_sizes]
      are a [gset Z] and a [gmap Z Z].
    - What a collaborator (storage, transport, scoring oracle) answers is
      an explicit argument of the function that awaits it, and
      [datetime.utcnow()] is the argument [now]. *)

From Stdlib Require Import ZArith String Ascii List Bool Lia.
From Stdlib Require Import Decimal DecimalString DecimalPos DecimalZ.
From stdpp Require Import base option numbers list sorting strings gmap sets relations.

Local Open Scope string_scope.
Local Open Scope Z_scope.

(** ** utils.py *)

Module Utils.

(** Priority scoring weights (rule-based system, 0-8 scale). *)
Definition SCORE_MENTION : Z := 3.
Definition SCORE_QUESTION : Z := 2.
Definition SCORE_LONG_MESSAGE : Z := 1.
Definition SCORE_HIGH_PRIORITY_USER : Z := 2.
Definition MIN_LONG_MESSAGE_LENGTH : Z := 100.

Definition AI_PRIORITY_SCORE_MIN : Z := 0.
Definition AI_PRIORITY_SCORE_MAX : Z := 10.
Definition MUTE_FOREVER_TIMESTAMP : Z := 2147483647.

(** [len(s)]. *)
Definition len (s : string) : Z := Z.of_nat (String.length s).

(** Truth value of an [Optional[str]]: [None] and the empty string are
    false. *)
Definition truthy (text : option string) : bool :=
  match text with
  | None => false
  | Some EmptyString => false
  | Some (String _ _) => true
  end.

(** [message_text and len(message_text) > MIN_LONG_MESSAGE_LENGTH]. *)
Definition is_long (message_text : option string) : bool :=
  match message_text with
  | None => false
  | Some s => truthy message_text && (MIN_LONG_MESSAGE_LENGTH <? len s)
  end.

(** [calculate_priority_score], utils.py 57-89: the four [if]s that
    add to [score] in turn. *)
Definition calculate_priority_score
    (message_text : option string)
    (has_mention is_question is_high_priority_user : bool) : Z :=
  let score := 0 in
  let score := if has_mention then score + SCORE_MENTION else score in
  let score := if is_question then score + SCORE_QUESTION else score in
  let score := if is_long message_text then score + SCORE_LONG_MESSAGE else score in
  let score := if is_high_priority_user then score + SCORE_HIGH_PRIORITY_USER else score in
  score.

(** *** Character helpers (ASCII classes) *)

Definition code (c : ascii) : Z := Z.of_nat (nat_of_ascii c).

Definition is_digit (c : ascii) : bool := (48 <=? code c) && (code c <=? 57).
Definition is_upper (c : ascii) : bool := (65 <=? code c) && (code c <=? 90).
Definition is_lower (c : ascii) : bool := (97 <=? code c) && (code c <=? 122).
(** [\w] *)
Definition is_word (c : ascii) : bool :=
  is_digit c || is_upper c || is_lower c || (code c =? 95).
(** what [str.strip()] removes *)
Definition is_space (c : ascii) : bool :=
  (code c =? 32) || ((9 <=? code c) && (code c <=? 13)) ||
  ((28 <=? code c) && (code c <=? 31)).

Definition lower_char (c : ascii) : ascii :=
  if is_upper c then ascii_of_nat (nat_of_ascii c + 32) else c.

Fixpoint lower (s : string) : string :=
  match s with
  | EmptyString => EmptyString
  | String c s' => String (lower_char c) (lower s')
  end.

Fixpoint lstrip (s : string) : string :=
  match s with
  | EmptyString => EmptyString
  | String c s' => if is_space c then lstrip s' else s
  end.

Fixpoint rstrip (s : string) : string :=
  match s with
  | EmptyString => EmptyString
  | String c s' =>
      match rstrip s' with
      | EmptyString => if is_space c then EmptyString else String c EmptyString
      | r => String c r
      end
  end.

Definition strip (s : string) : string := rstrip (lstrip s).

Fixpoint startswith (p s : string) : bool :=
  match p, s with
  | EmptyString, _ => true
  | String a p', String b s' => Ascii.eqb a b && startswith p' s'
  | String _ _, EmptyString => false
  end.

Fixpoint contains (p s : string) : bool :=
  startswith p s ||
  match s with
  | EmptyString => false
  | String _ s' => contains p s'
  end.

Fixpoint last_char (s : string) : option ascii :=
  match s with
  | EmptyString => None
  | String c EmptyString => Some c
  | String _ s' => last_char s'
  end.

(** [re.search(r"@\w+", text)]: an [@] directly followed by a word
    character. *)
Fixpoint search_mention (s : string) : bool :=
  match s with
  | EmptyString => false
  | String c s' =>
      (Ascii.eqb c "@" &&
         match s' with String d _ => is_word d | EmptyString => false end)
      || search_mention s'
  end.

(** [detect_mention], utils.py 92-113. *)
Definition detect_mention (text username : option string) : bool :=
  match text with
  | None => false
  | Some t =>
      if negb (truthy text) then false
      else
        match username with
        | Some u =>
            if truthy username
            then contains (String "@" u) (lower t) || search_mention t
            else search_mention t
        | None => search_mention t
        end
  end.

Definition question_starters : list string :=
  [ "what"; "when"; "where"; "why"; "how"; "who"; "which";
    "is "; "are "; "do "; "does "; "can "; "could "; "would "; "will ";
    "should "; "have "; "has "; "did ";
    "que "; "qual "; "quem "; "quando "; "onde "; "como "; "por que";
    "você "; "vocês " ].

(** [detect_question], utils.py 116-151. *)
Definition detect_question (text : option string) : bool :=
  match text with
  | None => false
  | Some t =>
      if negb (truthy text) then false
      else
        let t := strip t in
        match last_char t with
        | Some "?"%char => true
        | _ => existsb (fun starter => startswith starter (lower t)) question_starters
        end
  end.

(** *** The scoring oracle *)

(** What the awaited oracle call of [calculate_ai_priority_score] does:
    [import ollama] fails, [asyncio.wait_for] times out, anything else
    is raised (connection refused, a response without the
    [message]/[content] keys, ...), or the call returns the stripped
    content of the reply. *)
Inductive oracle_outcome : Type :=
| OracleNotInstalled
| OracleTimeout
| OracleError
| OracleReply (content : string).

Definition digit_value (c : ascii) : Z := code c - 48.

(** the rest of a [\d+] match, read as a decimal numeral *)
Fixpoint read_digits (acc : Z) (s : string) : Z :=
  match s with
  | EmptyString => acc
  | String c s' =>
      if is_digit c then read_digits (10 * acc + digit_value c) s' else acc
  end.

(** [numbers = re.findall(r'\d+', result)] then [int(numbers[0])] when
    there is one. *)
Fixpoint first_number (s : string) : option Z :=
  match s with
  | EmptyString => None
  | String c s' =>
      if is_digit c then Some (read_digits (digit_value c) s')
      else first_number s'
  end.

(** [calculate_ai_priority_score], utils.py 324-508. The user-context
    lookup only changes the prompt and swallows its own errors; the
    prompt is what the oracle is asked and the oracle's behaviour is
    [oracle]. The result is [None] when the caller has to fall back. *)
Definition calculate_ai_priority_score
    (message_text : option string) (oracle : oracle_outcome) : option Z :=
  if negb (truthy message_text) then Some AI_PRIORITY_SCORE_MIN
  else
    match oracle with
    | OracleNotInstalled => None
    | OracleTimeout => None
    | OracleError => None
    | OracleReply result =>
        match first_number result with
        | Some score =>
            Some (Z.max AI_PRIORITY_SCORE_MIN (Z.min AI_PRIORITY_SCORE_MAX score))
        | None => None
        end
    end.

(** The oracle call failed, in the sense of utils.py 488-508: no number
    in the reply, or one of the three [except] clauses. *)
Definition oracle_failed (oracle : oracle_outcome) : bool :=
  match oracle with
  | OracleReply result =>
      match first_number result with Some _ => false | None => true end
  | _ => true
  end.

End Utils.

(** ** models.py and config.py *)

Module Models.

(** What [get_chat_type] returns (utils.py 268-301). *)
Inductive ChatType : Type :=
| private | group | supergroup | gigagroup | channel | unknown.

(** A row of the [messages] table, without its primary key [id], which
    is the key of the table below. *)
Record Message : Type := {
  telegram_message_id : Z;
  chat_id : Z;
  chat_title : option string;
  chat_type : ChatType;
  user_id : Z;
  user_name : option string;
  message_text : option string;
  timestamp : Z;
  has_mention : bool;
  is_question : bool;
  message_length : Z;
  topic_summary : option string;
  priority_score : Z;
  label : option string;
  labeled_at : option Z;
  included_in_summary : bool;
  summary_sent_at : option Z;
  warning_sent : bool;
  warning_sent_at : option Z
}.

(** A row of [user_preferences]; [user_id] is unique and is the key of
    the table below. The two scores are read with an [is not None]
    test by the code, so they are optional here. *)
Record UserPreferences : Type := {
  user_context : option string;
  min_priority_score : option Z;
  warning_threshold_score : option Z;
  ignore_large_groups : bool;
  max_group_size : Z;
  ignore_muted_chats : bool
}.

(** The two tables of the store. *)
Record Store : Type := {
  messages : gmap Z Message;
  user_preferences : gmap Z UserPreferences
}.

(** The part of [Config] the pipeline reads. *)
Record Config : Type := {
  client_user_id : Z;
  bot_user_id : Z;
  cfg_min_priority_score : Z;
  cfg_warning_threshold_score : Z;
  ai_enabled : bool;
  cfg_ignore_large_groups : bool;
  cfg_max_group_size : Z;
  cfg_ignore_muted_chats : bool
}.

(** [UPDATE messages SET included_in_summary = True, summary_sent_at = now] *)
Definition set_included (now : Z) (m : Message) : Message :=
  {| telegram_message_id := telegram_message_id m; chat_id := chat_id m;
     chat_title := chat_title m; chat_type := chat_type m;
     user_id := user_id m; user_name := user_name m;
     message_text := message_text m; timestamp := timestamp m;
     has_mention := has_mention m; is_question := is_question m;
     message_length := message_length m; topic_summary := topic_summary m;
     priority_score := priority_score m;
     label := label m; labeled_at := labeled_at m;
     included_in_summary := true; summary_sent_at := Some now;
     warning_sent := warning_sent m; warning_sent_at := warning_sent_at m |}.

(** The columns an [UPDATE] of [included_in_summary] and
    [summary_sent_at] leaves alone agree in [m] and [m']. *)
Definition same_other_columns (m m' : Message) : Prop :=
  telegram_message_id m' = telegram_message_id m
  /\ chat_id m' = chat_id m
  /\ chat_title m' = chat_title m
  /\ chat_type m' = chat_type m
  /\ user_id m' = user_id m
  /\ user_name m' = user_name m
  /\ message_text m' = message_text m
  /\ timestamp m' = timestamp m
  /\ has_mention m' = has_mention m
  /\ is_question m' = is_question m
  /\ message_length m' = message_length m
  /\ topic_summary m' = topic_summary m
  /\ priority_score m' = priority_score m
  /\ label m' = label m
  /\ labeled_at m' = labeled_at m
  /\ warning_sent m' = warning_sent m
  /\ warning_sent_at m' = warning_sent_at m.

(** [UPDATE messages SET warning_sent = True, warning_sent_at = now] *)
Definition set_warning (now : Z) (m : Message) : Message :=
  {| telegram_message_id := telegram_message_id m; chat_id := chat_id m;
     chat_title := chat_title m; chat_type := chat_type m;
     user_id := user_id m; user_name := user_name m;
     message_text := message_text m; timestamp := timestamp m;
     has_mention := has_mention m; is_question := is_question m;
     message_length := message_length m; topic_summary := topic_summary m;
     priority_score := priority_score m;
     label := label m; labeled_at := labeled_at m;
     included_in_summary := included_in_summary m;
     summary_sent_at := summary_sent_at m;
     warning_sent := true; warning_sent_at := Some now |}.

(** [UPDATE messages SET label = l, labeled_at = now] *)
Definition set_label (l : string) (now : Z) (m : Message) : Message :=
  {| telegram_message_id := telegram_message_id m; chat_id := chat_id m;
     chat_title := chat_title m; chat_type := chat_type m;
     user_id := user_id m; user_name := user_name m;
     message_text := message_text m; timestamp := timestamp m;
     has_mention := has_mention m; is_question := is_question m;
     message_length := message_length m; topic_summary := topic_summary m;
     priority_score := priority_score m;
     label := Some l; labeled_at := Some now;
     included_in_summary := included_in_summary m;
     summary_sent_at := summary_sent_at m;
     warning_sent := warning_sent m; warning_sent_at := warning_sent_at m |}.

Definition with_messages (ms : gmap Z Message) (db : Store) : Store :=
  {| messages := ms; user_preferences := user_preferences db |}.

Definition with_ai_enabled (b : bool) (cfg : Config) : Config :=
  {| client_user_id := client_user_id cfg; bot_user_id := bot_user_id cfg;
     cfg_min_priority_score := cfg_min_priority_score cfg;
     cfg_warning_threshold_score := cfg_warning_threshold_score cfg;
     ai_enabled := b;
     cfg_ignore_large_groups := cfg_ignore_large_groups cfg;
     cfg_max_group_size := cfg_max_group_size cfg;
     cfg_ignore_muted_chats := cfg_ignore_muted_chats cfg |}.

(** [UPDATE messages SET ... WHERE id = message_id]: no row, no change. *)
Definition update_row (message_id : Z) (f : Message -> Message) (db : Store) : Store :=
  with_messages (alter f message_id (messages db)) db.

(** The key an autoincrement [INSERT] gets: above every key in use. *)
Definition fresh_id (ms : gmap Z Message) : Z :=
  1 + foldr (fun kv acc => Z.max kv.1 acc) 0 (map_to_list ms).

(** [select(UserPreferences).where(user_id == client_user_id)
    .scalar_one_or_none()]. *)
Definition load_prefs (cfg : Config) (db : Store) : option UserPreferences :=
  user_preferences db !! client_user_id cfg.

End Models.

(** ** userbot.py: the filter cache *)

Module Userbot.
Import Models.

(** The module-level caches [_high_priority_users], [_muted_chats] and
    [_group_sizes]. *)
Record Cache : Type := {
  _high_priority_users : gset Z;
  _muted_chats : gset Z;
  _group_sizes : gmap Z Z
}.

Definition with_muted (s : gset Z) (c : Cache) : Cache :=
  {| _high_priority_users := _high_priority_users c;
     _muted_chats := s; _group_sizes := _group_sizes c |}.

Definition with_sizes (g : gmap Z Z) (c : Cache) : Cache :=
  {| _high_priority_users := _high_priority_users c;
     _muted_chats := _muted_chats c; _group_sizes := g |}.

(** [get_muted_chats], userbot.py 463-470. *)
Definition get_muted_chats (c : Cache) : gset Z := _muted_chats c.

(** [add_muted_chat], userbot.py 473-486. *)
Definition add_muted_chat (chat_id : Z) (c : Cache) : Cache :=
  with_muted ({[chat_id]} ∪ _muted_chats c) c.

(** [remove_muted_chat], userbot.py 489-502. *)
Definition remove_muted_chat (chat_id : Z) (c : Cache) : Cache :=
  with_muted (_muted_chats c ∖ {[chat_id]}) c.

(** [get_large_group_ids], userbot.py 505-515:
    [{chat_id for chat_id, size in _group_sizes.items() if size > max_size}]. *)
Definition get_large_group_ids (max_size : Z) (c : Cache) : gset Z :=
  dom (filter (fun kv : Z * Z => max_size < kv.2) (_group_sizes c)).

(** *** The mute sweep *)

(** [notify_settings.mute_until]: the field is a bool, an int (Unix
    seconds) or a datetime; anything else is left alone by the code. *)
Inductive MuteUntil : Type :=
| UntilBool (b : bool)
| UntilInt (seconds : Z)
| UntilDatetime (instant : Z)
| UntilOther.

Record NotifySettings : Type := {
  silent : bool;
  mute_until : option MuteUntil
}.

(** One dialog of the mute sweep. [md_settings] is what reading
    [dialog.dialog.notify_settings] gives: it raises, or yields the
    settings, [None] when they are missing. [md_clock] is
    [datetime.now(timezone.utc)] read at this dialog. *)
Inductive probe (A : Type) : Type :=
| ProbeRaises
| ProbeOk (a : A).
Arguments ProbeRaises {A}.
Arguments ProbeOk {A} a.

Record MuteDialog : Type := {
  md_id : Z;
  md_settings : probe (option NotifySettings);
  md_clock : Z
}.

(** Instants count microseconds; a Unix timestamp counts seconds. *)
Definition us_per_second : Z := 1000000.

(** The body of the [try] of userbot.py 295-325 once the settings are
    read: is the dialog muted? *)
Definition dialog_is_muted (current_timestamp : Z) (clock : Z)
    (ns : NotifySettings) : bool :=
  let is_muted := silent ns in
  match mute_until ns with
  | None => is_muted
  | Some (UntilBool true) => true
  | Some (UntilBool false) => current_timestamp <? 0
  | Some (UntilInt t) =>
      if t =? Utils.MUTE_FOREVER_TIMESTAMP then true
      else current_timestamp <? t * us_per_second
  | Some (UntilDatetime d) => clock <? d
  | Some UntilOther => is_muted
  end.

(** One iteration of the [async for] of [refresh_muted_chats]. *)
Definition mute_sweep_step (current_timestamp : Z) (muted_set : gset Z)
    (d : MuteDialog) : gset Z :=
  match md_settings d with
  | ProbeRaises => muted_set
  | ProbeOk None => muted_set
  | ProbeOk (Some ns) =>
      if dialog_is_muted current_timestamp (md_clock d) ns
      then {[md_id d]} ∪ muted_set
      else muted_set
  end.

Definition mute_sweep (current_timestamp : Z) (dialogs : list MuteDialog) : gset Z :=
  foldl (mute_sweep_step current_timestamp) ∅ dialogs.

(** How the enumeration [client.iter_dialogs()] ends: exhausted, or an
    error of the transport (a rate-limit signal among them) raised by
    the iterator itself, outside the per-dialog [try]. *)
Inductive enumeration_end : Type :=
| Exhausted
| EnumerationFlood (seconds : Z)
| EnumerationError.

(** [refresh_muted_chats], userbot.py 274-347. *)
Definition refresh_muted_chats (connected : bool) (current_timestamp : Z)
    (dialogs : list MuteDialog) (ending : enumeration_end) (c : Cache) : Cache :=
  if negb connected then c
  else
    let muted_set := mute_sweep current_timestamp dialogs in
    match ending with
    | Exhausted => with_muted muted_set c
    | EnumerationFlood _ => c
    | EnumerationError => c
    end.

(** *** The group-size sweep *)

(** What a full-metadata fetch ([GetFullChatRequest],
    [GetFullChannelRequest]) answers. *)
Inductive fetch : Type :=
| FetchOk (participants_count : option Z)
| FetchFlood (seconds : Z)
| FetchError.

(** [dialog.entity]. The fetch is what the transport would answer for
    this dialog if asked. Reading a broken dialog raises. *)
Inductive Entity : Type :=
| EChat (participants_count : option Z) (full : fetch)
| EChannel (megagroup : bool) (participants_count : option Z) (full : fetch)
| EUser
| EBroken
| EBrokenFlood.

Record GroupDialog : Type := {
  gd_id : Z;
  gd_is_group : bool;
  gd_entity : Entity
}.

(** A warning of the sweep: the wait the transport asked for and the
    number of groups cached so far. *)
Record FloodLog : Type := {
  wait_seconds : Z;
  groups_cached_so_far : nat
}.

Inductive iteration : Type :=
| Continue (sizes_dict : gmap Z Z)
| Break (sizes_dict : gmap Z Z) (log : option FloodLog).

Definition store_count (chat_id : Z) (participant_count : option Z)
    (sizes_dict : gmap Z Z) : gmap Z Z :=
  match participant_count with
  | Some n => <[chat_id := n]> sizes_dict
  | None => sizes_dict
  end.

(** One iteration of the [async for] of [refresh_group_sizes],
    userbot.py 369-434. *)
Definition size_sweep_step (sizes_dict : gmap Z Z) (d : GroupDialog) : iteration :=
  if negb (gd_is_group d) then Continue sizes_dict
  else
    let flood e :=
      Break sizes_dict
        (Some {| wait_seconds := e; groups_cached_so_far := size sizes_dict |}) in
    match gd_entity d with
    | EChat (Some n) _ => Continue (store_count (gd_id d) (Some n) sizes_dict)
    | EChat None (FetchOk count) => Continue (store_count (gd_id d) count sizes_dict)
    | EChat None (FetchFlood e) => flood e
    | EChat None FetchError => Continue sizes_dict
    | EChannel true _ (FetchOk count) =>
        Continue (store_count (gd_id d) count sizes_dict)
    | EChannel true _ (FetchFlood e) => flood e
    | EChannel true attr FetchError =>
        Continue (store_count (gd_id d) attr sizes_dict)
    | EChannel false _ _ => Continue sizes_dict
    | EUser => Continue sizes_dict
    | EBroken => Continue sizes_dict
    | EBrokenFlood => Break sizes_dict None
    end.

(** The loop: the gathered sizes, the warnings logged, and whether the
    loop was left by [break] (the iterator is then not advanced again). *)
Fixpoint size_sweep (sizes_dict : gmap Z Z) (dialogs : list GroupDialog)
    : gmap Z Z * list FloodLog * bool :=
  match dialogs with
  | [] => (sizes_dict, [], false)
  | d :: rest =>
      match size_sweep_step sizes_dict d with
      | Continue sizes_dict' => size_sweep sizes_dict' rest
      | Break sizes_dict' (Some l) => (sizes_dict', [l], true)
      | Break sizes_dict' None => (sizes_dict', [], true)
      end
  end.

(** The end of [refresh_group_sizes], userbot.py 436-452. *)
Definition commit_sizes (sizes_dict : gmap Z Z) (c : Cache) : Cache :=
  if bool_decide (sizes_dict = ∅) then c else with_sizes sizes_dict c.

(** [refresh_group_sizes], userbot.py 350-460: the new cache and the
    flood warnings logged. [dialogs] is what the iterator yields and
    [ending] how it ends after them, if the loop gets that far. *)
Definition refresh_group_sizes (connected : bool)
    (dialogs : list GroupDialog) (ending : enumeration_end) (c : Cache)
    : Cache * list FloodLog :=
  if negb connected then (c, [])
  else
    match size_sweep ∅ dialogs with
    | (sizes_dict, logs, true) => (commit_sizes sizes_dict c, logs)
    | (sizes_dict, logs, false) =>
        match ending with
        | Exhausted => (commit_sizes sizes_dict c, logs)
        | EnumerationFlood _ => (c, logs)
        | EnumerationError => (c, logs)
        end
    end.

(** The dialogs of a size sweep whose lookup fails: reading the dialog
    raises, or the group has no direct count and the full-metadata fetch
    raises something other than a rate limit. *)
Definition lookup_fails (d : GroupDialog) : bool :=
  gd_is_group d &&
  match gd_entity d with
  | EBroken => true
  | EChat None FetchError => true
  | EChannel true None FetchError => true
  | _ => false
  end.

(** The dialogs of a size sweep at which the transport signals a rate
    limit, with the wait it asks for. *)
Definition rate_limited (d : GroupDialog) : option Z :=
  if gd_is_group d then
    match gd_entity d with
    | EChat None (FetchFlood e) => Some e
    | EChannel true _ (FetchFlood e) => Some e
    | _ => None
    end
  else None.

(** The participant count a size sweep has for a dialog when the dialog
    does not end the sweep: the group's own count, else what the
    full-metadata fetch returns, and for a supergroup whose fetch fails
    the entity's own count. *)
Definition reported_count (d : GroupDialog) : option Z :=
  if gd_is_group d then
    match gd_entity d with
    | EChat (Some n) _ => Some n
    | EChat None (FetchOk count) => count
    | EChannel true _ (FetchOk count) => count
    | EChannel true attr FetchError => attr
    | _ => None
    end
  else None.

(** *** Alerts and persistence *)

Definition max_retries : nat := 3.

(** What the collaborators answer while an alert is sent: is the
    bot application there, does [bot.send_message] raise, and does the
    storage raise [OperationalError] at attempt [k] of the marking. *)
Record AlertEnv : Type := {
  bot_available : bool;
  send_raises : bool;
  locked : nat -> bool
}.

(** The retry loop of userbot.py 195-224, [for attempt in
    range(max_retries)], from [attempt] on with [fuel] rounds left:
    [None] when the last attempt re-raises. *)
Fixpoint mark_warning_sent (fuel attempt : nat) (locked : nat -> bool)
    (message_id now : Z) (db : Store) : option Store :=
  match fuel with
  | O => Some db
  | S fuel' =>
      if locked attempt then
        if (attempt <? max_retries - 1)%nat
        then mark_warning_sent fuel' (S attempt) locked message_id now db
        else None
      else Some (update_row message_id (set_warning now) db)
  end.

(** [send_warning_for_message], userbot.py 103-244: every exception is
    caught and logged by the outer [except]. *)
Definition send_warning_for_message (env : AlertEnv) (message_id now : Z)
    (db : Store) : Store :=
  if negb (bot_available env) then db
  else if send_raises env then db
  else
    match mark_warning_sent max_retries 0 (locked env) message_id now db with
    | Some db' => db'
    | None => db
    end.

(** The arguments of [save_message]. *)
Record SaveArgs : Type := {
  a_telegram_message_id : Z;
  a_chat_id : Z;
  a_chat_title : option string;
  a_chat_type : ChatType;
  a_user_id : Z;
  a_user_name : option string;
  a_message_text : option string;
  a_timestamp : Z;
  a_client_username : option string
}.

(** What the collaborators answer during one [save_message]: the
    scoring oracle, [generate_topic_summary] (which returns [None] on
    every failure), whether the insert raises, whether reading the
    warning threshold raises, the alert, and the clock. *)
Record SaveEnv : Type := {
  oracle : Utils.oracle_outcome;
  topic : option string;
  insert_raises : bool;
  threshold_lookup_raises : bool;
  alert : AlertEnv;
  now : Z
}.

(** [save_message], userbot.py 518-654. The whole body is inside
    [try ... except Exception: log_error(...)]. *)
Definition save_message (cfg : Config) (c : Cache) (env : SaveEnv)
    (a : SaveArgs) (db : Store) : Store :=
  let message_text := a_message_text a in
  let has_mention := Utils.detect_mention message_text (a_client_username a) in
  let is_question := Utils.detect_question message_text in
  let message_length :=
    match message_text with
    | Some t => if Utils.truthy message_text then Utils.len t else 0
    | None => 0
    end in
  let is_high_priority := bool_decide (a_user_id a ∈ _high_priority_users c) in
  let priority_score :=
    if ai_enabled cfg
    then Utils.calculate_ai_priority_score message_text (oracle env)
    else None in
  let priority_score :=
    match priority_score with
    | Some score => score
    | None =>
        Utils.calculate_priority_score
          message_text has_mention is_question is_high_priority
    end in
  let topic_summary := topic env in
  let message :=
    {| telegram_message_id := a_telegram_message_id a;
       chat_id := a_chat_id a;
       chat_title := a_chat_title a;
       chat_type := a_chat_type a;
       user_id := a_user_id a;
       user_name := a_user_name a;
       message_text := message_text;
       timestamp := a_timestamp a;
       has_mention := has_mention;
       is_question := is_question;
       message_length := message_length;
       topic_summary := topic_summary;
       priority_score := priority_score;
       label := None; labeled_at := None;
       included_in_summary := false; summary_sent_at := None;
       warning_sent := false; warning_sent_at := None |} in
  if insert_raises env then db
  else
    let message_id := fresh_id (messages db) in
    let db := with_messages (<[message_id := message]> (messages db)) db in
    let warning_threshold :=
      if threshold_lookup_raises env then cfg_warning_threshold_score cfg
      else
        match load_prefs cfg db with
        | Some p =>
            match warning_threshold_score p with
            | Some user_threshold => user_threshold
            | None => cfg_warning_threshold_score cfg
            end
        | None => cfg_warning_threshold_score cfg
        end in
    if warning_threshold <=? priority_score
    then send_warning_for_message (alert env) message_id (now env) db
    else db.

(** *** The ingestion handler *)

(** [event.get_sender()]: a [User] or some other peer. *)
Inductive Sender : Type :=
| SenderUser (id : Z) (first_name : string) (last_name : option string)
| SenderOther (id : Z).

Definition sender_id (s : Sender) : Z :=
  match s with SenderUser id _ _ => id | SenderOther id => id end.

(** [event.get_chat()]. *)
Inductive ChatEntity : Type :=
| ChatUser (id : Z) (first_name : string) (last_name : option string)
| ChatChat (id : Z) (title : string)
| ChatChannel (id : Z) (title : string) (giga mega broadcast : bool)
| ChatOther (id : Z).

Definition chat_entity_id (chat : ChatEntity) : Z :=
  match chat with
  | ChatUser id _ _ => id
  | ChatChat id _ => id
  | ChatChannel id _ _ _ _ => id
  | ChatOther id => id
  end.

(** [get_chat_type], utils.py 268-301. *)
Definition get_chat_type (chat : ChatEntity) : ChatType :=
  match chat with
  | ChatUser _ _ _ => private
  | ChatChat _ _ => group
  | ChatChannel _ _ giga mega broadcast =>
      if giga then gigagroup
      else if mega then supergroup
      else if broadcast then channel
      else channel
  | ChatOther _ => unknown
  end.

(** [chat_type in ["group", "supergroup", "gigagroup"]]. *)
Definition is_group_type (t : ChatType) : bool :=
  match t with
  | group | supergroup | gigagroup => true
  | _ => false
  end.

Record Event : Type := {
  ev_message_id : Z;
  ev_raw_text : option string;
  ev_date : Z;
  ev_chat : ChatEntity;
  ev_sender : option Sender
}.

(** What becomes of an inbound event. *)
Inductive Ingest : Type :=
| SkippedOwn
| SkippedBot
| SkippedNoText
| FilteredLargeGroup
| FilteredMuted
| HandlerError
| Processed (a : SaveArgs).

(** The group-size gate, userbot.py 717-742: [true] when the handler
    returns there. *)
Definition large_group_gate (cfg : Config) (user_prefs : option UserPreferences)
    (c : Cache) (chat : ChatEntity) : bool :=
  let chat_type := get_chat_type chat in
  if is_group_type chat_type then
    let ignore_large_groups :=
      match user_prefs with
      | Some p => ignore_large_groups p
      | None => cfg_ignore_large_groups cfg
      end in
    let max_group_size :=
      match user_prefs with
      | Some p => max_group_size p
      | None => cfg_max_group_size cfg
      end in
    if ignore_large_groups then
      match _group_sizes c !! chat_entity_id chat with
      | Some participant_count => max_group_size <=? participant_count
      | None => false
      end
    else false
  else false.

(** The steps of [handle_new_message] after the filters, userbot.py
    767-804: the arguments handed to [save_message]. *)
Definition save_args (client_username : option string) (ev : Event) : SaveArgs :=
  let chat := ev_chat ev in
  let chat_type := get_chat_type chat in
  let user_name :=
    match ev_sender ev with
    | Some (SenderUser _ first_name last_name) =>
        match last_name with
        | Some l =>
            if Utils.truthy last_name
            then Some (first_name +:+ " " +:+ l)
            else Some first_name
        | None => Some first_name
        end
    | _ => None
    end in
  let user_id :=
    match ev_sender ev with
    | Some s => sender_id s
    | None => 0
    end in
  let chat_title :=
    match chat with
    | ChatChat _ title => Some title
    | ChatChannel _ title _ _ _ => Some title
    | ChatUser _ first_name last_name =>
        Some (Utils.strip
                (first_name +:+ " " +:+
                   match last_name with
                   | Some l => l
                   | None => EmptyString
                   end))
    | ChatOther _ => None
    end in
  let actual_chat_id :=
    match chat_type with
    | private => user_id
    | _ => chat_entity_id chat
    end in
  {| a_telegram_message_id := ev_message_id ev;
     a_chat_id := actual_chat_id;
     a_chat_title := chat_title;
     a_chat_type := chat_type;
     a_user_id := user_id;
     a_user_name := user_name;
     a_message_text := ev_raw_text ev;
     a_timestamp := ev_date ev;
     a_client_username := client_username |}.

(** The filter stage of [handle_new_message], userbot.py 674-765.
    [client_user_id] and [client_username] are the closure variables
    set after the client has started; [prefs_raise] says whether
    loading the preferences raises (they are then [None]). *)
Definition classify (cfg : Config) (client_user_id : option Z)
    (client_username : option string) (prefs_raise : bool)
    (c : Cache) (db : Store) (ev : Event) : Ingest :=
  let chat := ev_chat ev in
  let sender := ev_sender ev in
  if bool_decide (sender_id <$> sender = client_user_id ∧ is_Some sender)
  then SkippedOwn
  else if bool_decide (sender_id <$> sender = Some (bot_user_id cfg))
  then SkippedBot
  else if negb (Utils.truthy (ev_raw_text ev)) then SkippedNoText
  else
    let user_prefs := if prefs_raise then None else load_prefs cfg db in
    let chat_type := get_chat_type chat in
    if large_group_gate cfg user_prefs c chat then FilteredLargeGroup
    else
      let ignore_muted_chats :=
        match user_prefs with
        | Some p => ignore_muted_chats p
        | None => cfg_ignore_muted_chats cfg
        end in
      let check_id :=
        match chat_type with
        | private => sender_id <$> sender
        | _ => Some (chat_entity_id chat)
        end in
      if ignore_muted_chats then
        match check_id with
        | None => HandlerError
        | Some check_id =>
            if bool_decide (check_id ∈ _muted_chats c) then FilteredMuted
            else Processed (save_args client_username ev)
        end
      else Processed (save_args client_username ev).

(** [handle_new_message], userbot.py 673-819: classify, then save. *)
Definition handle_new_message (cfg : Config) (client_user_id : option Z)
    (client_username : option string) (prefs_raise : bool) (env : SaveEnv)
    (c : Cache) (ev : Event) (db : Store) : Ingest * Store :=
  match classify cfg client_user_id client_username prefs_raise c db ev with
  | Processed a => (Processed a, save_message cfg c env a db)
  | dropped => (dropped, db)
  end.

End Userbot.

(** ** scheduler.py: the digest selection *)

Module Scheduler.
Import Models Userbot.

(** [timedelta(hours=1)], in the unit of the instants. *)
Definition ticks_per_hour : Z := 3600 * us_per_second.

(** A selected ORM object: the primary key and the row. *)
Definition Selected : Type := Z * Message.

(** The excluded chat ids, scheduler.py 56-68; the toggles are the
    configured ones. *)
Definition excluded_chat_ids (cfg : Config) (c : Cache) : gset Z :=
  let excluded := ∅ in
  let excluded :=
    if cfg_ignore_muted_chats cfg then excluded ∪ get_muted_chats c
    else excluded in
  let excluded :=
    if cfg_ignore_large_groups cfg
    then excluded ∪ get_large_group_ids (cfg_max_group_size cfg) c
    else excluded in
  excluded.

(** The minimum score, scheduler.py 49 and 70-84: the user's
    preference when the row is there and the lookup does not raise. *)
Definition min_priority (cfg : Config) (prefs_raise : bool) (db : Store) : Z :=
  if prefs_raise then cfg_min_priority_score cfg
  else
    match load_prefs cfg db with
    | Some user_prefs =>
        match min_priority_score user_prefs with
        | Some v => v
        | None => cfg_min_priority_score cfg
        end
    | None => cfg_min_priority_score cfg
    end.

(** The [WHERE] clause, scheduler.py 100-109. *)
Definition qualifies (cutoff_time min_priority : Z) (excluded : gset Z)
    (m : Message) : bool :=
  (cutoff_time <=? timestamp m)
  && bool_decide (label m = None)
  && negb (included_in_summary m)
  && (min_priority <=? priority_score m)
  && (if bool_decide (excluded = ∅) then true
      else bool_decide (chat_id m ∉ excluded)).

(** [ORDER BY priority_score DESC, timestamp DESC]: [a] may come
    before [b]. *)
Definition ranks_before (a b : Selected) : Prop :=
  priority_score b.2 < priority_score a.2
  ∨ (priority_score a.2 = priority_score b.2 ∧ timestamp b.2 <= timestamp a.2).

#[global] Instance ranks_before_dec : RelDecision ranks_before.
Proof. intros a b. unfold ranks_before. apply _. Defined.

(** The rows the [WHERE] clause keeps. *)
Definition qualifying_rows (cutoff_time min_priority : Z) (excluded : gset Z)
    (db : Store) : list Selected :=
  filter (fun kv : Selected =>
            qualifies cutoff_time min_priority excluded kv.2 = true)
    (map_to_list (messages db)).

(** The [SELECT], scheduler.py 100-117: [ORDER BY], then [LIMIT]. Rows
    that tie on score and timestamp come in the order the sort leaves
    them; the storage promises none. *)
Definition select_messages (cutoff_time min_priority : Z) (excluded : gset Z)
    (limit : Z) (db : Store) : list Selected :=
  take (Z.to_nat limit)
    (merge_sort ranks_before
       (qualifying_rows cutoff_time min_priority excluded db)).

(** The [UPDATE ... WHERE id IN (message_ids)], scheduler.py 119-129. *)
Definition mark_included (messages_selected : list Selected) (marked_at : Z)
    (db : Store) : Store :=
  match messages_selected with
  | [] => db
  | _ =>
      let message_ids := messages_selected.*1 in
      with_messages
        (map_imap
           (fun id m =>
              Some (if bool_decide (id ∈ message_ids)
                    then set_included marked_at m else m))
           (messages db))
        db
  end.

(** The clock and the storage during one call: [now] when the cutoff
    is computed, [marked_at] at the update, whether the preference
    lookup raises (it is swallowed), and whether the selecting session
    raises (nothing catches it in this function; the transaction is
    rolled back). *)
Record DigestEnv : Type := {
  d_now : Z;
  d_marked_at : Z;
  d_prefs_raise : bool;
  d_session_raises : bool
}.

Definition cutoff (env : DigestEnv) (hours : Z) : Z :=
  d_now env - hours * ticks_per_hour.

(** What one call selects from [db], given the caches. *)
Definition selection (cfg : Config) (c : Cache) (env : DigestEnv)
    (hours limit : Z) (db : Store) : list Selected :=
  select_messages (cutoff env hours) (min_priority cfg (d_prefs_raise env) db)
    (excluded_chat_ids cfg c) limit db.

(** The objects of a result once the [UPDATE] has run: the session
    sets the two updated attributes on the objects it holds, and the
    session factory keeps them as they are past the commit
    ([expire_on_commit=False], database.py 167-171). *)
Definition synchronise (marked_at : Z) (messages_selected : list Selected)
    : list Selected :=
  (fun r => (r.1, set_included marked_at r.2)) <$> messages_selected.

(** [get_unlabeled_messages], scheduler.py 32-131: the list returned
    ([None] when the session raised) and the store afterwards. The
    objects returned are those of the [SELECT], as the [UPDATE] has left
    them. *)
Definition get_unlabeled_messages (cfg : Config) (c : Cache) (env : DigestEnv)
    (hours limit : Z) (db : Store) : option (list Selected) * Store :=
  if d_session_raises env then (None, db)
  else
    let messages_selected := selection cfg c env hours limit db in
    (Some (synchronise (d_marked_at env) messages_selected),
     mark_included messages_selected (d_marked_at env) db).

(** *** Two calls in one event loop

    A call suspends at each [await]: once for the [SELECT] and once
    for the [UPDATE] and the commit. Between two suspensions of one
    call the other may run. Each statement acts on the table as it is
    when the statement runs: database.py leaves the isolation level at
    the engine's default and, for SQLite, shares one connection between
    all sessions ([StaticPool]); the [SELECT] takes no row lock and the
    [UPDATE] is keyed by [id] alone. *)

Inductive Progress : Type :=
| Ready
| HasSelected (rows : list Selected)
| Returned (rows : list Selected).

Record Call : Type := {
  call_env : DigestEnv;
  call_hours : Z;
  call_limit : Z
}.

Record World : Type := {
  w_store : Store;
  w_first : Progress;
  w_second : Progress
}.

(** One statement of a call. *)
Definition advance (cfg : Config) (c : Cache) (k : Call) (p : Progress)
    (db : Store) : Progress * Store :=
  match p with
  | Ready =>
      (HasSelected
         (selection cfg c (call_env k) (call_hours k) (call_limit k) db), db)
  | HasSelected rows =>
      (Returned (synchronise (d_marked_at (call_env k)) rows),
       mark_included rows (d_marked_at (call_env k)) db)
  | Returned rows => (Returned rows, db)
  end.

(** Which call runs next. *)
Inductive Turn : Type := First | Second.

Definition step (cfg : Config) (c : Cache) (k1 k2 : Call) (w : World)
    (t : Turn) : World :=
  match t with
  | First =>
      let '(p, db) := advance cfg c k1 (w_first w) (w_store w) in
      {| w_store := db; w_first := p; w_second := w_second w |}
  | Second =>
      let '(p, db) := advance cfg c k2 (w_second w) (w_store w) in
      {| w_store := db; w_first := w_first w; w_second := p |}
  end.

Definition run (cfg : Config) (c : Cache) (k1 k2 : Call)
    (schedule : list Turn) (db : Store) : World :=
  foldl (step cfg c k1 k2)
    {| w_store := db; w_first := Ready; w_second := Ready |} schedule.

(** The identifiers a call has returned. *)
Definition returned_ids (p : Progress) : list Z :=
  match p with
  | Returned rows => rows.*1
  | _ => []
  end.

End Scheduler.

(** ** bot.py: the feedback handlers *)

Module Bot.
Import Models Userbot.

(** [s.split(":")]. *)
Fixpoint split_colon (s : string) : list string :=
  match s with
  | EmptyString => [EmptyString]
  | String c s' =>
      if Ascii.eqb c ":" then EmptyString :: split_colon s'
      else
        match split_colon s' with
        | part :: parts => String c part :: parts
        | [] => [String c EmptyString]
        end
  end.

(** The digits of an [int()] literal: groups of digits separated by
    single underscores. *)
Fixpoint int_digits (acc : Z) (after_digit : bool) (s : string) : option Z :=
  match s with
  | EmptyString => if after_digit then Some acc else None
  | String c s' =>
      if Utils.is_digit c
      then int_digits (10 * acc + Utils.digit_value c) true s'
      else if Ascii.eqb c "_" && after_digit then int_digits acc false s'
      else None
  end.

(** [int(s)]: [None] stands for [ValueError]. *)
Definition int (s : string) : option Z :=
  match Utils.strip s with
  | String "-" s' => Z.opp <$> int_digits 0 false s'
  | String "+" s' => int_digits 0 false s'
  | s' => int_digits 0 false s'
  end.

Definition nl : string := String (ascii_of_nat 10) EmptyString.

Definition upper_char (c : ascii) : ascii :=
  if Utils.is_lower c then ascii_of_nat (nat_of_ascii c - 32) else c.

(** [s.title()]. *)
Fixpoint title_from (in_word : bool) (s : string) : string :=
  match s with
  | EmptyString => EmptyString
  | String c s' =>
      let cased := Utils.is_lower c || Utils.is_upper c in
      String (if cased
              then if in_word then Utils.lower_char c else upper_char c
              else c)
        (title_from cased s')
  end.
Definition title (s : string) : string := title_from false s.

Definition valid_labels : list string := ["high"; "medium"; "low"].

(** [get_priority_emoji], utils.py 165-171. *)
Definition get_priority_emoji (label : string) : string :=
  if String.eqb label "high" then "🔴"
  else if String.eqb label "medium" then "🟡"
  else if String.eqb label "low" then "🟢"
  else "⚪".

(** What the label handler shows with [query.edit_message_text]. *)
Inductive Reply : Type :=
| InvalidCallbackData
| InvalidCallbackFormat
| UnknownAction (action : string)
| InvalidMessageId (message_id_str : string)
| NonPositiveMessageId (message_id : Z)
| InvalidPriority (label : string)
| MessageNotFound
| DatabaseErrorReply
| Confirmation (text : string)
| ErrorProcessing.

(** How the retry loop of bot.py 204-246 ends. *)
Inductive LabelOutcome : Type :=
| LabelUpdated (db : Store)
| LabelNotFound
| LabelDatabaseError.

(** The retry loop, from [attempt] on with [fuel] rounds left;
    [locked k] says that the storage raises [OperationalError] at
    attempt [k] (the transaction is then rolled back). *)
Fixpoint label_attempts (fuel attempt : nat) (locked : nat -> bool)
    (message_id : Z) (label : string) (now : Z) (db : Store) : LabelOutcome :=
  match fuel with
  | O => LabelUpdated db
  | S fuel' =>
      if locked attempt then
        if (attempt <? max_retries - 1)%nat
        then label_attempts fuel' (S attempt) locked message_id label now db
        else LabelDatabaseError
      else
        match messages db !! message_id with
        | None => LabelNotFound
        | Some _ => LabelUpdated (update_row message_id (set_label label now) db)
        end
  end.

(** The storage, the clock and the front-end during one label
    callback; [edit_raises] is the final [edit_message_text]. *)
Record LabelEnv : Type := {
  l_locked : nat -> bool;
  l_now : Z;
  l_edit_raises : bool
}.

(** [handle_label_callback], bot.py 88-277: the text shown and the
    store afterwards. [data] is [query.data], [shown] is
    [query.message.text]. *)
Definition handle_label_callback (env : LabelEnv) (data : option string)
    (shown : string) (db : Store) : Reply * Store :=
  match data with
  | None => (InvalidCallbackData, db)
  | Some d =>
      if negb (Utils.truthy data) then (InvalidCallbackData, db)
      else
        match split_colon d with
        | [action; message_id_str; label] =>
            if negb (String.eqb action "label") then (UnknownAction action, db)
            else
              match int message_id_str with
              | None => (InvalidMessageId message_id_str, db)
              | Some message_id =>
                  if message_id <=? 0 then (NonPositiveMessageId message_id, db)
                  else if negb (bool_decide (label ∈ valid_labels))
                  then (InvalidPriority label, db)
                  else
                    match label_attempts max_retries 0 (l_locked env)
                            message_id label (l_now env) db with
                    | LabelNotFound => (MessageNotFound, db)
                    | LabelDatabaseError => (DatabaseErrorReply, db)
                    | LabelUpdated db' =>
                        let emoji := get_priority_emoji label in
                        let confirmation :=
                          emoji +:+ " Marked as *" +:+ title label +:+ "* Priority" in
                        if l_edit_raises env then (ErrorProcessing, db')
                        else (Confirmation (shown +:+ nl +:+ nl +:+ confirmation), db')
                    end
              end
        | _ => (InvalidCallbackFormat, db)
        end
  end.

(** *** Mute *)

(** [duration_map], bot.py 395-401: the [timedelta] in seconds
    ([None] for ever) and the text displayed. *)
Definition duration_map (action : string) : option (option Z * string) :=
  if String.eqb action "mute_1h" then Some (Some 3600, "1 hour")
  else if String.eqb action "mute_8h" then Some (Some (8 * 3600), "8 hours")
  else if String.eqb action "mute_1d" then Some (Some 86400, "1 day")
  else if String.eqb action "mute_1w" then Some (Some (7 * 86400), "1 week")
  else if String.eqb action "mute_forever" then Some (None, "forever")
  else None.

(** [int(datetime(2038, 1, 1).timestamp())], on a UTC clock. *)
Definition year_2038 : Z := 2145916800.

(** A call to the transport collaborator returns or raises. *)
Inductive Transport : Type :=
| TransportOk
| TransportRaises (error : string).

(** The final [edit_message_text] of the mute handler. *)
Inductive Edit : Type :=
| EditOk
| EditNotModified
| EditRaises.

(** The collaborators during one mute callback: the storage lookup,
    [client.get_input_entity], the [UpdateNotifySettingsRequest], the
    final edit, and the clock. *)
Record MuteEnv : Type := {
  m_lookup_raises : bool;
  m_resolve : Transport;
  m_request : Transport;
  m_edit : Edit;
  m_now : Z
}.

Inductive MuteReply : Type :=
| MuteInvalidFormat
| MuteUnknownDuration
| MuteMessageNotFound
| MuteCouldNot (error : string)
| MuteConfirmed (chat_title : string) (duration_display : string)
| MuteNothingEdited
| MuteError.

(** The settings request sent to the transport. *)
Record MuteRequest : Type := {
  r_chat_id : Z;
  r_mute_until : Z
}.

(** [handle_mute_callback], bot.py 366-567: the reply, the request
    issued (if the handler got that far) and the cache afterwards. *)
Definition handle_mute_callback (env : MuteEnv) (data : string)
    (db : Store) (c : Cache) : MuteReply * option MuteRequest * Cache :=
  match split_colon data with
  | [action; message_id_str; chat_id_str] =>
      match int message_id_str, int chat_id_str with
      | Some message_id, Some chat_id =>
          match duration_map action with
          | None => (MuteUnknownDuration, None, c)
          | Some (duration_timedelta, duration_display) =>
              if m_lookup_raises env then (MuteError, None, c)
              else
                match messages db !! message_id with
                | None => (MuteMessageNotFound, None, c)
                | Some message =>
                    let chat_title :=
                      match Models.chat_title message with
                      | Some t =>
                          if Utils.truthy (Some t) then t else "Unknown Chat"
                      | None => "Unknown Chat"
                      end in
                    match m_resolve env with
                    | TransportRaises e => (MuteCouldNot e, None, c)
                    | TransportOk =>
                        let mute_until :=
                          match duration_timedelta with
                          | None => year_2038
                          | Some delta =>
                              (m_now env + delta * us_per_second) / us_per_second
                          end in
                        let request :=
                          {| r_chat_id := chat_id; r_mute_until := mute_until |} in
                        match m_request env with
                        | TransportRaises e => (MuteCouldNot e, Some request, c)
                        | TransportOk =>
                            let c := add_muted_chat chat_id c in
                            match m_edit env with
                            | EditOk =>
                                (MuteConfirmed chat_title duration_display,
                                 Some request, c)
                            | EditNotModified => (MuteNothingEdited, Some request, c)
                            | EditRaises => (MuteError, Some request, c)
                            end
                        end
                    end
                end
          end
      | _, _ => (MuteError, None, c)
      end
  | _ => (MuteInvalidFormat, None, c)
  end.

End Bot.

(** ** The operations of the core on the store *)

Module Lifecycle.
Import Models Userbot.

(** One operation of the core that can write to the [messages] table:
    an inbound event, a direct [save_message], an alert, a digest
    selection, a label callback. (The mute callbacks only read it; bulk
    deletion is a maintenance script outside the core.) *)
Inductive core_step : Store -> Store -> Prop :=
| step_ingest cfg client_user_id client_username prefs_raise env c ev db :
    core_step db
      (handle_new_message cfg client_user_id client_username prefs_raise
         env c ev db).2
| step_save cfg c env a db :
    core_step db (save_message cfg c env a db)
| step_alert env message_id now db :
    core_step db (send_warning_for_message env message_id now db)
| step_digest cfg c env hours limit db :
    core_step db (Scheduler.get_unlabeled_messages cfg c env hours limit db).2
| step_label env data shown db :
    core_step db (Bot.handle_label_callback env data shown db).2.

(** Neither flag of [m] is lowered in [m']. *)
Definition flags_kept (m m' : Message) : Prop :=
  (included_in_summary m = true -> included_in_summary m' = true)
  /\ (warning_sent m = true -> warning_sent m' = true).

(** Every row of [db] is still in [db'], with no flag lowered. *)
Definition rows_kept (db db' : Store) : Prop :=
  forall id m, messages db !! id = Some m ->
    exists m', messages db' !! id = Some m' /\ flags_kept m m'.

End Lifecycle.

(** ** utils.py: text helpers *)

Module Text.

(** [text[:k]] for [k >= 0]. *)
Fixpoint take (k : nat) (s : string) : string :=
  match k, s with
  | O, _ => EmptyString
  | S _, EmptyString => EmptyString
  | S k', String c s' => String c (take k' s')
  end.

(** [text[:stop]]: a negative [stop] counts from the end. *)
Definition prefix (stop : Z) (s : string) : string :=
  if 0 <=? stop then take (Z.to_nat stop) s
  else take (Z.to_nat (Utils.len s + stop)) s.

Definition DEFAULT_TRUNCATE_LENGTH : Z := 200.
Definition MESSAGE_CARD_PREVIEW_LENGTH : Z := 150.
Definition WARNING_PREVIEW_LENGTH : Z := 200.

(** [truncate_text], utils.py 154-162. *)
Definition truncate_text (text : option string) (max_length : Z) : string :=
  match text with
  | None => "[No text]"
  | Some t =>
      if negb (Utils.truthy text) then "[No text]"
      else if Utils.len t <=? max_length then t
      else prefix (max_length - 3) t +:+ "..."
  end.

(** [s.replace(c, new)] for a pattern of one character. *)
Fixpoint replace_char (c : ascii) (new : string) (s : string) : string :=
  match s with
  | EmptyString => EmptyString
  | String a s' =>
      if Ascii.eqb a c then new +:+ replace_char c new s'
      else String a (replace_char c new s')
  end.

Definition backslash : ascii := ascii_of_nat 92.

Definition special_chars : list ascii :=
  [ "_"; "*"; "["; "]"; "("; ")"; "~"; "`"; ">"; "#"; "+"; "-"; "="; "|";
    "{"; "}"; "."; "!" ]%char.

(** [escape_markdown], utils.py 316-321: one [replace] per special
    character, in turn. *)
Definition escape_markdown (text : string) : string :=
  foldl (fun text char =>
           replace_char char (String backslash (String char EmptyString)) text)
    text special_chars.

(** The preview on a digest card, bot.py 1559. *)
Definition card_text_preview (message_text : option string) : string :=
  escape_markdown (truncate_text message_text MESSAGE_CARD_PREVIEW_LENGTH).

(** The preview in an alert, userbot.py 152. *)
Definition warning_text_preview (message_text : option string) : string :=
  escape_markdown (truncate_text message_text WARNING_PREVIEW_LENGTH).

(** [str(i)], and [{i}] in an f-string, for an [int]. *)
Definition str_int (i : Z) : string := NilZero.string_of_int (Z.to_int i).

End Text.

(** ** bot.py: keyboards, dispatch and the other mute callbacks *)

Module Keyboards.
Import Models Userbot Bot.

Record Button : Type := {
  b_text : string;
  callback_data : string
}.

(** [create_priority_keyboard], bot.py 50-85. The button texts, here
    and in the keyboards below, are the literals of the source byte for
    byte. *)
Definition create_priority_keyboard (c : Cache) (message_id chat_id : Z)
    (chat_title : string) : list (list Button) :=
  let muted_chats := get_muted_chats c in
  let is_muted := bool_decide (chat_id ∈ muted_chats) in
  [ [ {| b_text := "üî¥ High";
         callback_data := "label:" +:+ Text.str_int message_id +:+ ":high" |};
      {| b_text := "üü° Medium";
         callback_data := "label:" +:+ Text.str_int message_id +:+ ":medium" |};
      {| b_text := "üü¢ Low";
         callback_data := "label:" +:+ Text.str_int message_id +:+ ":low" |} ];
    [ {| b_text := if is_muted then "üîä Unmute Chat" else "üö´ Ignore Chat";
         callback_data :=
           if is_muted
           then "unmute:" +:+ Text.str_int message_id +:+ ":" +:+ Text.str_int chat_id
           else "ignore:" +:+ Text.str_int message_id +:+ ":" +:+ Text.str_int chat_id |} ] ].

(** The duration keyboard of [handle_ignore_callback], bot.py 333-348. *)
Definition duration_keyboard (message_id chat_id : Z) : list (list Button) :=
  let ids := Text.str_int message_id +:+ ":" +:+ Text.str_int chat_id in
  [ [ {| b_text := "‚è∞ 1 hour"; callback_data := "mute_1h:" +:+ ids |};
      {| b_text := "‚è∞ 8 hours"; callback_data := "mute_8h:" +:+ ids |} ];
    [ {| b_text := "‚è∞ 1 day"; callback_data := "mute_1d:" +:+ ids |};
      {| b_text := "‚è∞ 1 week"; callback_data := "mute_1w:" +:+ ids |} ];
    [ {| b_text := "üîá Forever"; callback_data := "mute_forever:" +:+ ids |} ];
    [ {| b_text := "‚ùå Cancel";
         callback_data := "cancel_mute:" +:+ Text.str_int message_id |} ] ].


(** [message.chat_title or "Unknown Chat"]. *)
Definition title_or_unknown_chat (message : Message) : string :=
  match Models.chat_title message with
  | Some t => if Utils.truthy (Some t) then t else "Unknown Chat"
  | None => "Unknown Chat"
  end.


Inductive UnmuteReply : Type :=
| UnmuteInvalidFormat
| UnmuteMessageNotFound
| UnmuteCouldNot (error : string)
| UnmuteConfirmed (chat_title_safe : string)
| UnmuteNothingEdited
| UnmuteError.

(** [handle_unmute_callback], bot.py 570-691: the reply, the settings
    request issued ([mute_until = 0]), if the handler got that far, and
    the cache afterwards. The collaborators are those of the mute
    callback. *)
Definition handle_unmute_callback (env : MuteEnv) (data : string)
    (db : Store) (c : Cache) : UnmuteReply * option MuteRequest * Cache :=
  match split_colon data with
  | [_; message_id_str; chat_id_str] =>
      match int message_id_str, int chat_id_str with
      | Some message_id, Some chat_id =>
          if m_lookup_raises env then (UnmuteError, None, c)
          else
            match messages db !! message_id with
            | None => (UnmuteMessageNotFound, None, c)
            | Some message =>
                let chat_title := title_or_unknown_chat message in
                match m_resolve env with
                | TransportRaises e => (UnmuteCouldNot e, None, c)
                | TransportOk =>
                    let request := {| r_chat_id := chat_id; r_mute_until := 0 |} in
                    match m_request env with
                    | TransportRaises e => (UnmuteCouldNot e, Some request, c)
                    | TransportOk =>
                        let c := remove_muted_chat chat_id c in
                        let chat_title_safe := Text.escape_markdown chat_title in
                        match m_edit env with
                        | EditOk => (UnmuteConfirmed chat_title_safe, Some request, c)
                        | EditNotModified => (UnmuteNothingEdited, Some request, c)
                        | EditRaises => (UnmuteError, Some request, c)
                        end
                    end
                end
            end
      | _, _ => (UnmuteError, None, c)
      end
  | _ => (UnmuteInvalidFormat, None, c)
  end.

(** The keyboard [send_message_card] attaches to a card, bot.py 1589. *)
Definition card_keyboard (c : Cache) (message_id : Z) (message : Message)
    : list (list Button) :=
  create_priority_keyboard c message_id (chat_id message)
    (match Models.chat_title message with
     | Some t => if Utils.truthy (Some t) then t else "Unknown"
     | None => "Unknown"
     end).

Inductive CancelReply : Type :=
| CancelRestored (keyboard : list (list Button))
| CancelNotFound
| CancelLogged.

(** [handle_cancel_mute_callback], bot.py 694-737: the card's keyboard
    is built again from the stored row. An exception ([parts[1]]
    missing, [int] failing, the storage or the edit raising) is logged
    and nothing is shown. *)
Definition handle_cancel_mute_callback (lookup_raises edit_raises : bool)
    (data : string) (db : Store) (c : Cache) : CancelReply :=
  match split_colon data with
  | _ :: message_id_str :: _ =>
      match int message_id_str with
      | Some message_id =>
          if lookup_raises then CancelLogged
          else
            match messages db !! message_id with
            | Some message =>
                let keyboard :=
                  create_priority_keyboard c message_id (chat_id message)
                    (match Models.chat_title message with
                     | Some t => if Utils.truthy (Some t) then t else "Unknown"
                     | None => "Unknown"
                     end) in
                if edit_raises then CancelLogged else CancelRestored keyboard
            | None => if edit_raises then CancelLogged else CancelNotFound
            end
      | None => CancelLogged
      end
  | _ => CancelLogged
  end.

(** The callback handlers registered by [start_bot], bot.py 1731-1740. *)
Inductive Handler : Type :=
| ConfigCallback
| LabelCallback
| IgnoreCallback
| MuteCallback
| UnmuteCallback
| CancelMuteCallback.

(** The registrations in order, each with the prefix its pattern
    matches at the start of the data. *)
Definition registered : list (string * Handler) :=
  [ ("config:", ConfigCallback); ("set_", ConfigCallback);
    ("label:", LabelCallback); ("ignore:", IgnoreCallback);
    ("mute_", MuteCallback); ("unmute:", UnmuteCallback);
    ("cancel_mute:", CancelMuteCallback) ].

(** The first registered handler whose pattern matches. *)
Definition dispatch (data : string) : option Handler :=
  snd <$> List.find (fun r => Utils.startswith (fst r) data) registered.

End Keyboards.

(** ** bot.py: the interactive configuration *)

Module Preferences.
Import Models Userbot Bot Keyboards.

Definition with_preferences (ps : gmap Z UserPreferences) (db : Store) : Store :=
  {| messages := messages db; user_preferences := ps |}.

(** [get_or_create_user_preferences], bot.py 1133-1158: the row, and the
    store with the row added when it was not there. *)
Definition get_or_create_user_preferences (cfg : Config) (user_id : Z)
    (db : Store) : UserPreferences * Store :=
  match user_preferences db !! user_id with
  | Some prefs => (prefs, db)
  | None =>
      let prefs :=
        {| user_context := None;
           min_priority_score := Some (cfg_min_priority_score cfg);
           warning_threshold_score := Some (cfg_warning_threshold_score cfg);
           ignore_large_groups := cfg_ignore_large_groups cfg;
           max_group_size := cfg_max_group_size cfg;
           ignore_muted_chats := cfg_ignore_muted_chats cfg |} in
      (prefs, with_preferences (<[user_id := prefs]> (user_preferences db)) db)
  end.

(** [UPDATE user_preferences SET ignore_large_groups = v]. *)
Definition set_ignore_large_groups (v : bool) (p : UserPreferences)
    : UserPreferences :=
  {| user_context := user_context p;
     min_priority_score := min_priority_score p;
     warning_threshold_score := warning_threshold_score p;
     ignore_large_groups := v;
     max_group_size := max_group_size p;
     ignore_muted_chats := ignore_muted_chats p |}.

(** [UPDATE user_preferences SET ignore_muted_chats = v]. *)
Definition set_ignore_muted_chats (v : bool) (p : UserPreferences)
    : UserPreferences :=
  {| user_context := user_context p;
     min_priority_score := min_priority_score p;
     warning_threshold_score := warning_threshold_score p;
     ignore_large_groups := ignore_large_groups p;
     max_group_size := max_group_size p;
     ignore_muted_chats := v |}.

(** [UPDATE user_preferences SET warning_threshold_score = v]. *)
Definition set_warning_threshold_score (v : Z) (p : UserPreferences)
    : UserPreferences :=
  {| user_context := user_context p;
     min_priority_score := min_priority_score p;
     warning_threshold_score := Some v;
     ignore_large_groups := ignore_large_groups p;
     max_group_size := max_group_size p;
     ignore_muted_chats := ignore_muted_chats p |}.

(** [UPDATE user_preferences SET min_priority_score = v]. *)
Definition set_min_priority_score (v : Z) (p : UserPreferences)
    : UserPreferences :=
  {| user_context := user_context p;
     min_priority_score := Some v;
     warning_threshold_score := warning_threshold_score p;
     ignore_large_groups := ignore_large_groups p;
     max_group_size := max_group_size p;
     ignore_muted_chats := ignore_muted_chats p |}.

(** [UPDATE user_preferences SET ... WHERE user_id = user_id]. *)
Definition update_preferences (user_id : Z)
    (f : UserPreferences -> UserPreferences) (db : Store) : Store :=
  with_preferences (alter f user_id (user_preferences db)) db.

(** The keyboard of [build_config_message_and_keyboard], bot.py
    1270-1287. *)
Definition config_keyboard (prefs : UserPreferences) : list (list Button) :=
  [ [ {| b_text := "üö® Warning Threshold";
         callback_data := "config:warning_threshold" |};
      {| b_text := "üìä Min Priority"; callback_data := "config:min_priority" |} ];
    [ {| b_text := "üè¢ Large Groups: "
                   +:+ (if ignore_large_groups prefs then "ON" else "OFF");
         callback_data := "config:toggle_large_groups" |} ];
    [ {| b_text := "üîá Muted Chats: "
                   +:+ (if ignore_muted_chats prefs then "ON" else "OFF");
         callback_data := "config:toggle_muted" |} ] ].

(** [range(start, stop, step)] for a positive [step]. *)
Definition range (start stop step : Z) : list Z :=
  (fun k => start + step * Z.of_nat k)
    <$> seq 0 (Z.to_nat ((stop - start + step - 1) / step)).

(** The keyboard of values shown for a threshold, bot.py 1408-1417 and
    1432-1441; [command] is [set_warning] or [set_min]. *)
Definition threshold_keyboard (command : string) : list (list Button) :=
  ((fun i =>
      let row :=
        [ {| b_text := Text.str_int i;
             callback_data := command +:+ ":" +:+ Text.str_int i |} ] in
      if i + 1 <=? 10
      then (row ++ [ {| b_text := Text.str_int (i + 1);
                        callback_data :=
                          command +:+ ":" +:+ Text.str_int (i + 1) |} ])%list
      else row) <$> range 0 11 2)
  ++ [ [ {| b_text := "¬´ Back to Config"; callback_data := "config:back" |} ] ].

(** [callback_data.split(":", 1)[1]], when there is a colon. *)
Fixpoint after_first_colon (s : string) : option string :=
  match s with
  | EmptyString => None
  | String c s' => if Ascii.eqb c ":" then Some s' else after_first_colon s'
  end.

(** The storage and the front-end during one configuration callback:
    whether the [k]-th session of the callback raises (its transaction
    is then rolled back), and whether the final edit does. *)
Record ConfigEnv : Type := {
  cf_raises : nat -> bool;
  cf_edit_raises : bool
}.

Inductive ConfigReply : Type :=
| ConfigNoData
| ConfigInvalidAction (data : string)
| ConfigPage (prefs : UserPreferences) (keyboard : list (list Button))
| ConfigChoose (current : option Z) (keyboard : list (list Button))
| ConfigUnhandled (action : string)
| ConfigError.

(** "Re-fetch updated preferences and show config page", in session
    [k]. *)
Definition show_config_page (cfg : Config) (env : ConfigEnv) (k : nat)
    (db : Store) : ConfigReply * Store :=
  if cf_raises env k then (ConfigError, db)
  else
    let '(updated_prefs, db) :=
      get_or_create_user_preferences cfg (client_user_id cfg) db in
    if cf_edit_raises env then (ConfigError, db)
    else (ConfigPage updated_prefs (config_keyboard updated_prefs), db).

(** An [UPDATE] in session 1, then the page. *)
Definition update_and_show (cfg : Config) (env : ConfigEnv)
    (f : UserPreferences -> UserPreferences) (db : Store)
    : ConfigReply * Store :=
  if cf_raises env 1 then (ConfigError, db)
  else show_config_page cfg env 2 (update_preferences (client_user_id cfg) f db).

(** [handle_config_callback], bot.py 1313-1536: what is shown and the
    store afterwards. Every exception ends in the error reply of the
    outer [except]. *)
Definition handle_config_callback (cfg : Config) (env : ConfigEnv)
    (data : option string) (db : Store) : ConfigReply * Store :=
  match data with
  | None => (ConfigNoData, db)
  | Some callback_data =>
      if negb (Utils.truthy data) then (ConfigNoData, db)
      else if negb (Utils.startswith "config:" callback_data
                    || Utils.startswith "set_" callback_data)
      then (ConfigInvalidAction callback_data, db)
      else
        let action :=
          match after_first_colon callback_data with
          | Some rest => rest
          | None => callback_data
          end in
        if cf_raises env 0 then (ConfigError, db)
        else
          let '(prefs, db) :=
            get_or_create_user_preferences cfg (client_user_id cfg) db in
          if String.eqb action "toggle_large_groups" then
            let new_value := negb (ignore_large_groups prefs) in
            update_and_show cfg env (set_ignore_large_groups new_value) db
          else if String.eqb action "toggle_muted" then
            let new_value := negb (ignore_muted_chats prefs) in
            update_and_show cfg env (set_ignore_muted_chats new_value) db
          else if String.eqb action "warning_threshold" then
            if cf_edit_raises env then (ConfigError, db)
            else (ConfigChoose (warning_threshold_score prefs)
                    (threshold_keyboard "set_warning"), db)
          else if String.eqb action "min_priority" then
            if cf_edit_raises env then (ConfigError, db)
            else (ConfigChoose (min_priority_score prefs)
                    (threshold_keyboard "set_min"), db)
          else if String.eqb action "back" then show_config_page cfg env 1 db
          else if Utils.startswith "set_warning:" callback_data then
            match split_colon callback_data with
            | _ :: value_str :: _ =>
                match int value_str with
                | Some value =>
                    update_and_show cfg env (set_warning_threshold_score value) db
                | None => (ConfigError, db)
                end
            | _ => (ConfigError, db)
            end
          else if Utils.startswith "set_min:" callback_data then
            match split_colon callback_data with
            | _ :: value_str :: _ =>
                match int value_str with
                | Some value =>
                    update_and_show cfg env (set_min_priority_score value) db
                | None => (ConfigError, db)
                end
            | _ => (ConfigError, db)
            end
          else if cf_edit_raises env then (ConfigError, db)
          else (ConfigUnhandled action, db)
  end.

End Preferences.

(** ** scheduler.py: the digest job *)

Module Summary.
Import Models Userbot Scheduler.

(** [get_message_stats], scheduler.py 134-158: the number of rows in
    the window and the number of distinct conversations among them. The
    two counts are two statements awaited one after the other; [later]
    is what the other tasks have made of the store by the second. *)
Definition get_message_stats (now hours : Z) (later : Store -> Store)
    (db : Store) : Z * Z :=
  let cutoff_time := now - hours * ticks_per_hour in
  let recent (db : Store) :=
    filter (fun kv : Z * Message => cutoff_time <= timestamp kv.2)
      (map_to_list (messages db)) in
  let total_messages := Z.of_nat (length (recent db)) in
  let unique_chats :=
    Z.of_nat (size (list_to_set (chat_id <$> (recent (later db)).*2) : gset Z)) in
  (total_messages, unique_chats).

(** The clock and the collaborators during one run of the job: [now]
    when the statistics are taken, whether that session raises, what
    the other tasks of the event loop have made of the store by the
    second count of the statistics and by the time the selection runs
    (the statistics and the selection are awaited one after the other,
    each in its own session, and ingestion and the callbacks are free to
    run in between), the digest selection's own environment, and whether
    sending the outcome to the client raises. *)
Record SummaryEnv : Type := {
  s_stats_now : Z;
  s_stats_raise : bool;
  s_between_counts : Store -> Store;
  s_meanwhile : Store -> Store;
  s_digest : DigestEnv;
  s_send_raises : bool
}.

(** What the job tells the client. *)
Inductive Notice : Type :=
| QuietNotice (hours : Z)
| NothingPending (hours total_messages : Z)
| Digest (messages : list Selected) (total_messages total_chats hours : Z)
| ErrorNotice.

(** [generate_and_send_summary], scheduler.py 161-244. [hours] and
    [max_messages] are [config.scheduler.summary_interval_hours] and
    [config.scheduler.max_messages_per_summary]. Every exception ends
    in the error notice of the outer [except]. *)
Definition generate_and_send_summary (hours max_messages : Z) (cfg : Config)
    (c : Cache) (env : SummaryEnv) (db : Store) : Notice * Store :=
  if s_stats_raise env then (ErrorNotice, db)
  else
    let '(total_messages, unique_chats) :=
      get_message_stats (s_stats_now env) hours (s_between_counts env) db in
    if total_messages =? 0 then
      if s_send_raises env then (ErrorNotice, db)
      else (QuietNotice hours, db)
    else
      let db := s_meanwhile env db in
      match get_unlabeled_messages cfg c (s_digest env) hours max_messages db with
      | (None, db) => (ErrorNotice, db)
      | (Some [], db) =>
          if s_send_raises env then (ErrorNotice, db)
          else (NothingPending hours total_messages, db)
      | (Some messages, db) =>
          if s_send_raises env then (ErrorNotice, db)
          else (Digest messages total_messages unique_chats hours, db)
      end.

End Summary.

(** ** cleanup_filtered_messages.py *)

Module Cleanup.
Import Models Userbot.

(** [get_message_counts_by_chat], cleanup_filtered_messages.py 33-55:
    the rows of the [GROUP BY], as a dict. *)
Definition get_message_counts_by_chat (chat_ids : gset Z) (db : Store)
    : gmap Z Z :=
  if bool_decide (chat_ids = ∅) then ∅
  else
    foldr (fun (kv : Z * Message) (counts : gmap Z Z) =>
             if bool_decide (chat_id kv.2 ∈ chat_ids)
             then <[chat_id kv.2 := default 0 (counts !! chat_id kv.2) + 1]> counts
             else counts)
      ∅ (map_to_list (messages db)).

(** [sum(message_counts.values())]. *)
Definition sum_values (counts : gmap Z Z) : Z :=
  map_fold (fun _ count total => count + total) 0 counts.

(** [delete_messages_from_chats], cleanup_filtered_messages.py 58-80:
    the row count of the [DELETE] and the store afterwards. *)
Definition delete_messages_from_chats (chat_ids : gset Z) (db : Store)
    : Z * Store :=
  if bool_decide (chat_ids = ∅) then (0, db)
  else
    let deleted_count :=
      Z.of_nat (size (filter (fun kv : Z * Message => chat_id kv.2 ∈ chat_ids)
                        (messages db))) in
    (deleted_count,
     with_messages
       (filter (fun kv : Z * Message => chat_id kv.2 ∉ chat_ids) (messages db))
       db).

(** [cleanup_filtered_messages], cleanup_filtered_messages.py 83-192,
    once the caches are loaded: the store afterwards. [response] is the
    line typed at the prompt, [None] when the script runs without a
    terminal. *)
Definition cleanup_filtered_messages (cfg : Config) (c : Cache)
    (response : option string) (db : Store) : Store :=
  let muted_chats :=
    if cfg_ignore_muted_chats cfg then get_muted_chats c else ∅ in
  let large_groups :=
    if cfg_ignore_large_groups cfg
    then get_large_group_ids (cfg_max_group_size cfg) c else ∅ in
  let excluded_chats := muted_chats ∪ large_groups in
  if bool_decide (excluded_chats = ∅) then db
  else
    let message_counts := get_message_counts_by_chat excluded_chats db in
    let total_to_delete := sum_values message_counts in
    if total_to_delete =? 0 then db
    else
      let response :=
        match response with
        | Some line => Utils.lower (Utils.strip line)
        | None => "yes"
        end in
      if negb (String.eqb response "yes") then db
      else (delete_messages_from_chats excluded_chats db).2.

End Cleanup.

(** ** database.py: the engine URL *)

Module Database.

(** [s[k:]]. *)
Fixpoint skip (k : nat) (s : string) : string :=
  match k, s with
  | O, _ => s
  | S _, EmptyString => EmptyString
  | S k', String _ s' => skip k' s'
  end.

(** [s.replace(old, new, 1)]: the leftmost occurrence. *)
Fixpoint replace_first (old new s : string) : string :=
  if Utils.startswith old s then new +:+ skip (String.length old) s
  else
    match s with
    | EmptyString => EmptyString
    | String c s' => String c (replace_first old new s')
    end.

(** [_convert_database_url], database.py 26-36. *)
Definition _convert_database_url (url : string) : string :=
  if Utils.startswith "sqlite:///" url
  then replace_first "sqlite:///" "sqlite+aiosqlite:///" url
  else if Utils.startswith "postgresql://" url
  then replace_first "postgresql://" "postgresql+asyncpg://" url
  else if Utils.startswith "postgres://" url
  then replace_first "postgres://" "postgresql+asyncpg://" url
  else url.

(** [_is_sqlite], database.py 39-41. *)
Definition _is_sqlite (url : string) : bool :=
  Utils.contains "sqlite" (Utils.lower url).

End Database.

(** ** config.py: loading the configuration *)

Module Settings.

(** A value, or the [ValueError] raised, with the variable it is
    about. *)
Inductive result (A : Type) : Type :=
| Ok (a : A)
| ValueError (key : string).
Arguments Ok {A} a.
Arguments ValueError {A} key.

#[global] Instance result_ret : MRet result := fun A a => Ok a.
#[global] Instance result_bind : MBind result :=
  fun A B f r =>
    match r with
    | Ok a => f a
    | ValueError key => ValueError key
    end.

(** [if condition: raise ValueError(...)]. *)
Definition check (ok : bool) (key : string) : result unit :=
  if ok then Ok tt else ValueError key.

Record TelegramConfig : Type := {
  api_id : Z;
  api_hash : string;
  phone : string;
  bot_token : string;
  client_user_id : Z;
  password : option string
}.

Record DatabaseConfig : Type := {
  url : string
}.

Record SchedulerConfig : Type := {
  summary_interval_hours : Z;
  max_messages_per_summary : Z;
  min_priority_score : Z;
  timezone : string;
  warning_threshold_score : Z
}.

Record AIConfig (F : Type) : Type := {
  enabled : bool;
  model : string;
  timeout_seconds : F;
  ollama_host : string
}.
Arguments enabled {F} _.
Arguments model {F} _.
Arguments timeout_seconds {F} _.
Arguments ollama_host {F} _.

Record FilterConfig : Type := {
  ignore_large_groups : bool;
  max_group_size : Z;
  ignore_muted_chats : bool
}.

Record Config (F : Type) : Type := {
  telegram : TelegramConfig;
  database : DatabaseConfig;
  scheduler : SchedulerConfig;
  ai : AIConfig F;
  filter : FilterConfig;
  log_level : string
}.
Arguments telegram {F} _.
Arguments database {F} _.
Arguments scheduler {F} _.
Arguments ai {F} _.
Arguments filter {F} _.
Arguments log_level {F} _.

(** [_get_required_env], config.py 70-78; [environ] is [os.environ]. *)
Definition _get_required_env (environ : gmap string string) (key : string)
    : result string :=
  match environ !! key with
  | Some value => if Utils.truthy (Some value) then Ok value else ValueError key
  | None => ValueError key
  end.

(** [_get_optional_env], config.py 81-83. *)
Definition _get_optional_env (environ : gmap string string)
    (key default : string) : string :=
  match environ !! key with
  | Some value => value
  | None => default
  end.

(** [_get_int_env], config.py 86-107. *)
Definition _get_int_env (environ : gmap string string) (key : string)
    (default : option Z) : result Z :=
  value_str ←
    match default with
    | Some d => Ok (_get_optional_env environ key (Text.str_int d))
    | None => _get_required_env environ key
    end;
  match Bot.int value_str with
  | Some value => Ok value
  | None => ValueError key
  end.

Section Float.
(** [float(s)] for the timeout, [None] for [ValueError]. *)
Context {F : Type} (float : string -> option F).

(** [_get_float_env], config.py 110-119; [default] is [str] of the
    default. *)
Definition _get_float_env (environ : gmap string string)
    (key default : string) : result F :=
  let value_str := _get_optional_env environ key default in
  match float value_str with
  | Some value => Ok value
  | None => ValueError key
  end.

(** [load_config], config.py 122-239. *)
Definition load_config (environ : gmap string string) : result (Config F) :=
  api_id ← _get_int_env environ "TELEGRAM_API_ID" None;
  api_hash ← _get_required_env environ "TELEGRAM_API_HASH";
  phone ← _get_required_env environ "TELEGRAM_PHONE";
  bot_token ← _get_required_env environ "BOT_TOKEN";
  client_user_id ← _get_int_env environ "CLIENT_USER_ID" None;
  _ ← check (negb (api_id <=? 0)) "TELEGRAM_API_ID";
  _ ← check (Utils.contains ":" bot_token) "BOT_TOKEN";
  _ ← check (Utils.startswith "+" phone) "TELEGRAM_PHONE";
  let telegram :=
    {| api_id := api_id; api_hash := api_hash; phone := phone;
       bot_token := bot_token; client_user_id := client_user_id;
       password :=
         if Utils.truthy (environ !! "TELEGRAM_PASSWORD")
         then environ !! "TELEGRAM_PASSWORD" else None |} in
  database_url ← _get_required_env environ "DATABASE_URL";
  _ ← check (Utils.startswith "sqlite" database_url
             || Utils.startswith "postgresql" database_url) "DATABASE_URL";
  let database := {| url := database_url |} in
  summary_interval ← _get_int_env environ "SUMMARY_INTERVAL_HOURS" (Some 4);
  max_messages ← _get_int_env environ "MAX_MESSAGES_PER_SUMMARY" (Some 15);
  min_score ← _get_int_env environ "MIN_PRIORITY_SCORE" (Some 1);
  warning_threshold ← _get_int_env environ "WARNING_THRESHOLD_SCORE" (Some 5);
  _ ← check (negb (summary_interval <? 1)) "SUMMARY_INTERVAL_HOURS";
  _ ← check (negb (max_messages <? 1)) "MAX_MESSAGES_PER_SUMMARY";
  _ ← check (negb (min_score <? 0)) "MIN_PRIORITY_SCORE";
  _ ← check (negb ((warning_threshold <? 0) || (10 <? warning_threshold)))
        "WARNING_THRESHOLD_SCORE";
  let scheduler :=
    {| summary_interval_hours := summary_interval;
       max_messages_per_summary := max_messages;
       min_priority_score := min_score;
       timezone := _get_optional_env environ "TIMEZONE" "America/Sao_Paulo";
       warning_threshold_score := warning_threshold |} in
  timeout ← _get_float_env environ "AI_SCORING_TIMEOUT" "3.0";
  let ai :=
    {| enabled :=
         String.eqb
           (Utils.lower (_get_optional_env environ "USE_AI_SCORING" "true"))
           "true";
       model := _get_optional_env environ "AI_MODEL" "llama3.2:3b";
       timeout_seconds := timeout;
       ollama_host :=
         _get_optional_env environ "OLLAMA_HOST" "http://localhost:11434" |} in
  max_group_size ← _get_int_env environ "MAX_GROUP_SIZE" (Some 20);
  _ ← check (negb (max_group_size <? 2)) "MAX_GROUP_SIZE";
  let filter_config :=
    {| ignore_large_groups :=
         String.eqb
           (Utils.lower (_get_optional_env environ "IGNORE_LARGE_GROUPS" "false"))
           "true";
       max_group_size := max_group_size;
       ignore_muted_chats :=
         String.eqb
           (Utils.lower (_get_optional_env environ "IGNORE_MUTED_CHATS" "true"))
           "true" |} in
  Ok {| telegram := telegram; database := database; scheduler := scheduler;
        ai := ai; filter := filter_config;
        log_level := _get_optional_env environ "LOG_LEVEL" "INFO" |}.

End Float.

End Settings.

(** ** Rows the core can have written *)

Module Wellformed.
Import Models.

(** A row as the operations of the core leave it: the score is in the
    range of the two scoring paths, a label is one of the three the label
    handler accepts and comes with its timestamp, and each of the two
    flags is set exactly when its timestamp is. *)
Definition row_consistent (m : Message) : Prop :=
  0 <= priority_score m <= 10
  /\ match label m with
     | None => labeled_at m = None
     | Some l => l ∈ Bot.valid_labels /\ is_Some (labeled_at m)
     end
  /\ (included_in_summary m = true <-> is_Some (summary_sent_at m))
  /\ (warning_sent m = true <-> is_Some (warning_sent_at m)).

Definition store_consistent (db : Store) : Prop :=
  forall id m, messages db !! id = Some m -> row_consistent m.

End Wellformed.

(** ** Concrete data used to exercise the statements *)

Module Sample.
Import Models Userbot.

Definition cfg : Config :=
  {| client_user_id := 1000; bot_user_id := 2000;
     cfg_min_priority_score := 1; cfg_warning_threshold_score := 5;
     ai_enabled := true;
     cfg_ignore_large_groups := true; cfg_max_group_size := 20;
     cfg_ignore_muted_chats := true |}.

(** A row as [save_message] writes it, for a text-only private chat. *)
Definition row (chat score time : Z) : Message :=
  {| telegram_message_id := 1; chat_id := chat; chat_title := None;
     chat_type := private; user_id := chat; user_name := None;
     message_text := Some "hello"; timestamp := time;
     has_mention := false; is_question := false; message_length := 5;
     topic_summary := None; priority_score := score;
     label := None; labeled_at := None;
     included_in_summary := false; summary_sent_at := None;
     warning_sent := false; warning_sent_at := None |}.

Definition store_of (rows : list (Z * Message)) : Store :=
  {| messages := list_to_map rows; user_preferences := ∅ |}.

(** Twelve rows: ten that qualify for a digest at instant 1000 with a
    one-hour window, one from a muted conversation (77) and one that is
    too old. *)
Definition busy_day : Store :=
  store_of
    [ (1, row 42 3 900); (2, row 42 7 910); (3, row 43 5 920);
      (4, row 43 7 930); (5, row 44 1 940); (6, row 44 9 950);
      (7, row 45 2 960); (8, row 45 5 970); (9, row 46 4 980);
      (10, row 46 6 990); (11, row 77 10 995);
      (12, row 42 10 (900 - 3600000000)) ].

Definition muted_77 : Cache :=
  {| _high_priority_users := ∅; _muted_chats := {[ 77 ]}; _group_sizes := ∅ |}.

Definition empty_cache : Cache :=
  {| _high_priority_users := ∅; _muted_chats := ∅; _group_sizes := ∅ |}.

Definition quiet_alert : AlertEnv :=
  {| bot_available := true; send_raises := false; locked := fun _ => false |}.

Definition args (text : string) : SaveArgs :=
  {| a_telegram_message_id := 7; a_chat_id := 42; a_chat_title := None;
     a_chat_type := private; a_user_id := 42; a_user_name := Some "Ann";
     a_message_text := Some text; a_timestamp := 500;
     a_client_username := Some "alice" |}.

(** A configuration whose minimum score is 9, and the busy day with a
    preferences row of the client that lowers the minimum to 1. *)
Definition picky : Config :=
  {| client_user_id := 1000; bot_user_id := 2000;
     cfg_min_priority_score := 9; cfg_warning_threshold_score := 5;
     ai_enabled := true;
     cfg_ignore_large_groups := true; cfg_max_group_size := 20;
     cfg_ignore_muted_chats := true |}.

Definition busy_day_of_a_lenient_user : Store :=
  {| messages := messages busy_day;
     user_preferences :=
       {[ 1000 := {| user_context := None; min_priority_score := Some 1;
                     warning_threshold_score := Some 5;
                     ignore_large_groups := true; max_group_size := 20;
                     ignore_muted_chats := true |} ]} |}.

(** An environment with the required variables and one optional one. *)
Definition environ : gmap string string :=
  list_to_map
    [ ("TELEGRAM_API_ID", "12345"); ("TELEGRAM_API_HASH", "0123abcd");
      ("TELEGRAM_PHONE", "+5511999999999"); ("BOT_TOKEN", "2000:secret");
      ("CLIENT_USER_ID", "1000"); ("DATABASE_URL", "sqlite:///secretary.db");
      ("MAX_GROUP_SIZE", "50") ].

End Sample.

(** * Properties *)

(** ** Scoring *)

Section Scoring.
Import Utils.

Lemma is_long_Some (s : string) :
  is_long (Some s) = (MIN_LONG_MESSAGE_LENGTH <? len s).
Proof. destruct s; reflexivity. Qed.

(** C4. For every optional text and every combination of the mention,
    question and flagged-sender flags, the rule-based score is total
    and equals 3 for a mention, plus 2 for a question, plus 1 for a
    text that is present and longer than 100, plus 2 for a flagged
    sender; it lies between 0 and 8; an absent text contributes
    nothing; a message that is only long scores 1; mention, question
    and flagged sender together score 7, and 8 when the text is also
    long. *)
Theorem calculate_priority_score_rule
    (message_text : option string) (has_mention is_question flagged : bool) :
  let long :=
    match message_text with
    | Some s => 100 <? Z.of_nat (String.length s)
    | None => false
    end in
  let score :=
    calculate_priority_score message_text has_mention is_question flagged in
  score = (if has_mention then 3 else 0) + (if is_question then 2 else 0)
          + (if long then 1 else 0) + (if flagged then 2 else 0)
  ∧ 0 <= score <= 8
  ∧ calculate_priority_score None has_mention is_question flagged
    = (if has_mention then 3 else 0) + (if is_question then 2 else 0)
      + (if flagged then 2 else 0)
  ∧ calculate_priority_score message_text false false false
    = (if long then 1 else 0)
  ∧ calculate_priority_score message_text true true true
    = (if long then 8 else 7).
Proof.
  intros long score. subst score. unfold calculate_priority_score.
  assert (Hl : is_long message_text = long).
  { subst long. destruct message_text as [s|]; [apply is_long_Some | reflexivity]. }
  rewrite Hl. cbn [is_long].
  unfold SCORE_MENTION, SCORE_QUESTION, SCORE_LONG_MESSAGE, SCORE_HIGH_PRIORITY_USER.
  destruct has_mention, is_question, flagged, long; repeat split; lia.
Qed.

End Scoring.

(** ** The store *)

Section StoreFacts.
Import Models Userbot.

Lemma keys_below_fold (l : list (Z * Message)) (k : Z) (m : Message) :
  (k, m) ∈ l → k <= foldr (fun kv acc => Z.max kv.1 acc) 0 l.
Proof.
  induction l as [|[k' m'] l IH]; intros Hin.
  - by apply not_elem_of_nil in Hin.
  - apply elem_of_cons in Hin as [Heq | Hin]; simpl.
    + inversion Heq; subst. lia.
    + specialize (IH Hin). lia.
Qed.

(** The key of an insert is not in use. *)
Lemma fresh_id_fresh (ms : gmap Z Message) : ms !! fresh_id ms = None.
Proof.
  destruct (ms !! fresh_id ms) as [m|] eqn:Hm; [|done].
  apply elem_of_map_to_list in Hm.
  apply keys_below_fold in Hm. unfold fresh_id in Hm. lia.
Qed.

Lemma lookup_update_row (id k : Z) (f : Message → Message) (db : Store) :
  messages (update_row id f db) !! k
  = if decide (id = k) then f <$> messages db !! k else messages db !! k.
Proof.
  unfold update_row, with_messages; simpl.
  destruct (decide (id = k)) as [->|Hne].
  - by rewrite lookup_alter_eq.
  - by rewrite lookup_alter_ne.
Qed.

Lemma mark_warning_sent_cases (fuel attempt : nat) (lk : nat → bool)
    (id now : Z) (db db' : Store) :
  mark_warning_sent fuel attempt lk id now db = Some db' →
  db' = db ∨ db' = update_row id (set_warning now) db.
Proof.
  revert attempt. induction fuel as [|fuel IH]; intros attempt; simpl.
  - intros [= <-]. by left.
  - destruct (lk attempt).
    + destruct (attempt <? _)%nat; [apply IH | discriminate].
    + intros [= <-]. by right.
Qed.

(** An alert leaves the store as it is or marks the one row. *)
Lemma send_warning_cases (env : AlertEnv) (id now : Z) (db : Store) :
  send_warning_for_message env id now db = db
  ∨ send_warning_for_message env id now db = update_row id (set_warning now) db.
Proof.
  unfold send_warning_for_message.
  destruct (bot_available env); cbn [negb]; [|by left].
  destruct (send_raises env); [by left|].
  destruct (mark_warning_sent max_retries 0 (locked env) id now db)
    as [db'|] eqn:H; [|by left].
  apply mark_warning_sent_cases in H as [->| ->]; [by left | by right].
Qed.

End StoreFacts.

(** ** Oracle fallback *)

Section Fallback.
Import Models Userbot.

Lemma oracle_failed_None (text : option string) (o : Utils.oracle_outcome) :
  Utils.truthy text = true →
  Utils.oracle_failed o = true →
  Utils.calculate_ai_priority_score text o = None.
Proof.
  intros Ht Hf. unfold Utils.calculate_ai_priority_score. rewrite Ht. simpl.
  destruct o as [| | |content]; try reflexivity.
  simpl in Hf. by destruct (Utils.first_number content).
Qed.

(** The score a row carries when it was written by [save_message] and
    possibly marked by the alert afterwards. *)
Lemma score_after_alert (env : AlertEnv) (id now : Z) (db : Store) (m : Message) :
  messages db !! id = Some m →
  ∃ m', messages (send_warning_for_message env id now db) !! id = Some m'
        ∧ priority_score m' = priority_score m.
Proof.
  intros Hm.
  destruct (send_warning_cases env id now db) as [-> | ->]; [eauto|].
  rewrite lookup_update_row, decide_True by done. rewrite Hm. simpl. eauto.
Qed.

(** C5. When the scoring oracle is called (the text is not empty) and
    the call fails (timeout, library missing, any other error, or a
    reply without a number), the scoring function returns the no-score
    outcome instead of raising, [save_message] behaves exactly as with
    oracle scoring switched off, and the row it persists (if the insert
    itself succeeds) carries the rule-based score of the same message. *)
Theorem oracle_failure_falls_back
    (cfg : Config) (c : Cache) (env : SaveEnv) (a : SaveArgs) (db : Store) :
  Utils.truthy (a_message_text a) = true →
  Utils.oracle_failed (oracle env) = true →
  let rule_based :=
    Utils.calculate_priority_score (a_message_text a)
      (Utils.detect_mention (a_message_text a) (a_client_username a))
      (Utils.detect_question (a_message_text a))
      (bool_decide (a_user_id a ∈ _high_priority_users c)) in
  let db' := save_message cfg c env a db in
  Utils.calculate_ai_priority_score (a_message_text a) (oracle env) = None
  ∧ db' = save_message (with_ai_enabled false cfg) c env a db
  ∧ (if insert_raises env then db' = db
     else messages db !! fresh_id (messages db) = None
          ∧ ∃ m, messages db' !! fresh_id (messages db) = Some m
                 ∧ priority_score m = rule_based).
Proof.
  intros Ht Hf rule_based db'.
  pose proof (oracle_failed_None _ _ Ht Hf) as Hnone.
  split; [exact Hnone|]. split.
  - subst db'. unfold save_message. rewrite Hnone.
    by destruct (ai_enabled cfg).
  - subst db' rule_based. unfold save_message. rewrite Hnone.
    destruct (insert_raises env); [done|].
    split; [apply fresh_id_fresh|].
    assert (Hscore : (if ai_enabled cfg then None else None) = @None Z)
      by (by destruct (ai_enabled cfg)).
    rewrite Hscore. cbv zeta.
    match goal with
    | |- context [if ?b then send_warning_for_message _ _ _ ?d else _] =>
        destruct b;
        [ edestruct (score_after_alert (alert env) (fresh_id (messages db))
                       (now env) d) as (m' & Hm' & Hs);
          [ simpl; apply lookup_insert_eq | exists m'; split; [exact Hm'|]; rewrite Hs ]
        | eexists; split; [simpl; apply lookup_insert_eq|] ]
    end; reflexivity.
Qed.

(** The fallback on a timeout, for a short private message. *)
Lemma oracle_failure_falls_back_witness :
  let env := {| oracle := Utils.OracleTimeout; topic := None;
                insert_raises := false; threshold_lookup_raises := false;
                alert := Sample.quiet_alert; now := 600 |} in
  let db' := save_message Sample.cfg Sample.empty_cache env
               (Sample.args "are you there") (Sample.store_of []) in
  Utils.calculate_ai_priority_score (Some "are you there") Utils.OracleTimeout = None
  ∧ db' = save_message (with_ai_enabled false Sample.cfg) Sample.empty_cache env
            (Sample.args "are you there") (Sample.store_of [])
  ∧ messages (Sample.store_of []) !! 1 = None
  ∧ ∃ m, messages db' !! 1 = Some m ∧ priority_score m = 2.
Proof.
  intros env db'.
  exact (oracle_failure_falls_back Sample.cfg Sample.empty_cache env
           (Sample.args "are you there") (Sample.store_of [])
           eq_refl eq_refl).
Defined.

End Fallback.

(** ** The group-size filter at ingestion *)

Section GroupFilter.
Import Models Userbot.

Lemma large_group_gate_absent (cfg : Config) (user_prefs : option UserPreferences)
    (c : Cache) (chat : ChatEntity) :
  _group_sizes c !! chat_entity_id chat = None →
  large_group_gate cfg user_prefs c chat = false.
Proof.
  intros Habs. unfold large_group_gate. rewrite Habs.
  destruct (is_group_type _); [|done].
  by destruct user_prefs as [p|];
    [destruct (ignore_large_groups p) | destruct (cfg_ignore_large_groups cfg)].
Qed.

(** C9. A message from a group-type conversation whose participant count
    is not in the group-size cache is never dropped by the oversized-group
    filter, whatever the toggle and the threshold are; and when no other
    gate stops it (it is not the user's or the bot's own message, it has
    text, the conversation is not muted) the handler hands it to
    [save_message]. *)
Theorem absent_group_size_fails_open
    (cfg : Config) (client_user_id : option Z) (client_username : option string)
    (prefs_raise : bool) (env : SaveEnv) (c : Cache) (db : Store) (ev : Event) :
  is_group_type (get_chat_type (ev_chat ev)) = true →
  _group_sizes c !! chat_entity_id (ev_chat ev) = None →
  classify cfg client_user_id client_username prefs_raise c db ev
    ≠ FilteredLargeGroup
  ∧ (¬ (sender_id <$> ev_sender ev = client_user_id ∧ is_Some (ev_sender ev)) →
     sender_id <$> ev_sender ev ≠ Some (bot_user_id cfg) →
     Utils.truthy (ev_raw_text ev) = true →
     chat_entity_id (ev_chat ev) ∉ _muted_chats c →
     handle_new_message cfg client_user_id client_username prefs_raise env c ev db
     = (Processed (save_args client_username ev),
        save_message cfg c env (save_args client_username ev) db)).
Proof.
  intros Hgroup Habs.
  assert (Hclass :
    classify cfg client_user_id client_username prefs_raise c db ev
    = if bool_decide (sender_id <$> ev_sender ev = client_user_id
                      ∧ is_Some (ev_sender ev))
      then SkippedOwn
      else if bool_decide (sender_id <$> ev_sender ev = Some (bot_user_id cfg))
      then SkippedBot
      else if negb (Utils.truthy (ev_raw_text ev)) then SkippedNoText
      else if bool_decide (chat_entity_id (ev_chat ev) ∈ _muted_chats c)
              && match (if prefs_raise then None else load_prefs cfg db) with
                 | Some p => ignore_muted_chats p
                 | None => cfg_ignore_muted_chats cfg
                 end
      then FilteredMuted
      else Processed (save_args client_username ev)).
  { unfold classify. rewrite large_group_gate_absent by done.
    repeat case_bool_decide; try done;
      destruct (negb (Utils.truthy (ev_raw_text ev))); try done;
      destruct (get_chat_type (ev_chat ev)); try done;
      destruct (if prefs_raise then None else load_prefs cfg db) as [p|];
      try destruct (ignore_muted_chats p);
      try destruct (cfg_ignore_muted_chats cfg);
      simpl; repeat case_bool_decide; done. }
  split.
  - rewrite Hclass. repeat case_bool_decide; try done;
      destruct (negb (Utils.truthy (ev_raw_text ev))); try done;
      simpl; by destruct (match _ with Some _ => _ | None => _ end).
  - intros Hown Hbot Htext Hmuted. unfold handle_new_message.
    rewrite Hclass, Htext.
    rewrite !bool_decide_eq_false_2 by done. done.
Qed.

(** A supergroup of unknown size, with the filter switched on and a
    threshold of twenty. *)
Lemma absent_group_size_fails_open_witness :
  let cfg := Sample.cfg in
  let ev := {| ev_message_id := 7; ev_raw_text := Some "release at noon";
               ev_date := 500;
               ev_chat := ChatChannel 31 "team" false true false;
               ev_sender := Some (SenderUser 42 "Ann" None) |} in
  let env := {| oracle := Utils.OracleTimeout; topic := None;
                insert_raises := false; threshold_lookup_raises := false;
                alert := Sample.quiet_alert; now := 600 |} in
  classify cfg (Some 1000) (Some "alice") false Sample.empty_cache
    (Sample.store_of []) ev ≠ FilteredLargeGroup
  ∧ handle_new_message cfg (Some 1000) (Some "alice") false env
      Sample.empty_cache ev (Sample.store_of [])
    = (Processed (save_args (Some "alice") ev),
       save_message cfg Sample.empty_cache env (save_args (Some "alice") ev)
         (Sample.store_of [])).
Proof.
  intros cfg ev env.
  destruct (absent_group_size_fails_open cfg (Some 1000) (Some "alice") false
              env Sample.empty_cache (Sample.store_of []) ev eq_refl eq_refl)
    as [Hne Hproc].
  split; [exact Hne|].
  apply Hproc.
  - intros [Heq _]. discriminate Heq.
  - discriminate.
  - reflexivity.
  - apply not_elem_of_empty.
Defined.

End GroupFilter.

(** ** The two oversized-group checks *)

Section Threshold.
Import Models Userbot.

Lemma elem_of_get_large_group_ids (max_size id : Z) (c : Cache) :
  id ∈ get_large_group_ids max_size c
  ↔ ∃ size, _group_sizes c !! id = Some size ∧ max_size < size.
Proof.
  unfold get_large_group_ids. rewrite elem_of_dom. split.
  - intros [size Hs]. apply map_lookup_filter_Some in Hs as [Hs Hlt]. eauto.
  - intros (size & Hs & Hlt). exists size. by apply map_lookup_filter_Some.
Qed.

(** C10. For a group-type conversation with a cached participant count
    and the ignore-large-groups toggle on, the ingestion gate drops the
    message exactly when the count is greater than or equal to the
    maximum group size, while [get_large_group_ids] contains the
    conversation exactly when the count is strictly greater than the
    threshold. So when the count equals the threshold the message is
    never handed to [save_message], yet the conversation is not among the
    large groups, and it is in the digest's exclusion set only if it is
    muted. *)
Theorem oversized_checks_disagree_at_threshold
    (cfg : Config) (client_user_id : option Z) (client_username : option string)
    (prefs_raise : bool) (c : Cache) (db : Store) (ev : Event) (size : Z) :
  let user_prefs := if prefs_raise then None else load_prefs cfg db in
  let max_group_size :=
    match user_prefs with
    | Some p => max_group_size p
    | None => cfg_max_group_size cfg
    end in
  let id := chat_entity_id (ev_chat ev) in
  is_group_type (get_chat_type (ev_chat ev)) = true →
  _group_sizes c !! id = Some size →
  match user_prefs with
  | Some p => ignore_large_groups p
  | None => cfg_ignore_large_groups cfg
  end = true →
  large_group_gate cfg user_prefs c (ev_chat ev) = (max_group_size <=? size)
  ∧ (∀ threshold, id ∈ get_large_group_ids threshold c ↔ threshold < size)
  ∧ (size = max_group_size →
     large_group_gate cfg user_prefs c (ev_chat ev) = true
     ∧ (∀ a, classify cfg client_user_id client_username prefs_raise c db ev
             ≠ Processed a)
     ∧ (id ∉ get_large_group_ids max_group_size c)
     ∧ (cfg_max_group_size cfg = size →
        (id ∈ Scheduler.excluded_chat_ids cfg c
         ↔ (cfg_ignore_muted_chats cfg = true ∧ id ∈ _muted_chats c)))).
Proof.
  intros user_prefs max_group_size id Hgroup Hcached Htoggle.
  assert (Hgate : large_group_gate cfg user_prefs c (ev_chat ev)
                  = (max_group_size <=? size)).
  { unfold large_group_gate. rewrite Hgroup, Htoggle.
    fold id. by rewrite Hcached. }
  assert (Hids : ∀ threshold,
             id ∈ get_large_group_ids threshold c ↔ threshold < size).
  { intros threshold. rewrite elem_of_get_large_group_ids. split.
    - intros (size' & Hs & Hlt). rewrite Hcached in Hs. by inversion Hs; subst.
    - intros Hlt. eauto. }
  split; [exact Hgate|]. split; [exact Hids|].
  intros Heq.
  assert (Htrue : large_group_gate cfg user_prefs c (ev_chat ev) = true).
  { rewrite Hgate. apply Z.leb_le. lia. }
  split; [exact Htrue|]. split; [|split].
  - intros a. unfold classify. fold user_prefs. rewrite Htrue.
    repeat case_bool_decide; try done.
    by destruct (negb (Utils.truthy (ev_raw_text ev))).
  - rewrite Hids. lia.
  - intros Hcfg. unfold Scheduler.excluded_chat_ids, get_muted_chats.
    pose proof (Hids size) as Hnot.
    destruct (cfg_ignore_muted_chats cfg), (cfg_ignore_large_groups cfg);
      rewrite ?elem_of_union, ?Hcfg, ?Hnot; split;
      first [ intros [[Hemp | Hm] | Hlt] | intros [Hemp | Hm] | intros [Hf Hm]
            | intros Hemp ];
      try (by apply not_elem_of_empty in Hemp); try lia; try done; auto.
Qed.

(** A supergroup of exactly twenty members with a threshold of twenty. *)
Lemma oversized_checks_disagree_at_threshold_witness :
  let c := {| _high_priority_users := ∅; _muted_chats := ∅;
              _group_sizes := {[ 31 := 20 ]} |} in
  let ev := {| ev_message_id := 7; ev_raw_text := Some "release at noon";
               ev_date := 500;
               ev_chat := ChatChannel 31 "team" false true false;
               ev_sender := Some (SenderUser 42 "Ann" None) |} in
  classify Sample.cfg (Some 1000) (Some "alice") false c (Sample.store_of []) ev
    = FilteredLargeGroup
  ∧ (31 ∉ get_large_group_ids 20 c)
  ∧ (31 ∉ Scheduler.excluded_chat_ids Sample.cfg c).
Proof.
  intros c ev.
  destruct (oversized_checks_disagree_at_threshold Sample.cfg (Some 1000)
              (Some "alice") false c (Sample.store_of []) ev 20
              eq_refl eq_refl eq_refl)
    as (_ & _ & Hat).
  destruct (Hat eq_refl) as (_ & _ & Hids & Hexcl).
  split; [reflexivity|]. split; [exact Hids|].
  intros Hin. apply (Hexcl eq_refl) in Hin as [_ Hm].
  by apply not_elem_of_empty in Hm.
Defined.

End Threshold.

(** ** Mute feedback *)

Section Mute.
Import Models Userbot Bot.

(** C7. For a mute action with a known duration on a stored record: if
    the transport fails, either while resolving the conversation or on
    the mute request itself, the cache is left exactly as it was and the
    failure is reported; if both transport calls succeed, the handler
    returns with the conversation identifier added to the mute cache,
    whatever the final edit of the reply does and without any refresh. *)
Theorem mute_cache_follows_transport
    (env : MuteEnv) (data action message_id_str chat_id_str : string)
    (message_id chat_id : Z) (duration : option Z * string)
    (message : Message) (db : Store) (c : Cache) :
  split_colon data = [action; message_id_str; chat_id_str] →
  int message_id_str = Some message_id →
  int chat_id_str = Some chat_id →
  duration_map action = Some duration →
  m_lookup_raises env = false →
  messages db !! message_id = Some message →
  let result := handle_mute_callback env data db c in
  match m_resolve env, m_request env with
  | TransportOk, TransportOk =>
      result.2 = add_muted_chat chat_id c
      ∧ chat_id ∈ get_muted_chats result.2
      ∧ _group_sizes result.2 = _group_sizes c
  | TransportRaises e, _ =>
      result.2 = c ∧ result.1.1 = MuteCouldNot e
  | TransportOk, TransportRaises e =>
      result.2 = c ∧ result.1.1 = MuteCouldNot e
  end.
Proof.
  intros Hsplit Hmid Hcid Hdur Hlookup Hmsg result. subst result.
  unfold handle_mute_callback.
  rewrite Hsplit, Hmid, Hcid, Hdur, Hlookup, Hmsg.
  destruct duration as [delta display].
  destruct (m_resolve env) as [|e]; [|done].
  destruct (m_request env) as [|e]; [|done].
  assert (Hin : chat_id ∈ get_muted_chats (add_muted_chat chat_id c)).
  { unfold get_muted_chats, add_muted_chat; simpl. set_solver. }
  by destruct (m_edit env).
Qed.

(** Muting conversation 42 for an hour from the alert of record 1, with
    an empty cache and a transport that accepts the request. *)
Lemma mute_cache_follows_transport_witness :
  let env := {| m_lookup_raises := false; m_resolve := TransportOk;
                m_request := TransportOk; m_edit := EditOk; m_now := 0 |} in
  let result :=
    handle_mute_callback env "mute_1h:1:42"
      (Sample.store_of [(1, Sample.row 42 6 100)]) Sample.empty_cache in
  result.2 = add_muted_chat 42 Sample.empty_cache
  ∧ 42 ∈ get_muted_chats result.2
  ∧ _group_sizes result.2 = _group_sizes Sample.empty_cache.
Proof.
  intros env result.
  exact (mute_cache_follows_transport env "mute_1h:1:42" "mute_1h" "1" "42"
           1 42 (Some 3600, "1 hour") (Sample.row 42 6 100)
           (Sample.store_of [(1, Sample.row 42 6 100)]) Sample.empty_cache
           eq_refl eq_refl eq_refl eq_refl eq_refl eq_refl).
Defined.

End Mute.

(** ** Label feedback *)

Section Label.
Import Models Userbot Bot.









End Label.

(** ** Refresh sweeps *)

Section Sweeps.
Import Models Userbot.

Lemma size_sweep_unbroken (acc : gmap Z Z) (ds : list GroupDialog)
    (s : gmap Z Z) (logs : list FloodLog) :
  size_sweep acc ds = (s, logs, false) → logs = [].
Proof.
  revert acc. induction ds as [|d ds IH]; intros acc; simpl.
  - by intros [= _ <-].
  - destruct (size_sweep_step acc d) as [acc' | acc' [l|]]; [apply IH | done | done].
Qed.

Lemma size_sweep_app (acc : gmap Z Z) (ds1 ds2 : list GroupDialog) :
  size_sweep acc (ds1 ++ ds2)
  = match size_sweep acc ds1 with
    | (s, logs, true) => (s, logs, true)
    | (s, _, false) => size_sweep s ds2
    end.
Proof.
  revert acc. induction ds1 as [|d ds1 IH]; intros acc; simpl; [done|].
  destruct (size_sweep_step acc d) as [acc' | acc' [l|]]; [apply IH | done | done].
Qed.

Lemma size_sweep_skip (acc : gmap Z Z) (d : GroupDialog) (ds : list GroupDialog) :
  lookup_fails d = true → size_sweep acc (d :: ds) = size_sweep acc ds.
Proof.
  unfold lookup_fails. intros [Hg He]%andb_prop. simpl.
  unfold size_sweep_step. rewrite Hg. simpl.
  destruct (gd_entity d) as [[n|] [cnt|e|] | [|] [n|] [cnt|e|] | | |];
    done.
Qed.

Lemma size_sweep_flood (acc : gmap Z Z) (d : GroupDialog) (ds : list GroupDialog)
    (e : Z) :
  rate_limited d = Some e →
  size_sweep acc (d :: ds)
  = (acc, [{| wait_seconds := e; groups_cached_so_far := size acc |}], true).
Proof.
  unfold rate_limited. simpl. unfold size_sweep_step.
  destruct (gd_is_group d); [|done]. simpl.
  destruct (gd_entity d) as [[n|] [cnt|e'|] | [|] attr [cnt|e'|] | | |];
    try done; by intros [= ->].
Qed.

Lemma mute_sweep_skip (ts : Z) (ds1 ds2 : list MuteDialog) (d : MuteDialog) :
  md_settings d = ProbeRaises →
  mute_sweep ts (ds1 ++ d :: ds2) = mute_sweep ts (ds1 ++ ds2).
Proof.
  intros Hd. unfold mute_sweep. rewrite !foldl_app. simpl.
  unfold mute_sweep_step at 2. by rewrite Hd.
Qed.

(** C8, as the code has it. In a group-size sweep a per-conversation
    lookup failure is skipped and the sweep goes on; a rate-limit signal
    from a per-conversation fetch ends the loop at once, what was
    gathered before it is committed whatever the rest of the enumeration
    would have been, and the wait is only logged; a sweep that gathered
    nothing leaves the group-size cache untouched. In a mute sweep a
    per-conversation failure is skipped as well; a sweep that reaches the
    end of the enumeration replaces the mute cache by what it gathered,
    also when that is empty; and when the enumeration itself raises, a
    rate-limit signal included, the mute cache stays as it was. *)
Theorem sweeps_tolerate_failures
    (gs1 gs2 : list GroupDialog) (g : GroupDialog)
    (ms1 ms2 : list MuteDialog) (m : MuteDialog)
    (connected : bool) (ts : Z) (ending : enumeration_end) (c : Cache) :
  (lookup_fails g = true →
   refresh_group_sizes true (gs1 ++ g :: gs2) ending c
   = refresh_group_sizes true (gs1 ++ gs2) ending c)
  ∧ (∀ e gathered,
       rate_limited g = Some e →
       size_sweep ∅ gs1 = (gathered, [], false) →
       refresh_group_sizes true (gs1 ++ g :: gs2) ending c
       = (commit_sizes gathered c,
          [{| wait_seconds := e; groups_cached_so_far := size gathered |}])
       ∧ (gathered ≠ ∅ → commit_sizes gathered c = with_sizes gathered c))
  ∧ ((size_sweep ∅ gs1).1.1 = ∅ →
     (refresh_group_sizes connected gs1 ending c).1 = c)
  ∧ (md_settings m = ProbeRaises →
     refresh_muted_chats true ts (ms1 ++ m :: ms2) ending c
     = refresh_muted_chats true ts (ms1 ++ ms2) ending c)
  ∧ refresh_muted_chats true ts ms1 Exhausted c
    = with_muted (mute_sweep ts ms1) c
  ∧ (ending ≠ Exhausted → refresh_muted_chats connected ts ms1 ending c = c).
Proof.
  split_and!.
  - intros Hfail. unfold refresh_group_sizes. cbn [negb].
    rewrite !size_sweep_app.
    destruct (size_sweep ∅ gs1) as [[s logs] [|]]; [done|].
    by rewrite size_sweep_skip.
  - intros e gathered Hrate Hsweep. split.
    + unfold refresh_group_sizes. cbn [negb].
      rewrite size_sweep_app, Hsweep. by rewrite (size_sweep_flood _ _ _ e).
    + intros Hne. unfold commit_sizes. by rewrite bool_decide_eq_false_2.
  - intros Hempty. unfold refresh_group_sizes.
    destruct connected; cbn [negb]; [|done].
    destruct (size_sweep ∅ gs1) as [[s logs] broke]. simpl in Hempty. subst s.
    unfold commit_sizes. rewrite bool_decide_eq_true_2 by done.
    by destruct broke, ending.
  - intros Hm. unfold refresh_muted_chats. cbn [negb].
    by rewrite mute_sweep_skip.
  - done.
  - intros Hend. unfold refresh_muted_chats.
    destruct connected; cbn [negb]; [|done]. by destruct ending.
Qed.

(** A size sweep over a group of 12, a supergroup whose fetch is rate
    limited for 30 seconds and a group of 50: the first entry is kept,
    the wait is logged, the third dialog is never looked at. A mute sweep
    over one dialog whose settings cannot be read and one muted for
    ever. *)
Lemma sweeps_tolerate_failures_witness :
  let limited := {| gd_id := 2; gd_is_group := true;
                    gd_entity := EChannel true None (FetchFlood 30) |} in
  let small := {| gd_id := 1; gd_is_group := true;
                  gd_entity := EChat (Some 12) FetchError |} in
  let big := {| gd_id := 3; gd_is_group := true;
                gd_entity := EChat (Some 50) FetchError |} in
  let unreadable := {| md_id := 5; md_settings := ProbeRaises; md_clock := 0 |} in
  let silenced :=
    {| md_id := 6;
       md_settings := ProbeOk (Some {| silent := true; mute_until := None |});
       md_clock := 0 |} in
  refresh_group_sizes true ([small] ++ limited :: [big]) Exhausted
    Sample.empty_cache
  = (with_sizes {[ 1 := 12 ]} Sample.empty_cache,
     [{| wait_seconds := 30; groups_cached_so_far := 1 |}])
  ∧ refresh_muted_chats true 0 ([] ++ unreadable :: [silenced]) Exhausted
      Sample.empty_cache
    = refresh_muted_chats true 0 ([] ++ [silenced]) Exhausted Sample.empty_cache.
Proof.
  intros limited small big unreadable silenced.
  destruct (sweeps_tolerate_failures [small] [big] limited [] [silenced]
              unreadable true 0 Exhausted Sample.empty_cache)
    as (_ & Hflood & _ & Hskip & _ & _).
  destruct (Hflood 30 {[ 1 := 12 ]} eq_refl eq_refl) as [Hrun _].
  split.
  - rewrite Hrun. reflexivity.
  - exact (Hskip eq_refl).
Defined.

(** C8, as stated, fails for the mute sweep: a sweep that finds no muted
    conversation clears a non-empty mute cache, and a rate-limit signal
    from the enumeration throws away the entry gathered before it. *)
Lemma mute_sweep_clears_and_discards :
  let c := {| _high_priority_users := ∅; _muted_chats := {[ 42 ]};
              _group_sizes := ∅ |} in
  let audible :=
    {| md_id := 5;
       md_settings := ProbeOk (Some {| silent := false; mute_until := None |});
       md_clock := 0 |} in
  let silenced :=
    {| md_id := 6;
       md_settings := ProbeOk (Some {| silent := true; mute_until := None |});
       md_clock := 0 |} in
  mute_sweep 0 [audible] = ∅
  ∧ _muted_chats (refresh_muted_chats true 0 [audible] Exhausted c) = ∅
  ∧ refresh_muted_chats true 0 [audible] Exhausted c ≠ c
  ∧ mute_sweep 0 [silenced] = {[ 6 ]}
  ∧ (6 ∉ _muted_chats (refresh_muted_chats true 0 [silenced] (EnumerationFlood 30) c)).
Proof.
  intros c audible silenced. split_and!.
  - reflexivity.
  - reflexivity.
  - intros Heq. apply (f_equal _muted_chats) in Heq. simpl in Heq.
    assert (H42 : 42 ∈ ({[ 42 ]} : gset Z)) by set_solver.
    rewrite <- Heq in H42. by apply not_elem_of_empty in H42.
  - unfold mute_sweep. simpl. unfold mute_sweep_step. simpl. set_solver.
  - simpl. set_solver.
Qed.

End Sweeps.

(** ** The two flags over the life of a record *)

Section Flags.
Import Models Userbot Lifecycle.

Lemma rows_kept_refl (db : Store) : rows_kept db db.
Proof. intros id m Hm. exists m. by repeat split. Qed.

Lemma rows_kept_trans (db1 db2 db3 : Store) :
  rows_kept db1 db2 → rows_kept db2 db3 → rows_kept db1 db3.
Proof.
  intros H12 H23 id m Hm.
  destruct (H12 id m Hm) as (m2 & Hm2 & Hi2 & Hw2).
  destruct (H23 id m2 Hm2) as (m3 & Hm3 & Hi3 & Hw3).
  exists m3. repeat split; auto.
Qed.

Lemma rows_kept_update_row (id : Z) (f : Message → Message) (db : Store) :
  (∀ m, flags_kept m (f m)) → rows_kept db (update_row id f db).
Proof.
  intros Hf k m Hm. rewrite lookup_update_row.
  destruct (decide (id = k)) as [->|Hne].
  - rewrite Hm. simpl. eauto.
  - exists m. by repeat split.
Qed.

Lemma flags_kept_set_warning (now : Z) (m : Message) :
  flags_kept m (set_warning now m).
Proof. by split. Qed.

Lemma flags_kept_set_label (l : string) (now : Z) (m : Message) :
  flags_kept m (set_label l now m).
Proof. by split. Qed.

Lemma rows_kept_alert (env : AlertEnv) (id now : Z) (db : Store) :
  rows_kept db (send_warning_for_message env id now db).
Proof.
  destruct (send_warning_cases env id now db) as [-> | ->].
  - apply rows_kept_refl.
  - apply rows_kept_update_row, flags_kept_set_warning.
Qed.

Lemma rows_kept_insert_fresh (m0 : Message) (db : Store) :
  rows_kept db
    (with_messages (<[fresh_id (messages db) := m0]> (messages db)) db).
Proof.
  intros id m Hm. exists m. split; [|by split]. simpl.
  rewrite lookup_insert_ne; [done|].
  intros <-. by rewrite fresh_id_fresh in Hm.
Qed.

Lemma rows_kept_save (cfg : Config) (c : Cache) (env : SaveEnv) (a : SaveArgs)
    (db : Store) :
  rows_kept db (save_message cfg c env a db).
Proof.
  unfold save_message. destruct (insert_raises env); [apply rows_kept_refl|].
  cbv zeta.
  match goal with
  | |- rows_kept _ (if ?b then _ else _) => destruct b
  end.
  - eapply rows_kept_trans; [apply rows_kept_insert_fresh | apply rows_kept_alert].
  - apply rows_kept_insert_fresh.
Qed.

Lemma rows_kept_ingest (cfg : Config) (client_user_id : option Z)
    (client_username : option string) (prefs_raise : bool) (env : SaveEnv)
    (c : Cache) (ev : Event) (db : Store) :
  rows_kept db
    (handle_new_message cfg client_user_id client_username prefs_raise
       env c ev db).2.
Proof.
  unfold handle_new_message.
  destruct (classify _ _ _ _ _ _ _); simpl;
    first [apply rows_kept_refl | apply rows_kept_save].
Qed.

Lemma lookup_mark_included (rows : list Scheduler.Selected) (marked_at : Z)
    (db : Store) (id : Z) :
  messages (Scheduler.mark_included rows marked_at db) !! id
  = (λ m, if bool_decide (id ∈ rows.*1) then set_included marked_at m else m)
    <$> messages db !! id.
Proof.
  unfold Scheduler.mark_included.
  destruct rows as [|r rows].
  - destruct (messages db !! id) as [m|]; reflexivity.
  - cbn [messages with_messages]. rewrite map_lookup_imap.
    by destruct (messages db !! id).
Qed.

Lemma rows_kept_mark_included (rows : list Scheduler.Selected) (marked_at : Z)
    (db : Store) :
  rows_kept db (Scheduler.mark_included rows marked_at db).
Proof.
  intros id m Hm. rewrite lookup_mark_included, Hm. simpl.
  eexists; split; [done|]. by case_bool_decide.
Qed.

Lemma rows_kept_digest (cfg : Config) (c : Cache) (env : Scheduler.DigestEnv)
    (hours limit : Z) (db : Store) :
  rows_kept db (Scheduler.get_unlabeled_messages cfg c env hours limit db).2.
Proof.
  unfold Scheduler.get_unlabeled_messages.
  destruct (Scheduler.d_session_raises env); simpl.
  - apply rows_kept_refl.
  - apply rows_kept_mark_included.
Qed.

Lemma label_attempts_cases (fuel attempt : nat) (lk : nat → bool)
    (id : Z) (l : string) (now : Z) (db db' : Store) :
  Bot.label_attempts fuel attempt lk id l now db = Bot.LabelUpdated db' →
  db' = db ∨ db' = update_row id (set_label l now) db.
Proof.
  revert attempt. induction fuel as [|fuel IH]; intros attempt; simpl.
  - intros [= <-]. by left.
  - destruct (lk attempt).
    + destruct (attempt <? _)%nat; [apply IH | discriminate].
    + destruct (messages db !! id); [|discriminate]. intros [= <-]. by right.
Qed.

Lemma rows_kept_label (env : Bot.LabelEnv) (data : option string)
    (shown : string) (db : Store) :
  rows_kept db (Bot.handle_label_callback env data shown db).2.
Proof.
  unfold Bot.handle_label_callback.
  repeat case_match; simpl; try apply rows_kept_refl.
  all: match goal with
       | H : Bot.label_attempts _ _ _ _ _ _ _ = Bot.LabelUpdated _ |- _ =>
           apply label_attempts_cases in H as [-> | ->]
       end;
    first [apply rows_kept_refl
          | apply rows_kept_update_row, flags_kept_set_label].
Qed.

Lemma rows_kept_step (db db' : Store) : core_step db db' → rows_kept db db'.
Proof.
  destruct 1.
  - apply rows_kept_ingest.
  - apply rows_kept_save.
  - apply rows_kept_alert.
  - apply rows_kept_digest.
  - apply rows_kept_label.
Qed.

(** C2. Along any sequence of core operations, a record that is in the
    store stays in it, and once its digest-inclusion flag or its
    alert-sent flag is true the flag is true ever after: no operation
    resets either flag, so each flag changes at most once, from false to
    true. *)
Theorem flags_only_rise (db db' : Store) (id : Z) (m : Message) :
  rtc core_step db db' →
  messages db !! id = Some m →
  ∃ m', messages db' !! id = Some m'
        ∧ (included_in_summary m = true → included_in_summary m' = true)
        ∧ (warning_sent m = true → warning_sent m' = true).
Proof.
  intros Hsteps Hm.
  assert (Hkept : rows_kept db db').
  { clear Hm. induction Hsteps as [db | db1 db2 db3 Hstep _ IH].
    - apply rows_kept_refl.
    - eapply rows_kept_trans; [by apply rows_kept_step | exact IH]. }
  destruct (Hkept id m Hm) as (m' & Hm' & Hinc & Hwarn). eauto.
Qed.

(** A stored record that a digest has included is then labelled: the
    inclusion flag is still set. *)
Lemma flags_only_rise_witness :
  let db := Sample.store_of [(1, set_included 90 (Sample.row 42 6 100))] in
  let env := {| Bot.l_locked := fun _ => false; Bot.l_now := 120;
                Bot.l_edit_raises := false |} in
  let db' := (Bot.handle_label_callback env (Some "label:1:low") "alert" db).2 in
  ∃ m', messages db' !! 1 = Some m' ∧ included_in_summary m' = true.
Proof.
  intros db env db'.
  destruct (flags_only_rise db db' 1 (set_included 90 (Sample.row 42 6 100))
              (rtc_once _ _ (step_label env (Some "label:1:low") "alert" db))
              eq_refl)
    as (m' & Hm' & Hinc & _).
  exists m'. split; [exact Hm' | exact (Hinc eq_refl)].
Defined.

End Flags.

(** ** Digest selection *)

Section Digest.
Import Models Userbot Scheduler.

#[local] Instance ranks_before_total : Total ranks_before.
Proof. intros a b. unfold ranks_before. lia. Qed.

#[local] Instance ranks_before_trans : Transitive ranks_before.
Proof. intros a b c. unfold ranks_before. lia. Qed.

Lemma elem_of_excluded_chat_ids (cfg : Config) (c : Cache) (chat : Z) :
  chat ∈ excluded_chat_ids cfg c
  ↔ (cfg_ignore_muted_chats cfg = true ∧ chat ∈ _muted_chats c)
    ∨ (cfg_ignore_large_groups cfg = true
       ∧ ∃ size, _group_sizes c !! chat = Some size ∧ cfg_max_group_size cfg < size).
Proof.
  unfold excluded_chat_ids, get_muted_chats.
  destruct (cfg_ignore_muted_chats cfg), (cfg_ignore_large_groups cfg);
    rewrite ?elem_of_union, ?elem_of_get_large_group_ids, ?elem_of_empty;
    intuition discriminate.
Qed.

Lemma qualifies_spec (cutoff_time minimum : Z) (excluded : gset Z) (m : Message) :
  qualifies cutoff_time minimum excluded m = true
  ↔ cutoff_time <= timestamp m
    ∧ label m = None
    ∧ included_in_summary m = false
    ∧ minimum <= priority_score m
    ∧ chat_id m ∉ excluded.
Proof.
  unfold qualifies.
  rewrite !andb_true_iff, !Z.leb_le, bool_decide_eq_true, negb_true_iff.
  assert (Hex : (if bool_decide (excluded = ∅) then true
                 else bool_decide (chat_id m ∉ excluded)) = true
                ↔ chat_id m ∉ excluded).
  { case_bool_decide as He.
    - subst excluded. split; [intros _; apply not_elem_of_empty | done].
    - apply bool_decide_eq_true. }
  rewrite Hex. tauto.
Qed.

Lemma elem_of_qualifying_rows (cutoff_time minimum : Z) (excluded : gset Z)
    (db : Store) (id : Z) (m : Message) :
  (id, m) ∈ qualifying_rows cutoff_time minimum excluded db
  ↔ messages db !! id = Some m
    ∧ qualifies cutoff_time minimum excluded m = true.
Proof.
  unfold qualifying_rows. rewrite list_elem_of_filter, elem_of_map_to_list.
  simpl. tauto.
Qed.

Lemma NoDup_qualifying_ids (cutoff_time minimum : Z) (excluded : gset Z)
    (db : Store) :
  NoDup (qualifying_rows cutoff_time minimum excluded db).*1.
Proof.
  eapply sublist_NoDup; [apply (NoDup_fst_map_to_list (messages db))|].
  apply fmap_sublist, sublist_filter.
Qed.

Section Select.
Variables (cutoff_time minimum : Z) (excluded : gset Z) (limit : Z) (db : Store).

Let qualifying := qualifying_rows cutoff_time minimum excluded db.
Let ranked := merge_sort ranks_before qualifying.
Let rows := select_messages cutoff_time minimum excluded limit db.

Lemma select_split : (rows ++ drop (Z.to_nat limit) ranked)%list = ranked.
Proof. apply take_drop. Qed.

Lemma select_subset (r : Selected) : r ∈ rows → r ∈ qualifying.
Proof.
  intros Hr. unfold rows, select_messages in Hr.
  apply subseteq_take in Hr.
  by rewrite (merge_sort_Permutation ranks_before) in Hr.
Qed.

Lemma select_NoDup : NoDup rows.*1.
Proof.
  unfold rows, select_messages.
  eapply sublist_NoDup; [|apply fmap_sublist, sublist_take].
  rewrite (merge_sort_Permutation ranks_before).
  apply NoDup_qualifying_ids.
Qed.

Lemma select_sorted : StronglySorted ranks_before rows.
Proof.
  eapply StronglySorted_app_1_l. rewrite select_split.
  apply StronglySorted_merge_sort; apply _.
Qed.

Lemma select_length :
  length rows = (Z.to_nat limit `min` length qualifying)%nat.
Proof.
  unfold rows, select_messages. rewrite length_take.
  by rewrite (merge_sort_Permutation ranks_before _).
Qed.

Lemma select_top (r q : Selected) :
  r ∈ rows → q ∈ qualifying → q ∉ rows → ranks_before r q.
Proof.
  intros Hr Hq Hnot.
  rewrite <- (merge_sort_Permutation ranks_before qualifying) in Hq.
  fold ranked in Hq. rewrite <- select_split in Hq.
  apply elem_of_app in Hq as [Hq | Hq]; [done|].
  eapply (StronglySorted_app_1_elem_of ranks_before rows); [|done..].
  rewrite select_split. apply StronglySorted_merge_sort; apply _.
Qed.

End Select.

Lemma synchronise_ids (marked_at : Z) (rows : list Selected) :
  (synchronise marked_at rows).*1 = rows.*1.
Proof.
  unfold synchronise. rewrite <- list_fmap_compose. by apply list_fmap_ext.
Qed.

Lemma elem_of_synchronise (marked_at : Z) (rows : list Selected)
    (id : Z) (m : Message) :
  (id, m) ∈ rows → (id, set_included marked_at m) ∈ synchronise marked_at rows.
Proof.
  intros Hin. unfold synchronise.
  apply list_elem_of_fmap. by exists (id, m).
Qed.

(** C3. A digest selection that the storage lets through selects rows
    of the table that all lie in the lookback window, carry no label, are
    not yet digest-included, score at least the minimum (the client's
    stored preference when the row is there, holds a value and can be
    read, the configured minimum otherwise) and belong to a conversation
    that is not excluded (muted with the configured mute toggle on, or
    above the configured size threshold with the configured size toggle
    on; the client's stored toggles are not read here); the selected
    rows have
    distinct identifiers, are ordered by score descending then recency
    descending, number the smaller of the cap and the count of
    qualifying rows, and every qualifying row left out ranks no higher
    than each selected row. The call returns the selected records in
    that order, each as the update has left it: in the table afterwards
    and in the returned object the inclusion flag is set and the
    inclusion time is the time of the update, every other column is as
    it was, and every row that was not selected is unchanged. With ten
    qualifying rows and a cap of five, five rows are returned. *)
Theorem digest_selects_top_unlabeled
    (cfg : Config) (c : Cache) (env : DigestEnv) (hours limit : Z) (db : Store) :
  0 <= limit →
  d_session_raises env = false →
  let cutoff_time := d_now env - hours * ticks_per_hour in
  let minimum :=
    match (if d_prefs_raise env then None
           else user_preferences db !! client_user_id cfg) with
    | Some user_prefs =>
        match Models.min_priority_score user_prefs with
        | Some user_minimum => user_minimum
        | None => cfg_min_priority_score cfg
        end
    | None => cfg_min_priority_score cfg
    end in
  let excluded (chat : Z) : Prop :=
    (cfg_ignore_muted_chats cfg = true ∧ chat ∈ _muted_chats c)
    ∨ (cfg_ignore_large_groups cfg = true
       ∧ ∃ size, _group_sizes c !! chat = Some size
                 ∧ cfg_max_group_size cfg < size) in
  let qualifying (r : Selected) : Prop :=
    messages db !! r.1 = Some r.2
    ∧ cutoff_time <= timestamp r.2
    ∧ label r.2 = None
    ∧ included_in_summary r.2 = false
    ∧ minimum <= priority_score r.2
    ∧ ¬ excluded (chat_id r.2) in
  let before (a b : Selected) : Prop :=
    priority_score b.2 < priority_score a.2
    ∨ (priority_score a.2 = priority_score b.2 ∧ timestamp b.2 <= timestamp a.2) in
  let result := get_unlabeled_messages cfg c env hours limit db in
  ∃ selected returned,
    result.1 = Some returned
    ∧ returned.*1 = selected.*1
    ∧ (∀ r, r ∈ selected → qualifying r)
    ∧ NoDup selected.*1
    ∧ StronglySorted before selected
    ∧ (∀ r q, r ∈ selected → qualifying q → q ∉ selected → before r q)
    ∧ (∀ all_qualifying : list Selected,
         NoDup all_qualifying →
         (∀ q, q ∈ all_qualifying ↔ qualifying q) →
         length returned = (Z.to_nat limit `min` length all_qualifying)%nat
         ∧ (length all_qualifying = 10%nat → limit = 5 →
            length returned = 5%nat))
    ∧ (∀ id m, (id, m) ∈ selected →
         ∃ m', (id, m') ∈ returned
               ∧ messages result.2 !! id = Some m'
               ∧ included_in_summary m' = true
               ∧ summary_sent_at m' = Some (d_marked_at env)
               ∧ same_other_columns m m')
    ∧ (∀ id, id ∉ selected.*1 → messages result.2 !! id = messages db !! id)
    ∧ user_preferences result.2 = user_preferences db.
Proof.
  intros Hlimit Hok cutoff_time minimum excluded qualifying before result.
  assert (Hmin : min_priority cfg (d_prefs_raise env) db = minimum).
  { subst minimum. unfold min_priority, load_prefs.
    by destruct (d_prefs_raise env). }
  set (rows := select_messages cutoff_time minimum (excluded_chat_ids cfg c)
                 limit db).
  assert (Hres : result
                 = (Some (synchronise (d_marked_at env) rows),
                    mark_included rows (d_marked_at env) db)).
  { subst result rows. unfold get_unlabeled_messages, selection, cutoff.
    by rewrite Hok, Hmin. }
  assert (Hq : ∀ r, r ∈ qualifying_rows cutoff_time minimum
                          (excluded_chat_ids cfg c) db
                    ↔ qualifying r).
  { intros [id m]. subst qualifying excluded. cbn [fst snd].
    rewrite elem_of_qualifying_rows, qualifies_spec,
      elem_of_excluded_chat_ids. tauto. }
  assert (Hcount : ∀ all_qualifying : list Selected,
            NoDup all_qualifying →
            (∀ q, q ∈ all_qualifying ↔ qualifying q) →
            length (qualifying_rows cutoff_time minimum
                      (excluded_chat_ids cfg c) db)
            = length all_qualifying).
  { intros qs Hnd Hall. apply Permutation_length, NoDup_Permutation.
    - eapply NoDup_fmap_1, NoDup_qualifying_ids.
    - exact Hnd.
    - intros q. by rewrite Hq, Hall. }
  exists rows, (synchronise (d_marked_at env) rows).
  rewrite Hres. cbn [fst snd]. split_and!.
  - done.
  - apply synchronise_ids.
  - intros r Hr. apply Hq. by apply (select_subset _ _ _ limit).
  - apply select_NoDup.
  - apply select_sorted.
  - intros r q Hr Hqual Hout.
    apply (select_top cutoff_time minimum (excluded_chat_ids cfg c) limit db);
      [done| |done].
    by apply Hq.
  - intros qs Hnd Hall.
    assert (Hlen : length (synchronise (d_marked_at env) rows)
                   = (Z.to_nat limit `min` length qs)%nat).
    { unfold synchronise. rewrite length_fmap. subst rows.
      by rewrite select_length, (Hcount qs). }
    split; [exact Hlen|]. intros Hten Hfive. rewrite Hlen, Hten, Hfive.
    reflexivity.
  - intros id m Hin. exists (set_included (d_marked_at env) m).
    split; [by apply elem_of_synchronise|].
    split.
    { rewrite lookup_mark_included.
      assert (Hid : id ∈ rows.*1).
      { apply list_elem_of_fmap. by exists (id, m). }
      apply select_subset, elem_of_qualifying_rows in Hin as [-> _].
      cbn. by rewrite bool_decide_eq_true_2. }
    split; [done|]. split; [done|]. by repeat split.
  - intros id Hout. rewrite lookup_mark_included.
    rewrite bool_decide_eq_false_2 by done.
    by destruct (messages db !! id).
  - unfold mark_included. by destruct rows.
Qed.

(** The scenario of the specification: ten qualifying rows, a cap of
    five. The configured minimum is 9, the client's stored minimum is 1,
    and conversation 77 is muted. The five returned are the row of score
    9, the two of score 7 (the later one first), the row of score 6 and
    the later of the two of score 5: identifiers 6, 4, 2, 10, 8. Record
    6 is stored as included at the time of the update; record 1, which
    was not selected, is as it was. *)
Lemma digest_selects_top_unlabeled_witness :
  let env := {| d_now := 1000; d_marked_at := 1001;
                d_prefs_raise := false; d_session_raises := false |} in
  let db := Sample.busy_day_of_a_lenient_user in
  let result := get_unlabeled_messages Sample.picky Sample.muted_77 env 1 5 db in
  ∃ returned,
    result.1 = Some returned
    ∧ returned.*1 = [6; 4; 2; 10; 8]
    ∧ length returned = 5%nat
    ∧ (∃ m', (6, m') ∈ returned
             ∧ messages result.2 !! 6 = Some m'
             ∧ included_in_summary m' = true
             ∧ summary_sent_at m' = Some 1001
             ∧ same_other_columns (Sample.row 44 9 950) m')
    ∧ messages result.2 !! 1 = Some (Sample.row 42 3 900).
Proof.
  intros env db result.
  destruct (digest_selects_top_unlabeled Sample.picky Sample.muted_77 env 1 5
              db ltac:(lia) eq_refl)
    as (selected & returned & Hret & Hids & Hqual & _ & _ & _ & _ & Hmark
        & Hrest & _).
  assert (Hselected : selected.*1 = [6; 4; 2; 10; 8]).
  { rewrite <- Hids.
    assert (Hcomputed : result.1 = Some returned) by exact Hret.
    vm_compute in Hcomputed. injection Hcomputed as <-. reflexivity. }
  exists returned. split; [exact Hret|].
  split; [by rewrite Hids|].
  split.
  { pose proof (length_fmap fst returned) as Hlen.
    rewrite Hids, Hselected in Hlen. by symmetry. }
  split.
  - assert (Hin : (6, Sample.row 44 9 950) ∈ selected).
    { assert (H6 : 6 ∈ selected.*1)
        by (rewrite Hselected; apply list_elem_of_here).
      apply list_elem_of_fmap in H6 as ([id m] & Hid & Hin).
      cbn in Hid. subst id.
      destruct (Hqual _ Hin) as (Hrow & _). cbn [fst snd] in Hrow.
      vm_compute in Hrow. injection Hrow as <-. exact Hin. }
    exact (Hmark 6 _ Hin).
  - rewrite Hrest; [vm_compute; reflexivity|].
    rewrite Hselected. intros Hin.
    repeat (apply elem_of_cons in Hin as [Hin|Hin]; [discriminate Hin|]).
    by apply elem_of_nil in Hin.
Defined.

End Digest.

(** ** Two digest selections *)

Section TwoDigests.
Import Models Userbot Scheduler.

(** A row marked by one selection is not selected again. *)
Lemma marked_rows_not_selected
    (cfg : Config) (c : Cache) (env : DigestEnv) (hours limit : Z)
    (rows : list Selected) (marked_at : Z) (db : Store) (id : Z) :
  id ∈ rows.*1 →
  id ∉ (selection cfg c env hours limit (mark_included rows marked_at db)).*1.
Proof.
  intros Hin Hsel.
  apply list_elem_of_fmap in Hsel as ([id' m'] & -> & Hsel). simpl in Hin.
  apply select_subset, elem_of_qualifying_rows in Hsel as [Hrow Hq].
  apply qualifies_spec in Hq as (_ & _ & Hinc & _).
  rewrite lookup_mark_included in Hrow.
  destruct (messages db !! id') as [m|]; [|discriminate Hrow].
  simpl in Hrow. rewrite bool_decide_eq_true_2 in Hrow by done.
  injection Hrow as <-. discriminate Hinc.
Qed.

(** C1, as the code has it. When one digest selection has returned
    before the other selects (either order), no record identifier is in
    both result sets: the first call's marking is in the table the second
    call reads. Each of the two calls is then a whole
    [get_unlabeled_messages]. Nothing in the code keeps the two calls
    from interleaving between their [SELECT] and their [UPDATE]. *)
Theorem sequential_digests_share_no_record
    (cfg : Config) (c : Cache) (k1 k2 : Call) (db : Store) :
  let first_then_second := run cfg c k1 k2 [First; First; Second; Second] db in
  let second_then_first := run cfg c k1 k2 [Second; Second; First; First] db in
  let rows1 := selection cfg c (call_env k1) (call_hours k1) (call_limit k1) db in
  let db1 := mark_included rows1 (d_marked_at (call_env k1)) db in
  let rows2 := selection cfg c (call_env k2) (call_hours k2) (call_limit k2) db1 in
  w_first first_then_second
  = Returned (synchronise (d_marked_at (call_env k1)) rows1)
  ∧ w_second first_then_second
    = Returned (synchronise (d_marked_at (call_env k2)) rows2)
  ∧ w_store first_then_second
    = mark_included rows2 (d_marked_at (call_env k2)) db1
  ∧ (d_session_raises (call_env k1) = false →
     get_unlabeled_messages cfg c (call_env k1) (call_hours k1) (call_limit k1) db
     = (Some (synchronise (d_marked_at (call_env k1)) rows1), db1))
  ∧ (d_session_raises (call_env k2) = false →
     get_unlabeled_messages cfg c (call_env k2) (call_hours k2) (call_limit k2) db1
     = (Some (synchronise (d_marked_at (call_env k2)) rows2),
        w_store first_then_second))
  ∧ (∀ id, id ∈ returned_ids (w_first first_then_second) →
           id ∉ returned_ids (w_second first_then_second))
  ∧ (∀ id, id ∈ returned_ids (w_second second_then_first) →
           id ∉ returned_ids (w_first second_then_first)).
Proof.
  intros w w' rows1 db1 rows2. split_and!; try reflexivity.
  - intros Hok. unfold get_unlabeled_messages. by rewrite Hok.
  - intros Hok. unfold get_unlabeled_messages. by rewrite Hok.
  - intros id. subst w. cbn [run foldl step advance w_first w_second w_store
                              returned_ids].
    rewrite !synchronise_ids. apply marked_rows_not_selected.
  - intros id. subst w'. cbn [run foldl step advance w_first w_second w_store
                               returned_ids].
    rewrite !synchronise_ids. apply marked_rows_not_selected.
Qed.

(** Two digests over the busy day, one after the other: the second
    returns the five rows the first left. *)
Lemma sequential_digests_share_no_record_witness :
  let env := {| d_now := 1000; d_marked_at := 1001;
                d_prefs_raise := false; d_session_raises := false |} in
  let k := {| call_env := env; call_hours := 1; call_limit := 5 |} in
  let w := run Sample.cfg Sample.muted_77 k k [First; First; Second; Second]
             Sample.busy_day in
  returned_ids (w_first w) = [6; 4; 2; 10; 8]
  ∧ returned_ids (w_second w) = [3; 9; 1; 7; 5]
  ∧ (6 ∉ returned_ids (w_second w)).
Proof.
  intros env k w.
  destruct (sequential_digests_share_no_record Sample.cfg Sample.muted_77 k k
              Sample.busy_day)
    as (_ & _ & _ & _ & _ & Hdisjoint & _).
  split; [vm_compute; reflexivity|].
  split; [vm_compute; reflexivity|].
  apply Hdisjoint. vm_compute. apply list_elem_of_here.
Defined.

(** C1, as stated, fails: when the two calls interleave, both select
    before either marks, and the same record is in both result sets. *)
Lemma interleaved_digests_share_a_record :
  let env := {| d_now := 1000; d_marked_at := 1001;
                d_prefs_raise := false; d_session_raises := false |} in
  let k := {| call_env := env; call_hours := 1; call_limit := 5 |} in
  let w := run Sample.cfg Sample.empty_cache k k [First; Second; First; Second]
             (Sample.store_of [(1, Sample.row 42 6 990)]) in
  returned_ids (w_first w) = [1]
  ∧ returned_ids (w_second w) = [1]
  ∧ ¬ (∀ id, id ∈ returned_ids (w_first w) → id ∉ returned_ids (w_second w)).
Proof.
  intros env k w.
  assert (H1 : returned_ids (w_first w) = [1]) by (vm_compute; reflexivity).
  assert (H2 : returned_ids (w_second w) = [1]) by (vm_compute; reflexivity).
  split; [exact H1|]. split; [exact H2|].
  intros Hdisjoint. apply (Hdisjoint 1); rewrite ?H1, ?H2; apply list_elem_of_here.
Qed.

End TwoDigests.

(** ** What [save_message] writes *)

Section Persistence.
Import Models Userbot.

Lemma ai_score_in_range (text : option string) (o : Utils.oracle_outcome) (s : Z) :
  Utils.calculate_ai_priority_score text o = Some s → 0 <= s <= 10.
Proof.
  unfold Utils.calculate_ai_priority_score,
    Utils.AI_PRIORITY_SCORE_MIN, Utils.AI_PRIORITY_SCORE_MAX.
  destruct (negb (Utils.truthy text)); [intros [= <-]; lia|].
  destruct o as [| | |content]; try discriminate.
  destruct (Utils.first_number content); [|discriminate].
  intros [= <-]. lia.
Qed.

Lemma mark_warning_sent_three (lk : nat → bool) (id now : Z) (db : Store) :
  mark_warning_sent max_retries 0 lk id now db
  = if lk 0%nat && lk 1%nat && lk 2%nat then None
    else Some (update_row id (set_warning now) db).
Proof.
  unfold max_retries. simpl.
  by destruct (lk 0%nat), (lk 1%nat), (lk 2%nat).
Qed.

(** The alert either leaves the store alone or marks the row, and it
    marks exactly when the bot is there, the send goes through and one of
    the three attempts finds the storage unlocked. *)
Lemma send_warning_result (env : AlertEnv) (id now : Z) (db : Store) :
  send_warning_for_message env id now db
  = if bot_available env && negb (send_raises env)
       && negb (locked env 0%nat && locked env 1%nat && locked env 2%nat)
    then update_row id (set_warning now) db
    else db.
Proof.
  unfold send_warning_for_message. rewrite mark_warning_sent_three.
  destruct (bot_available env), (send_raises env); try reflexivity.
  by destruct (locked env 0%nat && locked env 1%nat && locked env 2%nat).
Qed.

(** [save_message] when the insert goes through: the row it builds and
    what it does with it. *)
Lemma save_message_shape
    (cfg : Config) (c : Cache) (env : SaveEnv) (a : SaveArgs) (db : Store) :
  insert_raises env = false →
  ∃ m0 : Message,
    priority_score m0
    = match (if ai_enabled cfg
             then Utils.calculate_ai_priority_score (a_message_text a) (oracle env)
             else None) with
      | Some score => score
      | None =>
          Utils.calculate_priority_score (a_message_text a)
            (Utils.detect_mention (a_message_text a) (a_client_username a))
            (Utils.detect_question (a_message_text a))
            (bool_decide (a_user_id a ∈ _high_priority_users c))
      end
    ∧ label m0 = None
    ∧ included_in_summary m0 = false
    ∧ warning_sent m0 = false
    ∧ warning_sent_at m0 = None
    ∧ message_text m0 = a_message_text a
    ∧ chat_id m0 = a_chat_id a
    ∧ user_id m0 = a_user_id a
    ∧ timestamp m0 = a_timestamp a
    ∧ save_message cfg c env a db
      = let db1 :=
          with_messages (<[fresh_id (messages db) := m0]> (messages db)) db in
        let warning_threshold :=
          if threshold_lookup_raises env then cfg_warning_threshold_score cfg
          else
            match load_prefs cfg db with
            | Some p =>
                match warning_threshold_score p with
                | Some user_threshold => user_threshold
                | None => cfg_warning_threshold_score cfg
                end
            | None => cfg_warning_threshold_score cfg
            end in
        if warning_threshold <=? priority_score m0
        then send_warning_for_message (alert env) (fresh_id (messages db))
               (now env) db1
        else db1.
Proof.
  intros Hins.
  unfold save_message. rewrite Hins. cbv zeta.
  match goal with
  | |- context [<[_ := ?m]> _] => exists m
  end.
  split_and!; reflexivity.
Qed.

Lemma rule_score_in_range (text : option string) (m q h : bool) :
  0 <= Utils.calculate_priority_score text m q h <= 8.
Proof.
  unfold Utils.calculate_priority_score, Utils.SCORE_MENTION,
    Utils.SCORE_QUESTION, Utils.SCORE_LONG_MESSAGE,
    Utils.SCORE_HIGH_PRIORITY_USER.
  destruct m, q, h, (Utils.is_long text); lia.
Qed.

(** Every row [save_message] writes carries a score between 0 and 10,
    whichever path computed it, and starts unlabelled and outside every
    digest, with the text, conversation and sender it was given. *)
Theorem saved_row_is_scored_and_fresh
    (cfg : Config) (c : Cache) (env : SaveEnv) (a : SaveArgs) (db : Store) :
  insert_raises env = false →
  messages db !! fresh_id (messages db) = None
  ∧ ∃ m, messages (save_message cfg c env a db) !! fresh_id (messages db) = Some m
         ∧ 0 <= priority_score m <= 10
         ∧ label m = None
         ∧ included_in_summary m = false
         ∧ message_text m = a_message_text a
         ∧ chat_id m = a_chat_id a
         ∧ user_id m = a_user_id a
         ∧ timestamp m = a_timestamp a.
Proof.
  intros Hins. split; [apply fresh_id_fresh|].
  destruct (save_message_shape cfg c env a db Hins)
    as (m0 & Hscore & Hl & Hi & _ & _ & Ht & Hc & Hu & Hts & ->).
  assert (Hrange : 0 <= priority_score m0 <= 10).
  { rewrite Hscore. destruct (ai_enabled cfg).
    - destruct (Utils.calculate_ai_priority_score _ _) as [s|] eqn:Hs.
      + by apply ai_score_in_range in Hs.
      + pose proof (rule_score_in_range (a_message_text a)
          (Utils.detect_mention (a_message_text a) (a_client_username a))
          (Utils.detect_question (a_message_text a))
          (bool_decide (a_user_id a ∈ _high_priority_users c))). lia.
    - pose proof (rule_score_in_range (a_message_text a)
        (Utils.detect_mention (a_message_text a) (a_client_username a))
        (Utils.detect_question (a_message_text a))
        (bool_decide (a_user_id a ∈ _high_priority_users c))). lia. }
  cbv zeta.
  destruct (_ <=? priority_score m0).
  - rewrite send_warning_result.
    destruct (_ && _ && _).
    + rewrite lookup_update_row, decide_True by done.
      cbn [messages with_messages]. rewrite lookup_insert_eq.
      eexists; split; [reflexivity|]. cbn. split_and!; (done || lia).
    + cbn [messages with_messages]. rewrite lookup_insert_eq.
      eexists; split; [reflexivity|]. split_and!; (done || lia).
  - cbn [messages with_messages]. rewrite lookup_insert_eq.
    eexists; split; [reflexivity|]. split_and!; (done || lia).
Qed.

(** An inbound text scored by a reply of the oracle that is out of range. *)
Lemma saved_row_is_scored_and_fresh_witness :
  let env := {| oracle := Utils.OracleReply "Score: 42"; topic := None;
                insert_raises := false; threshold_lookup_raises := false;
                alert := Sample.quiet_alert; now := 600 |} in
  ∃ m, messages (save_message Sample.cfg Sample.empty_cache env
                   (Sample.args "are you there") (Sample.store_of [])) !! 1
       = Some m
       ∧ 0 <= priority_score m <= 10
       ∧ label m = None.
Proof.
  intros env.
  destruct (saved_row_is_scored_and_fresh Sample.cfg Sample.empty_cache env
              (Sample.args "are you there") (Sample.store_of []) eq_refl)
    as (_ & m & Hm & Hrange & Hlabel & _).
  exists m. exact (conj Hm (conj Hrange Hlabel)).
Defined.

(** The alert flag of the row [save_message] has just written is set
    exactly when the score reaches the warning threshold (the user's
    stored one when it can be read, else the configured one), the bot is
    up, the send goes through and the storage is unlocked at one of the
    three attempts; the alert timestamp is then the clock of the call. *)
Theorem alert_is_marked_exactly_when_sent
    (cfg : Config) (c : Cache) (env : SaveEnv) (a : SaveArgs) (db : Store) :
  insert_raises env = false →
  let warning_threshold :=
    if threshold_lookup_raises env then cfg_warning_threshold_score cfg
    else
      match load_prefs cfg db with
      | Some p =>
          match warning_threshold_score p with
          | Some user_threshold => user_threshold
          | None => cfg_warning_threshold_score cfg
          end
      | None => cfg_warning_threshold_score cfg
      end in
  ∃ m, messages (save_message cfg c env a db) !! fresh_id (messages db) = Some m
       ∧ (warning_sent m = true
          ↔ warning_threshold <= priority_score m
            ∧ bot_available (alert env) = true
            ∧ send_raises (alert env) = false
            ∧ locked (alert env) 0%nat && locked (alert env) 1%nat
              && locked (alert env) 2%nat = false)
       ∧ warning_sent_at m = (if warning_sent m then Some (now env) else None).
Proof.
  intros Hins warning_threshold.
  destruct (save_message_shape cfg c env a db Hins)
    as (m0 & _ & _ & _ & Hw & Hat & _ & _ & _ & _ & ->).
  cbv zeta. fold warning_threshold.
  destruct (warning_threshold <=? priority_score m0) eqn:Hth.
  - apply Z.leb_le in Hth. rewrite send_warning_result.
    destruct (bot_available (alert env)), (send_raises (alert env)),
      (locked (alert env) 0%nat && locked (alert env) 1%nat
       && locked (alert env) 2%nat); cbn [andb negb];
      rewrite ?lookup_update_row, ?decide_True by done;
      cbn [messages with_messages]; rewrite lookup_insert_eq;
      eexists; (split; [reflexivity|]); cbn [fmap option_fmap option_map];
      try (rewrite Hw, Hat); cbn; intuition (try discriminate; auto).
  - apply Z.leb_gt in Hth.
    cbn [messages with_messages]. rewrite lookup_insert_eq.
    eexists; split; [reflexivity|]. rewrite Hw, Hat.
    intuition (try discriminate; try lia).
Qed.

(** A message with a mention and a question from a flagged sender scores
    7 by the rules, above the threshold of 5: the row is marked. *)
Lemma alert_is_marked_exactly_when_sent_witness :
  let env := {| oracle := Utils.OracleTimeout; topic := None;
                insert_raises := false; threshold_lookup_raises := false;
                alert := Sample.quiet_alert; now := 600 |} in
  let c := {| _high_priority_users := {[ 42 ]}; _muted_chats := ∅;
              _group_sizes := ∅ |} in
  ∃ m, messages (save_message Sample.cfg c env
                   (Sample.args "can you call @alice now?")
                   (Sample.store_of [])) !! 1 = Some m
       ∧ warning_sent m = true
       ∧ warning_sent_at m = Some 600.
Proof.
  intros env c.
  destruct (alert_is_marked_exactly_when_sent Sample.cfg c env
              (Sample.args "can you call @alice now?") (Sample.store_of [])
              eq_refl)
    as (m & Hm & Hiff & Hat).
  assert (Hsent : warning_sent m = true).
  { apply Hiff. vm_compute in Hm. injection Hm as <-. vm_compute.
    repeat split; discriminate. }
  exists m. split; [exact Hm|]. split; [exact Hsent|].
  by rewrite Hsent in Hat.
Defined.

(** [save_message] adds at most the one row under the fresh key: every
    other key reads as before, the preferences are untouched, and when
    the insert raises nothing changes at all. *)
Theorem save_message_touches_one_key
    (cfg : Config) (c : Cache) (env : SaveEnv) (a : SaveArgs) (db : Store) :
  (∀ id, id ≠ fresh_id (messages db) →
         messages (save_message cfg c env a db) !! id = messages db !! id)
  ∧ user_preferences (save_message cfg c env a db) = user_preferences db
  ∧ dom (messages (save_message cfg c env a db))
    = (if insert_raises env then dom (messages db)
       else {[fresh_id (messages db)]} ∪ dom (messages db))
  ∧ (insert_raises env = true → save_message cfg c env a db = db).
Proof.
  destruct (insert_raises env) eqn:Hins.
  - assert (Hsame : save_message cfg c env a db = db)
      by (unfold save_message; by rewrite Hins).
    rewrite Hsame. by repeat split.
  - destruct (save_message_shape cfg c env a db Hins)
      as (m0 & _ & _ & _ & _ & _ & _ & _ & _ & _ & ->).
    cbv zeta.
    set (db1 := with_messages (<[fresh_id (messages db) := m0]> (messages db)) db).
    assert (Hcases : ∀ b : bool,
      (if b then send_warning_for_message (alert env) (fresh_id (messages db))
                  (now env) db1
       else db1) = db1
      ∨ (if b then send_warning_for_message (alert env) (fresh_id (messages db))
                    (now env) db1
         else db1)
        = update_row (fresh_id (messages db)) (set_warning (now env)) db1).
    { intros [|]; [apply send_warning_cases | by left]. }
    match goal with
    | |- context [if ?b then send_warning_for_message _ _ _ _ else _] =>
        destruct (Hcases b) as [-> | ->]
    end; subst db1; split_and!; try done.
    + intros id Hne. cbn. by rewrite lookup_insert_ne.
    + cbn. by rewrite dom_insert_L.
    + intros id Hne. rewrite lookup_update_row, decide_False by done.
      cbn. by rewrite lookup_insert_ne.
    + cbn. by rewrite dom_alter_L, dom_insert_L.
Qed.

End Persistence.

(** ** What the ingestion handler lets through *)

Section Admission.
Import Models Userbot.

(** The mute toggle the handler filters with. *)
Lemma classify_processed_inv
    (cfg : Config) (client_user_id : option Z) (client_username : option string)
    (prefs_raise : bool) (c : Cache) (db : Store) (ev : Event) (a : SaveArgs) :
  classify cfg client_user_id client_username prefs_raise c db ev = Processed a →
  a = save_args client_username ev
  ∧ ¬ (sender_id <$> ev_sender ev = client_user_id ∧ is_Some (ev_sender ev))
  ∧ sender_id <$> ev_sender ev ≠ Some (bot_user_id cfg)
  ∧ Utils.truthy (ev_raw_text ev) = true
  ∧ large_group_gate cfg (if prefs_raise then None else load_prefs cfg db) c
      (ev_chat ev) = false
  ∧ (match (if prefs_raise then None else load_prefs cfg db) with
     | Some p => ignore_muted_chats p
     | None => cfg_ignore_muted_chats cfg
     end = true →
     match get_chat_type (ev_chat ev) with
     | private => sender_id <$> ev_sender ev
     | _ => Some (chat_entity_id (ev_chat ev))
     end = Some (a_chat_id a)
     ∧ a_chat_id a ∉ _muted_chats c).
Proof.
  unfold classify.
  case_bool_decide as Hown; [discriminate|].
  case_bool_decide as Hbot; [discriminate|].
  destruct (Utils.truthy (ev_raw_text ev)) eqn:Htext; [|discriminate].
  cbn [negb].
  destruct (large_group_gate _ _ _ _) eqn:Hgate; [discriminate|].
  set (prefs := if prefs_raise then None else load_prefs cfg db).
  destruct (match prefs with
            | Some p => ignore_muted_chats p
            | None => cfg_ignore_muted_chats cfg
            end) eqn:Htoggle.
  - destruct (match get_chat_type (ev_chat ev) with
              | private => sender_id <$> ev_sender ev
              | _ => Some (chat_entity_id (ev_chat ev))
              end) as [check_id|] eqn:Hcheck; [|discriminate].
    case_bool_decide as Hmuted; [discriminate|].
    intros [= <-]. split_and!; try done.
    intros _.
    assert (Hid : a_chat_id (save_args client_username ev) = check_id).
    { unfold save_args. cbn [a_chat_id].
      destruct (get_chat_type (ev_chat ev));
        try (by injection Hcheck as <-).
      destruct (ev_sender ev) as [s|]; [by injection Hcheck as <- | discriminate]. }
    by rewrite Hid.
  - intros [= <-]. split_and!; try done.
Qed.

(** Whatever the handler hands to [save_message] has a non-empty text,
    was not sent by the user's own account or by the bot, and is stored
    under the very identifier the mute filter looked up (the sender for a
    private chat, the conversation otherwise), which is not muted when
    the mute filter is on. *)
Theorem processed_events_are_admissible
    (cfg : Config) (client_user_id : option Z) (client_username : option string)
    (prefs_raise : bool) (c : Cache) (db : Store) (ev : Event) (a : SaveArgs) :
  classify cfg client_user_id client_username prefs_raise c db ev = Processed a →
  Utils.truthy (a_message_text a) = true
  ∧ (∀ s, ev_sender ev = Some s →
          sender_id s ≠ bot_user_id cfg ∧ Some (sender_id s) ≠ client_user_id)
  ∧ a_chat_id a
    = match get_chat_type (ev_chat ev) with
      | private => a_user_id a
      | _ => chat_entity_id (ev_chat ev)
      end
  ∧ (match (if prefs_raise then None else load_prefs cfg db) with
     | Some p => ignore_muted_chats p
     | None => cfg_ignore_muted_chats cfg
     end = true → a_chat_id a ∉ _muted_chats c).
Proof.
  intros Hclass.
  destruct (classify_processed_inv _ _ _ _ _ _ _ _ Hclass)
    as (-> & Hown & Hbot & Htext & _ & Hmute).
  split_and!.
  - exact Htext.
  - intros s Hs. rewrite Hs in Hown, Hbot. cbn in Hown, Hbot. split.
    + congruence.
    + intros Heq. apply Hown. split; [done | by eexists].
  - unfold save_args; cbn [a_chat_id a_user_id].
    by destruct (get_chat_type (ev_chat ev)).
  - intros Htoggle. by destruct (Hmute Htoggle).
Qed.

(** A private message from user 42 with the mute filter on. *)
Lemma processed_events_are_admissible_witness :
  let ev := {| ev_message_id := 7; ev_raw_text := Some "lunch?";
               ev_date := 500; ev_chat := ChatUser 42 "Ann" None;
               ev_sender := Some (SenderUser 42 "Ann" None) |} in
  let a := save_args (Some "alice") ev in
  Utils.truthy (a_message_text a) = true
  ∧ a_chat_id a = 42
  ∧ (a_chat_id a ∉ _muted_chats Sample.empty_cache).
Proof.
  intros ev a.
  destruct (processed_events_are_admissible Sample.cfg (Some 1000)
              (Some "alice") false Sample.empty_cache (Sample.store_of [])
              ev a eq_refl)
    as (Htext & _ & Hid & Hmuted).
  split; [exact Htext|]. split; [exact Hid|]. exact (Hmuted eq_refl).
Defined.

(** Muting takes effect on the next message: once the identifier a
    processed message was stored under is added to the mute cache, the
    same event is filtered as muted while the mute filter is on, and
    taking the identifier out again restores the earlier verdict when it
    was not muted before. *)
Theorem muting_filters_the_next_message
    (cfg : Config) (client_user_id : option Z) (client_username : option string)
    (prefs_raise : bool) (c : Cache) (db : Store) (ev : Event) (a : SaveArgs) :
  classify cfg client_user_id client_username prefs_raise c db ev = Processed a →
  match (if prefs_raise then None else load_prefs cfg db) with
  | Some p => ignore_muted_chats p
  | None => cfg_ignore_muted_chats cfg
  end = true →
  classify cfg client_user_id client_username prefs_raise
    (add_muted_chat (a_chat_id a) c) db ev = FilteredMuted
  ∧ classify cfg client_user_id client_username prefs_raise
      (remove_muted_chat (a_chat_id a) (add_muted_chat (a_chat_id a) c)) db ev
    = Processed a.
Proof.
  intros Hclass Htoggle.
  destruct (classify_processed_inv _ _ _ _ _ _ _ _ Hclass)
    as (Ha & Hown & Hbot & Htext & Hgate & Hmute).
  destruct (Hmute Htoggle) as [Hcheck Hnot].
  split.
  - unfold classify.
    rewrite !bool_decide_eq_false_2 by done. rewrite Htext. cbn [negb].
    assert (Hgate' : large_group_gate cfg
                       (if prefs_raise then None else load_prefs cfg db)
                       (add_muted_chat (a_chat_id a) c) (ev_chat ev) = false)
      by exact Hgate.
    rewrite Hgate', Htoggle, Hcheck.
    rewrite bool_decide_eq_true_2; [done|].
    unfold add_muted_chat; cbn. apply elem_of_union_l, elem_of_singleton.
    reflexivity.
  - assert (Hback : remove_muted_chat (a_chat_id a)
                      (add_muted_chat (a_chat_id a) c) = c).
    { clear - Hnot. destruct c as [hp muted sizes].
      unfold remove_muted_chat, add_muted_chat, with_muted; cbn in *.
      f_equal. apply set_eq. intros x.
      rewrite elem_of_difference, elem_of_union, elem_of_singleton.
      split; [tauto|]. intros Hx. split; [tauto|]. by intros ->. }
    by rewrite Hback.
Qed.

(** The private message from user 42 again: processed, then filtered
    once 42 is muted. *)
Lemma muting_filters_the_next_message_witness :
  let ev := {| ev_message_id := 7; ev_raw_text := Some "lunch?";
               ev_date := 500; ev_chat := ChatUser 42 "Ann" None;
               ev_sender := Some (SenderUser 42 "Ann" None) |} in
  classify Sample.cfg (Some 1000) (Some "alice") false
    (add_muted_chat 42 Sample.empty_cache) (Sample.store_of []) ev
  = FilteredMuted.
Proof.
  intros ev.
  exact (proj1 (muting_filters_the_next_message Sample.cfg (Some 1000)
                  (Some "alice") false Sample.empty_cache (Sample.store_of [])
                  ev (save_args (Some "alice") ev) eq_refl eq_refl)).
Defined.

End Admission.

(** ** What a digest never picks up again *)

Section Exclusion.
Import Models Userbot Scheduler Lifecycle.

Lemma selected_row_inv (cfg : Config) (c : Cache) (env : DigestEnv)
    (hours limit : Z) (db : Store) (id : Z) :
  id ∈ (selection cfg c env hours limit db).*1 →
  ∃ m, messages db !! id = Some m
       ∧ label m = None ∧ included_in_summary m = false.
Proof.
  intros Hsel.
  apply list_elem_of_fmap in Hsel as ([id' m] & -> & Hsel).
  apply select_subset, elem_of_qualifying_rows in Hsel as [Hrow Hq].
  apply qualifies_spec in Hq as (_ & Hl & Hinc & _).
  exists m. by repeat split.
Qed.

Lemma rows_kept_rtc (db db' : Store) : rtc core_step db db' → rows_kept db db'.
Proof.
  induction 1 as [db | db1 db2 db3 Hstep _ IH].
  - apply rows_kept_refl.
  - eapply rows_kept_trans; [by apply rows_kept_step | exact IH].
Qed.

(** Once a record has been in a digest, no later digest selects it again,
    whatever the core did in between (new messages, alerts, labels, other
    digests) and whatever window, cap, preferences and caches the later
    digest runs with. *)
Theorem included_record_is_never_selected_again
    (db db' : Store) (id : Z) (m : Message)
    (cfg : Config) (c : Cache) (env : DigestEnv) (hours limit : Z) :
  messages db !! id = Some m →
  included_in_summary m = true →
  rtc core_step db db' →
  id ∉ (selection cfg c env hours limit db').*1.
Proof.
  intros Hm Hinc Hsteps Hsel.
  destruct (rows_kept_rtc db db' Hsteps id m Hm) as (m' & Hm' & Hkept & _).
  apply selected_row_inv in Hsel as (m'' & Hm'' & _ & Hnot).
  rewrite Hm' in Hm''. injection Hm'' as <-.
  rewrite (Hkept Hinc) in Hnot. discriminate.
Qed.

(** Record 1 of the busy day is in a first digest; after a new message
    arrives it is not in the next one. *)
Lemma included_record_is_never_selected_again_witness :
  let env := {| d_now := 1000; d_marked_at := 1001;
                d_prefs_raise := false; d_session_raises := false |} in
  let senv := {| oracle := Utils.OracleTimeout; topic := None;
                 insert_raises := false; threshold_lookup_raises := false;
                 alert := Sample.quiet_alert; now := 1002 |} in
  let db := (get_unlabeled_messages Sample.cfg Sample.muted_77 env 1 12
               Sample.busy_day).2 in
  let db' := save_message Sample.cfg Sample.muted_77 senv
               (Sample.args "one more") db in
  1 ∉ (selection Sample.cfg Sample.muted_77 env 1 12 db').*1.
Proof.
  intros env senv db db'.
  apply (included_record_is_never_selected_again db db' 1
           (set_included 1001 (Sample.row 42 3 900))).
  - vm_compute. reflexivity.
  - reflexivity.
  - apply rtc_once. apply step_save.
Defined.



End Exclusion.

(** ** What a sweep puts in the caches *)

Section SweepContents.
Import Models Userbot.

Lemma elem_of_mute_fold (ts : Z) (ds : list MuteDialog) (acc : gset Z) (id : Z) :
  id ∈ foldl (mute_sweep_step ts) acc ds
  ↔ id ∈ acc
    ∨ ∃ d ns, d ∈ ds ∧ md_id d = id
              ∧ md_settings d = ProbeOk (Some ns)
              ∧ dialog_is_muted ts (md_clock d) ns = true.
Proof.
  revert acc. induction ds as [|d ds IH]; intros acc; simpl.
  - split; [by left|]. intros [H | (d & ns & Hd & _)]; [done|].
    by apply not_elem_of_nil in Hd.
  - rewrite IH. unfold mute_sweep_step. split.
    + intros [Hacc | (d' & ns & Hd' & Hrest)].
      * destruct (md_settings d) as [|[ns|]] eqn:Hs; try by left.
        destruct (dialog_is_muted ts (md_clock d) ns) eqn:Hmut; [|by left].
        apply elem_of_union in Hacc as [Hid | Hacc]; [|by left].
        apply elem_of_singleton in Hid. right. exists d, ns.
        split; [apply list_elem_of_here | done].
      * right. exists d', ns. split; [by apply list_elem_of_further | done].
    + intros [Hacc | (d' & ns & Hd' & Hid & Hs & Hmut)].
      * left. destruct (md_settings d) as [|[ns|]]; try done.
        destruct (dialog_is_muted ts (md_clock d) ns); [|done].
        by apply elem_of_union_r.
      * apply elem_of_cons in Hd' as [-> | Hd'].
        -- left. rewrite Hs, Hmut. apply elem_of_union_l, elem_of_singleton.
           done.
        -- right. exists d', ns. done.
Qed.

(** After a mute sweep that reaches the end of the enumeration, the mute
    cache holds exactly the identifiers of the dialogs whose settings
    could be read and say muted: an optimistic entry the transport does
    not confirm is gone, and the other caches are untouched. *)
Theorem completed_mute_sweep_is_authoritative
    (ts : Z) (dialogs : list MuteDialog) (c : Cache) (id : Z) :
  let c' := refresh_muted_chats true ts dialogs Exhausted c in
  (id ∈ _muted_chats c'
   ↔ ∃ d ns, d ∈ dialogs ∧ md_id d = id
             ∧ md_settings d = ProbeOk (Some ns)
             ∧ dialog_is_muted ts (md_clock d) ns = true)
  ∧ _group_sizes c' = _group_sizes c
  ∧ _high_priority_users c' = _high_priority_users c.
Proof.
  intros c'. subst c'. unfold refresh_muted_chats. cbn [negb].
  cbn [_muted_chats _group_sizes _high_priority_users with_muted].
  split; [|done]. unfold mute_sweep. rewrite elem_of_mute_fold.
  split; [intros [H | H]; [by apply not_elem_of_empty in H | done] | by right].
Qed.

(** An optimistic entry for 42 and a sweep that finds only dialog 6
    muted: 6 is in the cache afterwards, 42 is not. *)
Lemma completed_mute_sweep_is_authoritative_witness :
  let c := {| _high_priority_users := ∅; _muted_chats := {[ 42 ]};
              _group_sizes := ∅ |} in
  let silenced :=
    {| md_id := 6;
       md_settings := ProbeOk (Some {| silent := true; mute_until := None |});
       md_clock := 0 |} in
  6 ∈ _muted_chats (refresh_muted_chats true 0 [silenced] Exhausted c).
Proof.
  intros c silenced.
  apply (proj1 (completed_mute_sweep_is_authoritative 0 [silenced] c 6)).
  exists silenced, {| silent := true; mute_until := None |}.
  split; [apply list_elem_of_here|]. by repeat split.
Defined.

Lemma size_sweep_step_stores (acc : gmap Z Z) (d : GroupDialog) :
  match size_sweep_step acc d with
  | Continue acc' => acc' = store_count (gd_id d) (reported_count d) acc
  | Break acc' _ => acc' = acc
  end.
Proof.
  unfold size_sweep_step, reported_count.
  destruct (gd_is_group d); cbn [negb]; [|done].
  by destruct (gd_entity d) as [[k|] [cnt|e|] | [|] attr [cnt|e|] | | |].
Qed.

Lemma size_sweep_provenance (acc : gmap Z Z) (ds : list GroupDialog)
    (sizes : gmap Z Z) (logs : list FloodLog) (broke : bool) (id n : Z) :
  size_sweep acc ds = (sizes, logs, broke) →
  sizes !! id = Some n →
  acc !! id = Some n
  ∨ ∃ d, d ∈ ds ∧ gd_id d = id ∧ reported_count d = Some n.
Proof.
  revert acc. induction ds as [|d ds IH]; intros acc; simpl.
  - intros [= <- _ _]. by left.
  - pose proof (size_sweep_step_stores acc d) as Hstep.
    destruct (size_sweep_step acc d) as [acc' | acc' log].
    + intros Hrest Hsz.
      destruct (IH acc' Hrest Hsz) as [Hacc' | (d' & Hd' & Hfacts)].
      * subst acc'. unfold store_count in Hacc'.
        destruct (reported_count d) as [k|] eqn:Hk; [|by left].
        destruct (decide (gd_id d = id)) as [Heq | Hne].
        -- rewrite Heq, lookup_insert_eq in Hacc'. injection Hacc' as ->.
           right. exists d. split; [apply list_elem_of_here | done].
        -- rewrite lookup_insert_ne in Hacc' by done. by left.
      * right. exists d'. split; [by apply list_elem_of_further | done].
    + subst acc'. destruct log; intros [= <- _ _] Hsz; by left.
Qed.

Lemma size_sweep_logs_once (acc : gmap Z Z) (ds : list GroupDialog) :
  (length (size_sweep acc ds).1.2 <= 1)%nat.
Proof.
  revert acc. induction ds as [|d ds IH]; intros acc; simpl; [lia|].
  destruct (size_sweep_step acc d) as [acc' | acc' [l|]]; [apply IH | simpl; lia..].
Qed.

(** Every participant count in the group-size cache after a sweep was
    reported by the transport for a dialog of the enumeration with that
    identifier (its own count attribute or the full-metadata fetch),
    unless the sweep left the cache as it was; a sweep logs at most one
    rate-limit warning and never touches the mute cache. *)
Theorem group_sizes_come_from_the_transport
    (dialogs : list GroupDialog) (ending : enumeration_end) (c : Cache) (id n : Z) :
  let result := refresh_group_sizes true dialogs ending c in
  (_group_sizes result.1 !! id = Some n →
   result.1 = c
   ∨ ∃ d, d ∈ dialogs ∧ gd_id d = id ∧ gd_is_group d = true
          ∧ reported_count d = Some n)
  ∧ (length result.2 <= 1)%nat
  ∧ _muted_chats result.1 = _muted_chats c.
Proof.
  intros result. subst result. unfold refresh_group_sizes. cbn [negb].
  pose proof (size_sweep_logs_once ∅ dialogs) as Hlogs.
  destruct (size_sweep ∅ dialogs) as [[sizes logs] broke] eqn:Hsweep.
  cbn [fst snd] in Hlogs.
  assert (Hcommit :
    (_group_sizes (commit_sizes sizes c) !! id = Some n →
     commit_sizes sizes c = c
     ∨ ∃ d, d ∈ dialogs ∧ gd_id d = id ∧ gd_is_group d = true
            ∧ reported_count d = Some n)
    ∧ _muted_chats (commit_sizes sizes c) = _muted_chats c).
  { unfold commit_sizes. case_bool_decide as Hempty; [by split; [left|]|].
    cbn [_group_sizes _muted_chats with_sizes]. split; [|done]. intros Hsz.
    destruct (size_sweep_provenance _ _ _ _ _ id n Hsweep Hsz)
      as [Hold | (d & Hd & Hid & Hcount)].
    - by rewrite lookup_empty in Hold.
    - right. exists d. split_and!; try done.
      unfold reported_count in Hcount. by destruct (gd_is_group d). }
  destruct Hcommit as [Hc1 Hc2].
  destruct broke; [by cbn [fst snd]|].
  destruct ending; cbn [fst snd]; split_and!; try done; by left.
Qed.

(** A sweep over a group of 12 and a supergroup whose fetch fails and
    whose own attribute says 300. *)
Lemma group_sizes_come_from_the_transport_witness :
  let small := {| gd_id := 1; gd_is_group := true;
                  gd_entity := EChat (Some 12) FetchError |} in
  let big := {| gd_id := 3; gd_is_group := true;
                gd_entity := EChannel true (Some 300) FetchError |} in
  let result := refresh_group_sizes true [small; big] Exhausted Sample.empty_cache in
  _group_sizes result.1 !! 3 = Some 300
  ∧ (result.1 = Sample.empty_cache
     ∨ ∃ d, d ∈ [small; big] ∧ gd_id d = 3 ∧ gd_is_group d = true
            ∧ reported_count d = Some 300).
Proof.
  intros small big result.
  assert (Hsz : _group_sizes result.1 !! 3 = Some 300) by (vm_compute; reflexivity).
  split; [exact Hsz|].
  exact (proj1 (group_sizes_come_from_the_transport [small; big] Exhausted
                  Sample.empty_cache 3 300) Hsz).
Defined.

End SweepContents.

(** ** The label handler and the shape of stored rows *)

Section LabelWrites.
Import Models Userbot Bot Lifecycle Wellformed.

Lemma label_attempts_updated (fuel attempt : nat) (lk : nat → bool)
    (id : Z) (l : string) (now : Z) (db db' : Store) :
  label_attempts fuel attempt lk id l now db = LabelUpdated db' →
  db' = db
  ∨ (is_Some (messages db !! id) ∧ db' = update_row id (set_label l now) db).
Proof.
  revert attempt. induction fuel as [|fuel IH]; intros attempt; simpl.
  - intros [= <-]. by left.
  - destruct (lk attempt).
    + destruct (attempt <? _)%nat; [apply IH | discriminate].
    + destruct (messages db !! id) as [m|] eqn:Hm; [|discriminate].
      intros [= <-]. right. eauto.
Qed.

(** Where the label handler writes, it writes a valid label on a stored
    record with a positive identifier. *)
Lemma handle_label_callback_cases (env : LabelEnv) (data : option string)
    (shown : string) (db : Store) :
  (handle_label_callback env data shown db).2 = db
  ∨ ∃ id l m,
      0 < id ∧ l ∈ valid_labels ∧ messages db !! id = Some m
      ∧ (handle_label_callback env data shown db).2
        = update_row id (set_label l (l_now env)) db
      ∧ ((∃ text, (handle_label_callback env data shown db).1 = Confirmation text)
         ∨ (handle_label_callback env data shown db).1 = ErrorProcessing).
Proof.
  unfold handle_label_callback.
  destruct data as [d|]; [|by left].
  destruct (negb (Utils.truthy (Some d))); [by left|].
  destruct (split_colon d) as [|action [|message_id_str [|l [|? ?]]]];
    try by left.
  destruct (negb (action =? "label")%string); [by left|].
  destruct (int message_id_str) as [id|]; [|by left].
  destruct (id <=? 0) eqn:Hpos; [by left|]. apply Z.leb_gt in Hpos.
  case_bool_decide as Hvalid; cbn [negb]; [|by left].
  destruct (label_attempts max_retries 0 (l_locked env) id l (l_now env) db)
    as [db'| |] eqn:Hatt; [|by left..].
  apply label_attempts_updated in Hatt as [-> | [[m Hm] ->]].
  - left. by destruct (l_edit_raises env).
  - right. exists id, l, m. split_and!; try done;
      destruct (l_edit_raises env); cbn [fst snd]; eauto.
Qed.

(** A label callback that does not end in a confirmation (or in the
    error raised by the final edit) has written nothing: malformed data,
    an unknown action, a bad or non-positive identifier, an invalid
    label, a missing record and an exhausted retry all leave the store as
    it was. The handler never adds or removes a row and never touches the
    preferences. *)
Theorem rejected_label_writes_nothing (env : LabelEnv) (data : option string)
    (shown : string) (db : Store) :
  let result := handle_label_callback env data shown db in
  (match result.1 with
   | Confirmation _ | ErrorProcessing => True
   | _ => result.2 = db
   end)
  ∧ dom (messages result.2) = dom (messages db)
  ∧ user_preferences result.2 = user_preferences db.
Proof.
  intros result. subst result.
  split.
  - unfold handle_label_callback. repeat case_match; cbn [fst snd]; done.
  - destruct (handle_label_callback_cases env data shown db)
      as [-> | (id & l & m & _ & _ & _ & -> & _)]; [done|].
    unfold update_row, with_messages; cbn. by rewrite dom_alter_L.
Qed.

Lemma row_consistent_set_warning (now : Z) (m : Message) :
  row_consistent m → row_consistent (set_warning now m).
Proof.
  intros (Hs & Hl & Hi & Hw). unfold row_consistent; cbn.
  split_and!; try done; try lia; split; eauto.
Qed.

Lemma row_consistent_set_included (now : Z) (m : Message) :
  row_consistent m → row_consistent (set_included now m).
Proof.
  intros (Hs & Hl & Hi & Hw). unfold row_consistent; cbn.
  split_and!; try done; try lia; split; eauto.
Qed.

Lemma row_consistent_set_label (l : string) (now : Z) (m : Message) :
  l ∈ valid_labels → row_consistent m → row_consistent (set_label l now m).
Proof.
  intros Hv (Hs & Hl & Hi & Hw). unfold row_consistent; cbn.
  split_and!; try done; try lia; eauto.
Qed.

Lemma store_consistent_update_row (id : Z) (f : Message → Message) (db : Store) :
  (∀ m, row_consistent m → row_consistent (f m)) →
  store_consistent db → store_consistent (update_row id f db).
Proof.
  intros Hf Hdb k m'. rewrite lookup_update_row.
  destruct (decide (id = k)) as [->|Hne]; [|apply Hdb].
  destruct (messages db !! k) as [m|] eqn:Hm; [|discriminate].
  intros [= <-]. apply Hf. by eapply Hdb.
Qed.

Lemma store_consistent_alert (env : AlertEnv) (id now : Z) (db : Store) :
  store_consistent db → store_consistent (send_warning_for_message env id now db).
Proof.
  intros Hdb. destruct (send_warning_cases env id now db) as [-> | ->]; [done|].
  apply store_consistent_update_row; [apply row_consistent_set_warning | done].
Qed.

Lemma chosen_score_in_range (cfg : Config) (c : Cache) (env : SaveEnv)
    (a : SaveArgs) :
  0 <= match (if ai_enabled cfg
              then Utils.calculate_ai_priority_score (a_message_text a) (oracle env)
              else None) with
       | Some score => score
       | None =>
           Utils.calculate_priority_score (a_message_text a)
             (Utils.detect_mention (a_message_text a) (a_client_username a))
             (Utils.detect_question (a_message_text a))
             (bool_decide (a_user_id a ∈ _high_priority_users c))
       end <= 10.
Proof.
  pose proof (rule_score_in_range (a_message_text a)
    (Utils.detect_mention (a_message_text a) (a_client_username a))
    (Utils.detect_question (a_message_text a))
    (bool_decide (a_user_id a ∈ _high_priority_users c))) as Hrule.
  destruct (ai_enabled cfg); [|lia].
  destruct (Utils.calculate_ai_priority_score _ _) as [s|] eqn:Hs; [|lia].
  by apply ai_score_in_range in Hs.
Qed.

Lemma store_consistent_insert (id : Z) (m0 : Message) (db : Store) :
  row_consistent m0 → store_consistent db →
  store_consistent (with_messages (<[id := m0]> (messages db)) db).
Proof.
  intros Hm0 Hdb k m. cbn.
  destruct (decide (id = k)) as [->|Hne].
  - rewrite lookup_insert_eq. by intros [= <-].
  - rewrite lookup_insert_ne by done. apply Hdb.
Qed.

Lemma store_consistent_save (cfg : Config) (c : Cache) (env : SaveEnv)
    (a : SaveArgs) (db : Store) :
  store_consistent db → store_consistent (save_message cfg c env a db).
Proof.
  intros Hdb. unfold save_message.
  destruct (insert_raises env); [done|]. cbv zeta.
  match goal with
  | |- context [<[_ := ?m]> _] => assert (Hm0 : row_consistent m)
  end.
  { pose proof (chosen_score_in_range cfg c env a) as Hrange.
    unfold row_consistent; cbn. split_and!; try done; try lia;
      (split; [discriminate | by intros [? ?]]). }
  match goal with
  | |- context [if ?b then _ else _] => destruct b
  end.
  - by apply store_consistent_alert, store_consistent_insert.
  - by apply store_consistent_insert.
Qed.

Lemma store_consistent_mark_included (rows : list Scheduler.Selected)
    (marked_at : Z) (db : Store) :
  store_consistent db → store_consistent (Scheduler.mark_included rows marked_at db).
Proof.
  intros Hdb id m'. rewrite lookup_mark_included.
  destruct (messages db !! id) as [m|] eqn:Hm; [|discriminate].
  intros [= <-]. case_bool_decide.
  - apply row_consistent_set_included. by eapply Hdb.
  - by eapply Hdb.
Qed.

Lemma store_consistent_step (db db' : Store) :
  core_step db db' → store_consistent db → store_consistent db'.
Proof.
  destruct 1 as [cfg uid uname pr env c ev db | cfg c env a db
                | env id now db | cfg c env hours limit db
                | env data shown db]; intros Hdb.
  - unfold handle_new_message. destruct (classify _ _ _ _ _ _ _); try done.
    by apply store_consistent_save.
  - by apply store_consistent_save.
  - by apply store_consistent_alert.
  - unfold Scheduler.get_unlabeled_messages.
    destruct (Scheduler.d_session_raises env); [done|].
    by apply store_consistent_mark_included.
  - destruct (handle_label_callback_cases env data shown db)
      as [-> | (id & l & m & _ & Hvalid & _ & -> & _)]; [done|].
    apply store_consistent_update_row; [|done].
    intros m1. by apply row_consistent_set_label.
Qed.

(** Whatever sequence of core operations runs on a store whose rows are
    consistent (the empty table, for one), every stored row afterwards
    has a score between 0 and 10, carries either no label and no label
    timestamp or one of the three valid labels with its timestamp, and
    has each of its two flags set exactly when the matching timestamp is
    set. *)
Theorem stored_rows_stay_consistent (db db' : Store) :
  rtc core_step db db' →
  store_consistent db →
  store_consistent db'.
Proof.
  intros Hsteps Hdb.
  induction Hsteps as [db | db1 db2 db3 Hstep _ IH]; [done|].
  apply IH. by eapply store_consistent_step.
Qed.

(** From the empty table: a message arrives, is alerted on, and is
    labelled. *)
Lemma stored_rows_stay_consistent_witness :
  let env := {| oracle := Utils.OracleReply "9"; topic := None;
                insert_raises := false; threshold_lookup_raises := false;
                alert := Sample.quiet_alert; now := 600 |} in
  let lenv := {| l_locked := fun _ => false; l_now := 700;
                 l_edit_raises := false |} in
  let db1 := save_message Sample.cfg Sample.empty_cache env
               (Sample.args "server is down") (Sample.store_of []) in
  let db2 := (handle_label_callback lenv (Some "label:1:high") "alert" db1).2 in
  store_consistent db2.
Proof.
  intros env lenv db1 db2.
  apply (stored_rows_stay_consistent (Sample.store_of []) db2).
  - eapply rtc_l; [apply (step_save Sample.cfg Sample.empty_cache env
                            (Sample.args "server is down"))|].
    apply rtc_once. apply (step_label lenv (Some "label:1:high") "alert").
  - intros id m Hm. cbn in Hm. by rewrite lookup_empty in Hm.
Defined.



End LabelWrites.

(** ** Numerals in callback data *)

Section Numerals.
Import Utils Bot Text.

Lemma int_digits_digit (c : ascii) (acc : Z) (b : bool) (s : string) :
  is_digit c = true →
  int_digits acc b (String c s) = int_digits (10 * acc + digit_value c) true s.
Proof. intros H. simpl. by rewrite H. Qed.

Lemma of_lu_rev_digit (d k : uint) :
  Z.of_N (Unsigned.of_lu (Decimal.revapp d k))
  = Z.of_N (Unsigned.of_lu (Decimal.rev d))
    + Z.of_N (Unsigned.of_lu k) * 10 ^ Z.of_N (Unsigned.usize d).
Proof.
  rewrite Unsigned.of_lu_revapp.
  by rewrite N2Z.inj_add, N2Z.inj_mul, N2Z.inj_pow.
Qed.

(** Reading the digits of a decimal numeral gives its value. *)
Lemma int_digits_uint (d : uint) (acc : Z) (b : bool) :
  d ≠ Nil ∨ b = true →
  int_digits acc b (NilEmpty.string_of_uint d)
  = Some (acc * 10 ^ Z.of_N (Unsigned.usize d)
          + Z.of_N (Unsigned.of_lu (Decimal.rev d))).
Proof.
  revert acc b.
  induction d as [|d IH|d IH|d IH|d IH|d IH|d IH|d IH|d IH|d IH|d IH];
    intros acc b Hok;
    [ destruct Hok as [Hne | ->]; [done|]; simpl; f_equal; lia | ..];
    cbn [NilEmpty.string_of_uint]; rewrite int_digits_digit by reflexivity;
    rewrite IH by (by right); f_equal;
    unfold Decimal.rev at 2; cbn [Decimal.revapp]; rewrite of_lu_rev_digit;
    cbn [Unsigned.usize]; rewrite N2Z.inj_succ, Z.pow_succ_r by lia;
    match goal with
    | |- context [digit_value ?c] =>
        let v := eval vm_compute in (digit_value c) in
        change (digit_value c) with v
    end;
    match goal with
    | |- context [Z.of_N (Unsigned.of_lu ?k)] =>
        match k with
        | Decimal.rev _ => fail 1
        | _ => let v := eval vm_compute in (Z.of_N (Unsigned.of_lu k)) in
               change (Z.of_N (Unsigned.of_lu k)) with v
        end
    end; ring.
Qed.

Lemma uint_chars_are_digits (d : uint) :
  forallb is_digit (list_ascii_of_string (NilEmpty.string_of_uint d)) = true.
Proof. induction d; simpl; auto. Qed.

Lemma uint_chars_are_numeral (d : uint) :
  forallb (fun c => is_digit c || Ascii.eqb c "-")
    (list_ascii_of_string (NilEmpty.string_of_uint d)) = true.
Proof. induction d; simpl; auto. Qed.

Lemma str_int_chars (i : Z) :
  forallb (fun c => is_digit c || Ascii.eqb c "-")
    (list_ascii_of_string (str_int i)) = true.
Proof.
  assert (Hd : ∀ d, forallb (fun c => is_digit c || Ascii.eqb c "-")
                      (list_ascii_of_string (NilZero.string_of_uint d)) = true).
  { intros d. unfold NilZero.string_of_uint.
    destruct d; try reflexivity;
      match goal with
      | |- context [NilEmpty.string_of_uint ?u] =>
          apply (uint_chars_are_numeral u)
      end. }
  unfold str_int, NilZero.string_of_int.
  destruct (Z.to_int i); [apply Hd | cbn; apply Hd].
Qed.

Lemma numeral_char_facts (c : ascii) :
  is_digit c || Ascii.eqb c "-" = true →
  is_space c = false ∧ Ascii.eqb c ":" = false.
Proof.
  intros [Hd | He]%orb_prop.
  - unfold is_digit in Hd. apply andb_prop in Hd as [H1 H2].
    apply Z.leb_le in H1, H2. split.
    + unfold is_space.
      repeat match goal with
             | |- context [?a =? ?b] =>
                 destruct (Z.eqb_spec a b); cbn; try lia
             | |- context [?a <=? ?b] =>
                 destruct (Z.leb_spec a b); cbn; try lia
             end.
    + destruct (Ascii.eqb_spec c ":") as [->|]; [|done].
      vm_compute in H1, H2. by destruct H2.
  - apply Ascii.eqb_eq in He as ->. by split.
Qed.

Lemma rstrip_no_space (s : string) :
  forallb (fun c => negb (is_space c)) (list_ascii_of_string s) = true →
  rstrip s = s.
Proof.
  induction s as [|c s IH]; cbn; [done|].
  intros [Hc Hs]%andb_prop. rewrite (IH Hs).
  destruct s; [|done]. apply negb_true_iff in Hc. by rewrite Hc.
Qed.

Lemma strip_no_space (s : string) :
  forallb (fun c => negb (is_space c)) (list_ascii_of_string s) = true →
  strip s = s.
Proof.
  intros H. unfold strip.
  assert (Hl : lstrip s = s).
  { destruct s as [|c s]; [done|]. cbn in *.
    apply andb_prop in H as [Hc _]. apply negb_true_iff in Hc. by rewrite Hc. }
  rewrite Hl. by apply rstrip_no_space.
Qed.

Lemma forallb_weaken {A} (P Q : A → bool) (l : list A) :
  (∀ x, P x = true → Q x = true) → forallb P l = true → forallb Q l = true.
Proof.
  intros HPQ. induction l as [|x l IH]; cbn; [done|].
  intros [Hx Hl]%andb_prop. rewrite (HPQ x Hx). by apply IH.
Qed.

Lemma strip_str_int (i : Z) : strip (str_int i) = str_int i.
Proof.
  apply strip_no_space. eapply forallb_weaken; [|apply str_int_chars].
  intros c Hc. apply numeral_char_facts in Hc as [-> _]. done.
Qed.

Lemma int_of_uint (d : uint) :
  d ≠ Nil →
  int_digits 0 false (NilEmpty.string_of_uint d) = Some (Z.of_N (Pos.of_uint d)).
Proof.
  intros Hd. rewrite int_digits_uint by (by left).
  rewrite Unsigned.of_uint_alt. f_equal.
Qed.

(** [int(str(i)) == i] for every integer. *)
Lemma int_str_int (i : Z) : int (str_int i) = Some i.
Proof.
  unfold int. rewrite strip_str_int. unfold str_int.
  destruct i as [|p|p]; [reflexivity|..]; cbn [Z.to_int NilZero.string_of_int].
  - pose proof (Unsigned.to_uint_nonnil p) as Hnn.
    pose proof (DecimalPos.Unsigned.of_to p) as Hval.
    unfold NilZero.string_of_uint.
    destruct (Pos.to_uint p) as [|d|d|d|d|d|d|d|d|d|d] eqn:Hd; [done|..];
      match goal with
      | |- context [NilEmpty.string_of_uint ?u] =>
          change (int_digits 0 false (NilEmpty.string_of_uint u) = Some (Z.pos p));
          rewrite (int_of_uint u) by done; by rewrite Hval
      end.
  - pose proof (Unsigned.to_uint_nonnil p) as Hnn.
    pose proof (DecimalPos.Unsigned.of_to p) as Hval.
    unfold NilZero.string_of_uint.
    destruct (Pos.to_uint p) as [|d|d|d|d|d|d|d|d|d|d] eqn:Hd; [done|..];
      match goal with
      | |- context [NilEmpty.string_of_uint ?u] =>
          change (Z.opp <$> int_digits 0 false (NilEmpty.string_of_uint u)
                  = Some (Z.neg p));
          rewrite (int_of_uint u) by done; by rewrite Hval
      end.
Qed.

Lemma split_colon_no_colon (a : string) :
  forallb (fun c => negb (Ascii.eqb c ":")) (list_ascii_of_string a) = true →
  split_colon a = [a].
Proof.
  induction a as [|c a IH]; [done|].
  cbn [split_colon list_ascii_of_string forallb String.append].
  intros [Hc Ha]%andb_prop. apply negb_true_iff in Hc. rewrite Hc.
  by rewrite (IH Ha).
Qed.

Lemma split_colon_app (a b : string) :
  forallb (fun c => negb (Ascii.eqb c ":")) (list_ascii_of_string a) = true →
  split_colon (a +:+ String ":" b) = a :: split_colon b.
Proof.
  induction a as [|c a IH]; [done|].
  change (String c a +:+ String ":" b) with (String c (a +:+ String ":" b)).
  cbn [split_colon list_ascii_of_string forallb].
  intros [Hc Ha]%andb_prop. apply negb_true_iff in Hc. rewrite Hc.
  by rewrite (IH Ha).
Qed.

Lemma str_int_no_colon (i : Z) :
  forallb (fun c => negb (Ascii.eqb c ":")) (list_ascii_of_string (str_int i))
  = true.
Proof.
  eapply forallb_weaken; [|apply str_int_chars].
  intros c Hc. apply numeral_char_facts in Hc as [_ ->]. done.
Qed.

End Numerals.

(** ** From a keyboard button back to its handler *)

Section Callbacks.
Import Models Userbot Bot Text Keyboards.

Lemma split_colon_parts (a b c : string) :
  forallb (fun x => negb (Ascii.eqb x ":")) (list_ascii_of_string a) = true →
  forallb (fun x => negb (Ascii.eqb x ":")) (list_ascii_of_string b) = true →
  forallb (fun x => negb (Ascii.eqb x ":")) (list_ascii_of_string c) = true →
  split_colon (a +:+ String ":" (b +:+ String ":" c)) = [a; b; c].
Proof.
  intros Ha Hb Hc.
  by rewrite !split_colon_app, split_colon_no_colon.
Qed.

Lemma split_colon_ids (a : string) (x y : Z) :
  forallb (fun x => negb (Ascii.eqb x ":")) (list_ascii_of_string a) = true →
  split_colon (a +:+ String ":" (str_int x +:+ String ":" (str_int y)))
  = [a; str_int x; str_int y].
Proof. intros Ha. apply split_colon_parts; auto using str_int_no_colon. Qed.





(** The data of a duration button is accepted by the mute handler. *)
Lemma mute_data_accepted (env : MuteEnv) (db : Store) (c : Cache)
    (action : string) (message_id chat_id : Z) (m : Message)
    (delta : option Z) (display : string) :
  forallb (fun x => negb (Ascii.eqb x ":")) (list_ascii_of_string action) = true →
  duration_map action = Some (delta, display) →
  messages db !! message_id = Some m →
  m_lookup_raises env = false →
  m_resolve env = TransportOk → m_request env = TransportOk →
  ∃ reply,
    handle_mute_callback env
      (action +:+ String ":" (str_int message_id +:+ String ":" (str_int chat_id)))
      db c
    = (reply,
       Some {| r_chat_id := chat_id;
               r_mute_until :=
                 match delta with
                 | None => year_2038
                 | Some d => (m_now env + d * us_per_second) / us_per_second
                 end |},
       add_muted_chat chat_id c).
Proof.
  intros Hnc Hmap Hm Hlk Hres Hreq. unfold handle_mute_callback.
  rewrite split_colon_ids by done. rewrite !int_str_int, Hmap, Hlk, Hm, Hres, Hreq.
  destruct (m_edit env); eauto.
Qed.



(** The unmute handler only ever takes a conversation out of the mute
    cache: whatever the data and the collaborators do, no conversation
    is added, the group sizes and the priority users are untouched, and
    a settings request, when one is issued, unmutes ([mute_until = 0]).
    The cache changes only after the transport has accepted the
    request. *)
Theorem unmute_only_removes (env : MuteEnv) (data : string) (db : Store)
    (c : Cache) :
  let '(reply, request, c') := handle_unmute_callback env data db c in
  get_muted_chats c' ⊆ get_muted_chats c
  ∧ _group_sizes c' = _group_sizes c
  ∧ _high_priority_users c' = _high_priority_users c
  ∧ (∀ r, request = Some r → r_mute_until r = 0)
  ∧ (c' ≠ c → m_resolve env = TransportOk ∧ m_request env = TransportOk).
Proof.
  unfold handle_unmute_callback.
  destruct (split_colon data) as [|? [|message_id_str [|chat_id_str [|? ?]]]];
    try (split_and!; [done..|by intros ? [=]|done]).
  destruct (int message_id_str) as [message_id|];
    [|split_and!; [done..|by intros ? [=]|done]].
  destruct (int chat_id_str) as [chat_id|];
    [|split_and!; [done..|by intros ? [=]|done]].
  destruct (m_lookup_raises env);
    [split_and!; [done..|by intros ? [=]|done]|].
  destruct (messages db !! message_id);
    [|split_and!; [done..|by intros ? [=]|done]].
  destruct (m_resolve env);
    [|split_and!; [done..|by intros ? [=]|done]].
  destruct (m_request env);
    [|split_and!; [done..|by intros ? [= <-]|done]].
  assert (Hsub : get_muted_chats (remove_muted_chat chat_id c)
                 ⊆ get_muted_chats c).
  { unfold get_muted_chats, remove_muted_chat, with_muted. cbn.
    intros x [Hx _]%elem_of_difference. exact Hx. }
  destruct (m_edit env); split_and!; try done; by intros ? [= <-].
Qed.

(** On the card of a muted conversation the second-row button is the
    unmute button; pressing it, with the record stored and the
    transport accepting, takes that conversation out of the mute cache
    and leaves every other one in it, after which the card's keyboard
    offers to ignore the conversation again. *)
Theorem unmute_button_unmutes_the_chat (env : MuteEnv) (db : Store)
    (c : Cache) (message_id chat_id : Z) (chat_title : string) (m : Message)
    (b : Button) :
  messages db !! message_id = Some m →
  m_lookup_raises env = false →
  m_resolve env = TransportOk → m_request env = TransportOk →
  chat_id ∈ get_muted_chats c →
  create_priority_keyboard c message_id chat_id chat_title !! 1%nat = Some [b] →
  ∃ reply,
    handle_unmute_callback env (callback_data b) db c
    = (reply, Some {| r_chat_id := chat_id; r_mute_until := 0 |},
       remove_muted_chat chat_id c)
    ∧ get_muted_chats (remove_muted_chat chat_id c)
      = get_muted_chats c ∖ {[chat_id]}
    ∧ create_priority_keyboard (remove_muted_chat chat_id c) message_id chat_id
        chat_title !! 1%nat
      = Some [ {| b_text := "üö´ Ignore Chat";
                  callback_data := "ignore:" +:+ str_int message_id +:+ ":"
                                   +:+ str_int chat_id |} ].
Proof.
  intros Hm Hlk Hres Hreq Hin Hrow.
  unfold create_priority_keyboard in Hrow. cbn [lookup list_lookup] in Hrow.
  rewrite bool_decide_eq_true_2 in Hrow by done.
  injection Hrow as <-. cbn [callback_data].
  unfold handle_unmute_callback.
  change ("unmute:" +:+ str_int message_id +:+ ":" +:+ str_int chat_id)
    with ("unmute" +:+ String ":"
            (str_int message_id +:+ String ":" (str_int chat_id))).
  rewrite split_colon_ids by done.
  rewrite !int_str_int, Hlk, Hm, Hres, Hreq.
  assert (Hgone : chat_id ∉ get_muted_chats (remove_muted_chat chat_id c)).
  { unfold get_muted_chats, remove_muted_chat, with_muted. cbn.
    intros [_ Hx]%elem_of_difference. apply Hx. by apply elem_of_singleton. }
  destruct (m_edit env); eexists; (split; [reflexivity|]); (split; [done|]);
    unfold create_priority_keyboard; cbn [lookup list_lookup];
    by rewrite bool_decide_eq_false_2.
Qed.

Lemma unmute_button_unmutes_the_chat_witness :
  let env := {| m_lookup_raises := false; m_resolve := TransportOk;
                m_request := TransportOk; m_edit := EditOk;
                m_now := 5000000 |} in
  let db := Sample.store_of [(11, Sample.row 77 10 995)] in
  ∃ reply,
    handle_unmute_callback env "unmute:11:77" db Sample.muted_77
    = (reply, Some {| r_chat_id := 77; r_mute_until := 0 |},
       remove_muted_chat 77 Sample.muted_77)
    ∧ get_muted_chats (remove_muted_chat 77 Sample.muted_77)
      = get_muted_chats Sample.muted_77 ∖ {[77]}
    ∧ create_priority_keyboard (remove_muted_chat 77 Sample.muted_77) 11 77
        "Ann" !! 1%nat
      = Some [ {| b_text := "üö´ Ignore Chat"; callback_data := "ignore:11:77" |} ].
Proof.
  intros env db.
  exact (unmute_button_unmutes_the_chat env db Sample.muted_77 11 77 "Ann"
           (Sample.row 77 10 995)
           {| b_text := "üîä Unmute Chat"; callback_data := "unmute:11:77" |}
           eq_refl eq_refl eq_refl eq_refl
           ltac:(apply (bool_decide_unpack _); vm_compute; exact I) eq_refl).
Defined.

(** Muting a conversation from a duration button and then unmuting it
    from the unmute button leaves the mute cache without that
    conversation and otherwise as it was; if the conversation was not
    muted before, the cache is back to what it was. *)
Theorem mute_then_unmute_restores_the_cache (env env' : MuteEnv) (db : Store)
    (c : Cache) (message_id chat_id : Z) (m : Message) (i : nat)
    (row : list Button) (b : Button) :
  messages db !! message_id = Some m →
  m_lookup_raises env = false →
  m_resolve env = TransportOk → m_request env = TransportOk →
  m_lookup_raises env' = false →
  m_resolve env' = TransportOk → m_request env' = TransportOk →
  (i < 3)%nat → duration_keyboard message_id chat_id !! i = Some row → b ∈ row →
  let muted := (handle_mute_callback env (callback_data b) db c).2 in
  let unmuted :=
    (handle_unmute_callback env'
       ("unmute:" +:+ str_int message_id +:+ ":" +:+ str_int chat_id)
       db muted).2 in
  chat_id ∈ get_muted_chats muted
  ∧ get_muted_chats unmuted = get_muted_chats c ∖ {[chat_id]}
  ∧ (chat_id ∉ get_muted_chats c → unmuted = c).
Proof.
  intros Hm Hlk Hres Hreq Hlk' Hres' Hreq' Hi Hkb Hb muted unmuted.
  assert (Hmuted : muted = add_muted_chat chat_id c).
  { subst muted unmuted.
    destruct i as [|[|[|i]]]; [| | |lia];
      cbn [duration_keyboard lookup list_lookup] in Hkb;
      injection Hkb as <-;
      repeat (apply elem_of_cons in Hb as [->|Hb]; [|]);
      try (by apply elem_of_nil in Hb);
      cbn [callback_data];
      match goal with
      | |- context [handle_mute_callback _ (?a +:+ _) _ _] =>
          let act := eval vm_compute in (String.substring 0 (String.length a - 1) a) in
          destruct (mute_data_accepted env db c act message_id chat_id m
                      _ _ eq_refl eq_refl Hm Hlk Hres Hreq) as [reply Hrun];
          exact (f_equal snd Hrun)
      end. }
  assert (Hunmuted : unmuted = remove_muted_chat chat_id muted).
  { subst unmuted. unfold handle_unmute_callback.
    change ("unmute:" +:+ str_int message_id +:+ ":" +:+ str_int chat_id)
      with ("unmute" +:+ String ":"
              (str_int message_id +:+ String ":" (str_int chat_id))).
    rewrite split_colon_ids by done.
    rewrite !int_str_int, Hlk', Hm, Hres', Hreq'.
    by destruct (m_edit env'). }
  rewrite Hunmuted, Hmuted.
  assert (Hset : get_muted_chats
                   (remove_muted_chat chat_id (add_muted_chat chat_id c))
                 = get_muted_chats c ∖ {[chat_id]}).
  { unfold get_muted_chats, remove_muted_chat, add_muted_chat, with_muted.
    cbn. apply set_eq. intros x.
    rewrite !elem_of_difference, elem_of_union. tauto. }
  split_and!.
  - unfold get_muted_chats, add_muted_chat, with_muted. cbn.
    apply elem_of_union_l. by apply elem_of_singleton.
  - exact Hset.
  - intros Hnot. destruct c as [hp mu gs].
    unfold get_muted_chats, remove_muted_chat, add_muted_chat, with_muted in *.
    cbn in *. f_equal. rewrite Hset. apply set_eq. intros x.
    rewrite elem_of_difference, elem_of_singleton. split; [tauto|].
    intros Hx. split; [done|]. by intros ->.
Qed.

Lemma mute_then_unmute_restores_the_cache_witness :
  let env := {| m_lookup_raises := false; m_resolve := TransportOk;
                m_request := TransportOk; m_edit := EditOk;
                m_now := 5000000 |} in
  let db := Sample.store_of [(1, Sample.row 42 6 100)] in
  let muted := (handle_mute_callback env "mute_8h:1:42" db Sample.muted_77).2 in
  let unmuted := (handle_unmute_callback env "unmute:1:42" db muted).2 in
  42 ∈ get_muted_chats muted
  ∧ get_muted_chats unmuted = get_muted_chats Sample.muted_77 ∖ {[42]}
  ∧ (42 ∉ get_muted_chats Sample.muted_77 → unmuted = Sample.muted_77).
Proof.
  intros env db.
  exact (mute_then_unmute_restores_the_cache env env db Sample.muted_77 1 42
           (Sample.row 42 6 100) 0 _
           {| b_text := "‚è∞ 8 hours"; callback_data := "mute_8h:1:42" |}
           eq_refl eq_refl eq_refl eq_refl eq_refl eq_refl eq_refl
           ltac:(lia) eq_refl
           ltac:(apply (list_elem_of_lookup_2 _ 1%nat); reflexivity)).
Defined.

(** Every button of a card's keyboard and of the duration keyboard is
    routed by the registered patterns to the handler that reads its
    format: the label buttons to the label handler, the second-row
    button to the unmute handler when the conversation is muted and to
    the ignore handler otherwise, the five durations to the mute
    handler and Cancel to the cancel handler. In particular the mute
    pattern, which has no colon, catches neither an unmute nor a cancel
    button. *)
Theorem buttons_reach_their_handlers (c : Cache) (message_id chat_id : Z)
    (chat_title : string) :
  Forall2 (fun row handler =>
             Forall (fun b => dispatch (callback_data b) = Some handler) row)
    (create_priority_keyboard c message_id chat_id chat_title)
    [ LabelCallback;
      if bool_decide (chat_id ∈ get_muted_chats c)
      then UnmuteCallback else IgnoreCallback ]
  ∧ Forall2 (fun row handler =>
               Forall (fun b => dispatch (callback_data b) = Some handler) row)
      (duration_keyboard message_id chat_id)
      [ MuteCallback; MuteCallback; MuteCallback; CancelMuteCallback ].
Proof.
  split.
  - unfold create_priority_keyboard.
    repeat constructor; cbn [callback_data]; try reflexivity.
    by case_bool_decide.
  - unfold duration_keyboard. repeat constructor; reflexivity.
Qed.

(** Cancel on the duration keyboard puts back the keyboard the card
    was sent with: the cancel handler builds, from the stored record,
    the keyboard [send_message_card] builds from it. *)
Theorem cancel_restores_the_card_keyboard (db : Store) (c : Cache)
    (message_id chat_id : Z) (m : Message) (b : Button) :
  messages db !! message_id = Some m →
  duration_keyboard message_id chat_id !! 3%nat = Some [b] →
  handle_cancel_mute_callback false false (callback_data b) db c
  = CancelRestored (card_keyboard c message_id m).
Proof.
  intros Hm [= <-]. cbn [callback_data].
  unfold handle_cancel_mute_callback.
  change ("cancel_mute:" +:+ str_int message_id)
    with ("cancel_mute" +:+ String ":" (str_int message_id)).
  rewrite split_colon_app by done.
  rewrite split_colon_no_colon by apply str_int_no_colon.
  by rewrite int_str_int, Hm.
Qed.

Lemma cancel_restores_the_card_keyboard_witness :
  handle_cancel_mute_callback false false "cancel_mute:1" 
    (Sample.store_of [(1, Sample.row 42 6 100)]) Sample.empty_cache
  = CancelRestored
      (card_keyboard Sample.empty_cache 1 (Sample.row 42 6 100)).
Proof.
  exact (cancel_restores_the_card_keyboard
           (Sample.store_of [(1, Sample.row 42 6 100)]) Sample.empty_cache
           1 42 (Sample.row 42 6 100)
           {| b_text := "‚ùå Cancel"; callback_data := "cancel_mute:1" |}
           eq_refl eq_refl).
Defined.

End Callbacks.

(** ** Previews *)

Section Previews.
Import Utils Text.

Lemma append_cons (x : ascii) (a b : string) :
  String x a +:+ b = String x (a +:+ b).
Proof. reflexivity. Qed.

Lemma append_assoc (a b c : string) : (a +:+ b) +:+ c = a +:+ (b +:+ c).
Proof.
  induction a as [|x a IH]; [done|]. by rewrite !append_cons, IH.
Qed.

Lemma len_append (a b : string) : len (a +:+ b) = len a + len b.
Proof.
  unfold len. induction a as [|x a IH]; [done|].
  rewrite append_cons. cbn [String.length]. lia.
Qed.

Lemma len_take (k : nat) (s : string) :
  len (take k s) = Z.min (Z.of_nat k) (len s).
Proof.
  unfold len. revert s. induction k as [|k IH]; intros [|x s];
    cbn [take String.length]; try lia.
  specialize (IH s). lia.
Qed.

Lemma take_split (k : nat) (s : string) : ∃ rest, s = take k s +:+ rest.
Proof.
  revert s. induction k as [|k IH]; intros s; [by exists s|].
  destruct s as [|x s]; [by exists EmptyString|].
  destruct (IH s) as [rest Hrest]. exists rest.
  cbn [take]. by rewrite append_cons, <- Hrest.
Qed.

(** A text that fits is returned as it is; a longer one is cut to a
    prefix followed by three dots, of exactly [max_length] characters
    when [max_length] is at least 3. Below 3 the slice bound
    [max_length - 3] is negative and counts from the end, so the result
    is [max_length] characters LONGER than a text of at least
    [3 - max_length] characters. *)
Theorem truncate_text_length (t : string) (max_length : Z) :
  truthy (Some t) = true →
  0 <= max_length →
  let result := truncate_text (Some t) max_length in
  (len t <= max_length → result = t)
  ∧ (max_length < len t →
     (∃ kept dropped, t = kept +:+ dropped ∧ result = kept +:+ "...")
     ∧ (3 <= max_length → len result = max_length)
     ∧ (max_length < 3 → 3 - max_length <= len t →
        len result = len t + max_length)).
Proof.
  intros Ht Hmax result. subst result. unfold truncate_text.
  rewrite Ht. cbn [negb]. split.
  - intros Hfit. apply Z.leb_le in Hfit. by rewrite Hfit.
  - intros Hlong. apply Z.leb_gt in Hlong as Hlong'. rewrite Hlong'.
    unfold prefix. split_and!.
    + destruct (0 <=? max_length - 3);
        match goal with
        | |- context [take ?k t] =>
            destruct (take_split k t) as [rest Hrest];
            exists (take k t), rest; by rewrite <- Hrest
        end.
    + intros H3. rewrite (proj2 (Z.leb_le _ _)) by lia.
      rewrite len_append, len_take. change (len "...") with 3. lia.
    + intros H3 Hlen. rewrite (proj2 (Z.leb_gt _ _)) by lia.
      rewrite len_append, len_take. change (len "...") with 3. lia.
Qed.

(** A seven-character text cut to 5 and to 2. *)
Lemma truncate_text_length_witness :
  (len "abcdefg" <= 5 → truncate_text (Some "abcdefg") 5 = "abcdefg")
  ∧ (5 < len "abcdefg" →
     (∃ kept dropped,
        "abcdefg" = kept +:+ dropped
        ∧ truncate_text (Some "abcdefg") 5 = kept +:+ "...")
     ∧ (3 <= 5 → len (truncate_text (Some "abcdefg") 5) = 5)
     ∧ (5 < 3 → 3 - 5 <= len "abcdefg" →
        len (truncate_text (Some "abcdefg") 5) = len "abcdefg" + 5)).
Proof.
  exact (truncate_text_length "abcdefg" 5 eq_refl ltac:(lia)).
Defined.

Lemma replace_char_app (c : ascii) (new a b : string) :
  replace_char c new (a +:+ b)
  = replace_char c new a +:+ replace_char c new b.
Proof.
  induction a as [|x a IH]; [done|].
  rewrite append_cons. cbn [replace_char]. rewrite IH.
  destruct (Ascii.eqb x c); [by rewrite append_assoc|done].
Qed.

Lemma escape_fold_app (chars : list ascii) (a b : string) :
  foldl (fun text char =>
           replace_char char (String backslash (String char EmptyString)) text)
    (a +:+ b) chars
  = foldl (fun text char =>
             replace_char char (String backslash (String char EmptyString)) text)
      a chars
    +:+ foldl (fun text char =>
                 replace_char char (String backslash (String char EmptyString)) text)
          b chars.
Proof.
  revert a b. induction chars as [|ch chars IH]; intros a b; cbn [foldl]; [done|].
  by rewrite replace_char_app, IH.
Qed.

Lemma escape_fold_other (chars : list ascii) (c : ascii) :
  Forall (fun ch => Ascii.eqb c ch = false) chars →
  foldl (fun text char =>
           replace_char char (String backslash (String char EmptyString)) text)
    (String c EmptyString) chars
  = String c EmptyString.
Proof.
  induction 1 as [|ch chars Hch _ IH]; cbn [foldl replace_char]; [done|].
  by rewrite Hch.
Qed.

Lemma escape_markdown_cons (c : ascii) (s : string) :
  escape_markdown (String c s)
  = (if bool_decide (c ∈ special_chars)
     then String backslash (String c EmptyString)
     else String c EmptyString) +:+ escape_markdown s.
Proof.
  change (String c s) with (String c EmptyString +:+ s).
  unfold escape_markdown. rewrite escape_fold_app. f_equal.
  case_bool_decide as Hc.
  - unfold special_chars in Hc.
    repeat (apply elem_of_cons in Hc as [->|Hc]; [reflexivity|]).
    by apply elem_of_nil in Hc.
  - apply escape_fold_other. apply Forall_forall. intros ch Hch.
    destruct (Ascii.eqb_spec c ch) as [->|]; [done|done].
Qed.

Lemma len_escape_markdown (s : string) :
  len s <= len (escape_markdown s) <= 2 * len s.
Proof.
  induction s as [|c s IH]; [by vm_compute|].
  rewrite escape_markdown_cons, len_append.
  unfold len in *. case_bool_decide; cbn [String.length]; lia.
Qed.

(** [escape_markdown] is one pass over the text: the eighteen
    replacements made in turn put exactly one backslash before each of
    the eighteen special characters and leave every other character,
    the backslash included, as it is. Escaping is therefore not
    idempotent: a second pass escapes the special characters again. *)
Theorem escape_markdown_is_one_pass (c : ascii) (s : string) :
  escape_markdown EmptyString = EmptyString
  ∧ escape_markdown (String c s)
    = (if bool_decide (c ∈ special_chars)
       then String backslash (String c EmptyString)
       else String c EmptyString) +:+ escape_markdown s
  ∧ escape_markdown (String backslash s) = String backslash (escape_markdown s).
Proof.
  split_and!; [reflexivity|apply escape_markdown_cons|].
  by rewrite escape_markdown_cons.
Qed.

(** Whatever the message text, the preview on a digest card has at
    most 300 characters and the preview in an alert at most 400: the
    text is cut to 150 (200) characters before it is escaped, and
    escaping at most doubles it. *)
Theorem previews_are_bounded (message_text : option string) :
  len (card_text_preview message_text) <= 300
  ∧ len (warning_text_preview message_text) <= 400.
Proof.
  assert (Hcut : ∀ n, 9 <= n → len (truncate_text message_text n) <= n).
  { intros n Hn. unfold truncate_text.
    destruct message_text as [t|]; [|change (len "[No text]") with 9; lia].
    destruct (truthy (Some t)); cbn [negb]; [|change (len "[No text]") with 9; lia].
    destruct (len t <=? n) eqn:Hfit; [by apply Z.leb_le|].
    unfold prefix. rewrite (proj2 (Z.leb_le _ _)) by lia.
    rewrite len_append, len_take. change (len "...") with 3. lia. }
  unfold card_text_preview, warning_text_preview.
  unfold MESSAGE_CARD_PREVIEW_LENGTH, WARNING_PREVIEW_LENGTH.
  pose proof (len_escape_markdown (truncate_text message_text 150)).
  pose proof (len_escape_markdown (truncate_text message_text 200)).
  pose proof (Hcut 150 ltac:(lia)). pose proof (Hcut 200 ltac:(lia)). lia.
Qed.

End Previews.

(** ** The interactive configuration *)

Section Configuration.
Import Utils Models Userbot Bot Text Keyboards Preferences.

Lemma get_or_create_row (cfg : Config) (uid : Z) (db : Store) :
  user_preferences (get_or_create_user_preferences cfg uid db).2 !! uid
  = Some (get_or_create_user_preferences cfg uid db).1
  ∧ messages (get_or_create_user_preferences cfg uid db).2 = messages db.
Proof.
  unfold get_or_create_user_preferences.
  destruct (user_preferences db !! uid) as [p|] eqn:Hp; cbn; [done|].
  by rewrite lookup_insert_eq.
Qed.

Lemma get_or_create_present (cfg : Config) (uid : Z) (db : Store)
    (p : UserPreferences) :
  user_preferences db !! uid = Some p →
  get_or_create_user_preferences cfg uid db = (p, db).
Proof. intros Hp. unfold get_or_create_user_preferences. by rewrite Hp. Qed.

(** What the handler does once it has decided on an update [f]. *)
Lemma update_and_show_ok (cfg : Config) (env : ConfigEnv)
    (f : UserPreferences → UserPreferences) (db : Store) (p : UserPreferences) :
  (∀ k, cf_raises env k = false) → cf_edit_raises env = false →
  user_preferences db !! client_user_id cfg = Some p →
  update_and_show cfg env f db
  = (ConfigPage (f p) (config_keyboard (f p)),
     update_preferences (client_user_id cfg) f db).
Proof.
  intros Hr He Hp. unfold update_and_show, show_config_page.
  rewrite !Hr, He.
  rewrite (get_or_create_present _ _ _ (f p)); [done|].
  unfold update_preferences, with_preferences. cbn.
  by rewrite lookup_alter_eq, Hp.
Qed.

Lemma str_int_is_no_word (v : Z) (c : ascii) (w : string) :
  is_digit c || Ascii.eqb c "-" = false →
  String.eqb (str_int v) (String c w) = false.
Proof.
  intros Hc. pose proof (str_int_chars v) as Hv.
  destruct (str_int v) as [|x s]; [done|].
  cbn [list_ascii_of_string forallb] in Hv. apply andb_prop in Hv as [Hx _].
  cbn [String.eqb]. destruct (Ascii.eqb_spec x c) as [->|]; [|done].
  congruence.
Qed.

(** The data [command:v] of a threshold button, for either command. *)
Lemma set_value_accepted (cfg : Config) (env : ConfigEnv) (db : Store) (v : Z) :
  (∀ k, cf_raises env k = false) → cf_edit_raises env = false →
  let prefs := (get_or_create_user_preferences cfg (client_user_id cfg) db).1 in
  let db0 := (get_or_create_user_preferences cfg (client_user_id cfg) db).2 in
  handle_config_callback cfg env (Some ("set_warning:" +:+ str_int v)) db
  = (ConfigPage (set_warning_threshold_score v prefs)
       (config_keyboard (set_warning_threshold_score v prefs)),
     update_preferences (client_user_id cfg) (set_warning_threshold_score v) db0)
  ∧ handle_config_callback cfg env (Some ("set_min:" +:+ str_int v)) db
    = (ConfigPage (set_min_priority_score v prefs)
         (config_keyboard (set_min_priority_score v prefs)),
       update_preferences (client_user_id cfg) (set_min_priority_score v) db0).
Proof.
  intros Hr He prefs db0.
  destruct (get_or_create_row cfg (client_user_id cfg) db) as [Hrow _].
  fold prefs db0 in Hrow.
  split; unfold handle_config_callback.
  - change (Utils.truthy (Some ("set_warning:" +:+ str_int v))) with true.
    change (Utils.startswith "config:" ("set_warning:" +:+ str_int v)) with false.
    change (Utils.startswith "set_" ("set_warning:" +:+ str_int v)) with true.
    change (after_first_colon ("set_warning:" +:+ str_int v))
      with (Some (str_int v)).
    change (Utils.startswith "set_warning:" ("set_warning:" +:+ str_int v))
      with true.
    cbn [negb orb]. rewrite Hr.
    rewrite (surjective_pairing (get_or_create_user_preferences _ _ _)).
    fold prefs db0.
    rewrite !str_int_is_no_word by reflexivity.
    change ("set_warning:" +:+ str_int v)
      with ("set_warning" +:+ String ":" (str_int v)).
    rewrite split_colon_app by done.
    rewrite split_colon_no_colon by apply str_int_no_colon.
    rewrite int_str_int. by apply update_and_show_ok.
  - change (Utils.truthy (Some ("set_min:" +:+ str_int v))) with true.
    change (Utils.startswith "config:" ("set_min:" +:+ str_int v)) with false.
    change (Utils.startswith "set_" ("set_min:" +:+ str_int v)) with true.
    change (after_first_colon ("set_min:" +:+ str_int v))
      with (Some (str_int v)).
    change (Utils.startswith "set_warning:" ("set_min:" +:+ str_int v))
      with false.
    change (Utils.startswith "set_min:" ("set_min:" +:+ str_int v)) with true.
    cbn [negb orb]. rewrite Hr.
    rewrite (surjective_pairing (get_or_create_user_preferences _ _ _)).
    fold prefs db0.
    rewrite !str_int_is_no_word by reflexivity.
    change ("set_min:" +:+ str_int v)
      with ("set_min" +:+ String ":" (str_int v)).
    rewrite split_colon_app by done.
    rewrite split_colon_no_colon by apply str_int_no_colon.
    rewrite int_str_int. by apply update_and_show_ok.
Qed.

Lemma load_prefs_update (cfg : Config)
    (f : UserPreferences → UserPreferences) (db : Store) (p : UserPreferences) :
  user_preferences db !! client_user_id cfg = Some p →
  load_prefs cfg (update_preferences (client_user_id cfg) f db) = Some (f p).
Proof.
  intros Hp. unfold load_prefs, update_preferences, with_preferences. cbn.
  by rewrite lookup_alter_eq, Hp.
Qed.


Lemma send_warning_messages (env : AlertEnv) (id now : Z) (db db' : Store) :
  messages db = messages db' →
  messages (send_warning_for_message env id now db)
  = messages (send_warning_for_message env id now db').
Proof.
  intros Heq. unfold send_warning_for_message.
  destruct (negb (bot_available env)); [done|].
  destruct (send_raises env); [done|].
  assert (Hmark : ∀ fuel attempt,
            match mark_warning_sent fuel attempt (locked env) id now db,
                  mark_warning_sent fuel attempt (locked env) id now db' with
            | Some a, Some b => messages a = messages b
            | None, None => True
            | _, _ => False
            end).
  { induction fuel as [|fuel IH]; intros attempt; cbn [mark_warning_sent];
      [done|].
    destruct (locked env attempt).
    - destruct (attempt <? _)%nat; [apply IH|done].
    - unfold update_row, with_messages. cbn. by rewrite Heq. }
  specialize (Hmark max_retries 0%nat).
  destruct (mark_warning_sent max_retries 0 (locked env) id now db),
    (mark_warning_sent max_retries 0 (locked env) id now db'); done.
Qed.

(** Creating the preferences row changes no decision: the row is
    filled from the configured values, so with or without it the
    ingestion filter classifies every event alike, the digest applies
    the same minimum score, and [save_message] writes the same row and
    takes the same decision on the alert. No message row is touched. *)
Theorem default_preferences_change_no_decision (cfg : Config) (db : Store) :
  let db' := (get_or_create_user_preferences cfg (client_user_id cfg) db).2 in
  messages db' = messages db
  ∧ (∀ uid uname pr c ev,
       classify cfg uid uname pr c db' ev = classify cfg uid uname pr c db ev)
  ∧ (∀ pr, Scheduler.min_priority cfg pr db' = Scheduler.min_priority cfg pr db)
  ∧ (∀ c env a,
       messages (save_message cfg c env a db')
       = messages (save_message cfg c env a db)).
Proof.
  intros db'. subst db'. unfold get_or_create_user_preferences.
  destruct (user_preferences db !! client_user_id cfg) as [p|] eqn:Hp;
    [by cbn|].
  cbn [snd]. split_and!.
  - done.
  - intros uid uname pr c ev. unfold classify, load_prefs, with_preferences.
    cbn [user_preferences]. rewrite lookup_insert_eq, Hp.
    by destruct pr.
  - intros pr. unfold Scheduler.min_priority, load_prefs, with_preferences.
    cbn [user_preferences]. by rewrite lookup_insert_eq, Hp.
  - intros c env a. unfold save_message.
    destruct (insert_raises env); [done|].
    cbv zeta. unfold load_prefs, with_messages, with_preferences.
    cbn [user_preferences messages]. rewrite lookup_insert_eq, Hp.
    cbn [warning_threshold_score].
    destruct (threshold_lookup_raises env);
      (match goal with
       | |- context [if ?b then _ else _] => destruct b
       end; [by apply send_warning_messages|done]).
Qed.






(** The threshold handler does not check the range: whatever integer
    the data carries is stored. With a stored threshold above 10 no
    message saved afterwards is alerted, whatever its text and sender:
    the row goes in with [warning_sent] unset and the alert is not
    attempted. *)
Theorem threshold_above_ten_silences_alerts (cfg : Config) (env : ConfigEnv)
    (db : Store) (v : Z) (c : Cache) (senv : SaveEnv) (a : SaveArgs) :
  (∀ k, cf_raises env k = false) → cf_edit_raises env = false →
  insert_raises senv = false → threshold_lookup_raises senv = false →
  10 < v →
  let db' := (handle_config_callback cfg env
                (Some ("set_warning:" +:+ str_int v)) db).2 in
  warning_threshold_score <$> load_prefs cfg db' = Some (Some v)
  ∧ ∃ m, warning_sent m = false
      ∧ save_message cfg c senv a db'
        = with_messages (<[fresh_id (messages db') := m]> (messages db')) db'.
Proof.
  intros Hr He Hins Hthr Hv db'.
  destruct (get_or_create_row cfg (client_user_id cfg) db) as [Hrow _].
  pose proof (proj1 (set_value_accepted cfg env db v Hr He)) as Hrun.
  cbv zeta in Hrun.
  assert (Hp : load_prefs cfg db'
               = Some (set_warning_threshold_score v
                         (get_or_create_user_preferences cfg
                            (client_user_id cfg) db).1)).
  { subst db'. rewrite Hrun. cbn [snd]. by apply load_prefs_update. }
  split; [by rewrite Hp|].
  destruct (save_message_shape cfg c senv a db' Hins)
    as (m & Hscore & _ & _ & Hws & _ & _ & _ & _ & _ & Hsave).
  exists m. split; [done|]. rewrite Hsave. cbv zeta.
  rewrite Hthr, Hp. cbn [warning_threshold_score set_warning_threshold_score].
  assert (Hrange : priority_score m <= 10).
  { rewrite Hscore. destruct (ai_enabled cfg).
    - destruct (calculate_ai_priority_score _ _) as [s|] eqn:Hai.
      + apply ai_score_in_range in Hai. lia.
      + pose proof (rule_score_in_range (a_message_text a)
                      (detect_mention (a_message_text a) (a_client_username a))
                      (detect_question (a_message_text a))
                      (bool_decide (a_user_id a ∈ _high_priority_users c))). lia.
    - pose proof (rule_score_in_range (a_message_text a)
                    (detect_mention (a_message_text a) (a_client_username a))
                    (detect_question (a_message_text a))
                    (bool_decide (a_user_id a ∈ _high_priority_users c))). lia. }
  by rewrite (proj2 (Z.leb_gt _ _)) by lia.
Qed.

Lemma threshold_above_ten_silences_alerts_witness :
  let env := {| cf_raises := fun _ => false; cf_edit_raises := false |} in
  let senv := {| oracle := Utils.OracleReply "10"; topic := None;
                 insert_raises := false; threshold_lookup_raises := false;
                 alert := Sample.quiet_alert; now := 600 |} in
  let db' := (handle_config_callback Sample.cfg env (Some "set_warning:11")
                Sample.busy_day).2 in
  warning_threshold_score <$> load_prefs Sample.cfg db' = Some (Some 11)
  ∧ ∃ m, warning_sent m = false
      ∧ save_message Sample.cfg Sample.empty_cache senv (Sample.args "urgent?") db'
        = with_messages (<[fresh_id (messages db') := m]> (messages db')) db'.
Proof.
  intros env senv.
  exact (threshold_above_ten_silences_alerts Sample.cfg env Sample.busy_day 11
           Sample.empty_cache senv (Sample.args "urgent?")
           (fun _ => eq_refl) eq_refl eq_refl eq_refl eq_refl).
Defined.

End Configuration.

(** ** The digest job *)

Section DigestJob.
Import Models Userbot Scheduler Lifecycle Summary.

Lemma length_filter_mono {A} (P Q : A → Prop)
    `{!∀ x, Decision (P x)} `{!∀ x, Decision (Q x)} (l : list A) :
  (∀ x, P x → Q x) →
  (length (filter P l) <= length (filter Q l))%nat.
Proof.
  intros HPQ. induction l as [|x l IH]; [done|].
  rewrite !filter_cons.
  destruct (decide (P x)) as [HP|]; destruct (decide (Q x)) as [|HQ];
    cbn [length]; try lia.
  destruct HQ. by apply HPQ.
Qed.

Lemma size_filter_map_to_list (P : Z * Message → Prop)
    `{!∀ x, Decision (P x)} (m : gmap Z Message) :
  size (filter P m) = length (filter P (map_to_list m)).
Proof.
  rewrite <- length_map_to_list, map_filter_alt.
  apply Permutation_length, map_to_list_to_map.
  eapply sublist_NoDup; [apply (NoDup_fst_map_to_list m)|].
  apply fmap_sublist, sublist_filter.
Qed.

(** The rows of the window, counted on the table. *)
Lemma window_count (cutoff_time : Z) (db : Store) :
  length (filter (fun kv : Z * Message => cutoff_time <= timestamp kv.2)
            (map_to_list (messages db)))
  = size (dom (filter (fun kv : Z * Message => cutoff_time <= timestamp kv.2)
                 (messages db))).
Proof. by rewrite size_dom, size_filter_map_to_list. Qed.

(** What is selected was counted, when no message has been stored in
    between: the selection lies inside the window of statistics taken no
    later on a table that had every row the selection reads. *)
Lemma selection_within_stats (cfg : Config) (c : Cache) (denv : DigestEnv)
    (now hours limit : Z) (later : Store → Store) (db db2 : Store) :
  now <= d_now denv →
  (∀ id m', messages db2 !! id = Some m' →
            ∃ m, messages db !! id = Some m ∧ timestamp m = timestamp m') →
  Z.of_nat (length (selection cfg c denv hours limit db2))
  <= (get_message_stats now hours later db).1.
Proof.
  intros Hclock Hsame. unfold selection, get_message_stats. cbn [fst].
  rewrite select_length. unfold qualifying_rows.
  apply inj_le. etransitivity; [apply Nat.le_min_r|].
  etransitivity;
    [apply (length_filter_mono _
              (fun kv : Z * Message => cutoff denv hours <= timestamp kv.2))|].
  { intros [id m] Hq. cbn [snd] in *.
    by apply qualifies_spec in Hq as (Hts & _). }
  rewrite !window_count. apply subseteq_size.
  intros id [m' [Hm' Hts]%map_lookup_filter_Some]%elem_of_dom.
  cbn [snd] in Hts. destruct (Hsame id m' Hm') as (m & Hm & Heq).
  apply elem_of_dom. exists m. apply map_lookup_filter_Some.
  split; [done|]. cbn [snd]. unfold cutoff in Hts. lia.
Qed.

(** A digest lists no more messages than the total its header reports,
    provided no message has been stored between the statistics and the
    selection and the clock has not run backwards; the digest is then
    not empty, its header gives the configured window, and each record
    listed is the stored record, with its inclusion flag set. The
    statistics and the selection are separate sessions: a message
    ingested between them makes the bound fail (see
    [digest_can_list_more_than_it_reports]). *)
Theorem digest_lists_no_more_than_it_reports (hours max_messages : Z)
    (cfg : Config) (c : Cache) (env : SummaryEnv) (db db' : Store)
    (rows : list Selected) (total chats window : Z) :
  s_stats_now env <= d_now (s_digest env) →
  (∀ id m', messages (s_meanwhile env db) !! id = Some m' →
            ∃ m, messages db !! id = Some m ∧ timestamp m = timestamp m') →
  generate_and_send_summary hours max_messages cfg c env db
  = (Digest rows total chats window, db') →
  rows ≠ []
  ∧ Z.of_nat (length rows) <= total
  ∧ window = hours
  ∧ ∀ id m', (id, m') ∈ rows →
             messages db' !! id = Some m' ∧ included_in_summary m' = true.
Proof.
  intros Hclock Hsame. unfold generate_and_send_summary.
  destruct (s_stats_raise env); [discriminate|].
  pose proof (selection_within_stats cfg c (s_digest env) (s_stats_now env)
                hours max_messages (s_between_counts env) db
                (s_meanwhile env db) Hclock Hsame) as Hwithin.
  destruct (get_message_stats (s_stats_now env) hours (s_between_counts env) db)
    as [total' chats'].
  cbn [fst] in Hwithin.
  destruct (total' =? 0); [by destruct (s_send_raises env)|].
  cbv zeta. unfold get_unlabeled_messages.
  destruct (d_session_raises (s_digest env)); [discriminate|].
  set (sel := selection cfg c (s_digest env) hours max_messages
                (s_meanwhile env db)) in *.
  assert (Hlen : length (synchronise (d_marked_at (s_digest env)) sel)
                 = length sel) by apply length_fmap.
  destruct (synchronise (d_marked_at (s_digest env)) sel) as [|r rows']
    eqn:Hsync; [by destruct (s_send_raises env)|].
  destruct (s_send_raises env); [discriminate|].
  intros [= <- <- <- <- <-].
  split_and!; [done|by rewrite Hlen|done|].
  intros id m' Hin. rewrite <- Hsync in Hin.
  apply list_elem_of_fmap in Hin as ([id0 m] & [= -> ->] & Hin).
  cbn [fst snd]. split; [|done].
  assert (Hid : id0 ∈ sel.*1).
  { apply list_elem_of_fmap. by exists (id0, m). }
  rewrite lookup_mark_included, bool_decide_eq_true_2 by done.
  subst sel. unfold selection in Hin.
  by apply select_subset, elem_of_qualifying_rows in Hin as [-> _].
Qed.

(** The busy day with nothing stored while the job runs: the header
    reports the eleven messages of the window, the digest lists five. *)
Lemma digest_lists_no_more_than_it_reports_witness :
  let env := {| s_stats_now := 999; s_stats_raise := false;
                s_between_counts := fun db => db;
                s_meanwhile := fun db => db;
                s_digest := {| d_now := 1000; d_marked_at := 1001;
                               d_prefs_raise := false;
                               d_session_raises := false |};
                s_send_raises := false |} in
  ∃ rows chats db',
    generate_and_send_summary 1 5 Sample.cfg Sample.muted_77 env Sample.busy_day
    = (Digest rows 11 chats 1, db')
    ∧ rows.*1 = [6; 4; 2; 10; 8]
    ∧ rows ≠ []
    ∧ Z.of_nat (length rows) <= 11
    ∧ 1 = 1
    ∧ ∀ id m', (id, m') ∈ rows →
               messages db' !! id = Some m' ∧ included_in_summary m' = true.
Proof.
  intros env. do 3 eexists.
  split; [vm_compute; reflexivity|].
  split; [vm_compute; reflexivity|].
  eapply (digest_lists_no_more_than_it_reports 1 5 Sample.cfg Sample.muted_77
            env Sample.busy_day).
  - cbn. lia.
  - intros id m' Hm'. exists m'. by split.
  - vm_compute. reflexivity.
Defined.

(** Without the proviso the bound fails. The table holds one message,
    already in an earlier digest, when the statistics are taken; two
    more are stored before the selection runs. The header reports one
    message and the digest lists two. *)
Example digest_can_list_more_than_it_reports :
  let senv t := {| oracle := Utils.OracleTimeout; topic := None;
                   insert_raises := false; threshold_lookup_raises := false;
                   alert := Sample.quiet_alert; now := t |} in
  let env := {| s_stats_now := 999; s_stats_raise := false;
                s_between_counts := fun db => db;
                s_meanwhile := fun db =>
                  save_message Sample.cfg Sample.empty_cache (senv 997)
                    (Sample.args "and another?")
                    (save_message Sample.cfg Sample.empty_cache (senv 996)
                       (Sample.args "one more?") db);
                s_digest := {| d_now := 1000; d_marked_at := 1001;
                               d_prefs_raise := false;
                               d_session_raises := false |};
                s_send_raises := false |} in
  let db := Sample.store_of [(1, set_included 500 (Sample.row 42 6 990))] in
  ∃ rows chats db',
    generate_and_send_summary 1 5 Sample.cfg Sample.empty_cache env db
    = (Digest rows 1 chats 1, db')
    ∧ length rows = 2%nat.
Proof.
  intros senv env db. do 3 eexists.
  split; vm_compute; reflexivity.
Qed.

(** A digest whose sending fails has still consumed its records: the
    selection is marked before anything is sent, so every record that
    was selected is stored as included and no later digest selects it,
    whatever the core does in between. The client is told of an error
    and never sees those records in a digest. *)
Theorem failed_send_still_consumes_the_records (hours max_messages : Z)
    (cfg : Config) (c : Cache) (env : SummaryEnv) (db : Store) (id : Z) :
  s_stats_raise env = false →
  d_session_raises (s_digest env) = false →
  s_send_raises env = true →
  (get_message_stats (s_stats_now env) hours (s_between_counts env) db).1 ≠ 0 →
  id ∈ (selection cfg c (s_digest env) hours max_messages
          (s_meanwhile env db)).*1 →
  let '(notice, db') := generate_and_send_summary hours max_messages cfg c env db in
  notice = ErrorNotice
  ∧ included_in_summary <$> messages db' !! id = Some true
  ∧ ∀ db'' cfg' c' denv hours' limit',
      rtc core_step db' db'' →
      id ∉ (selection cfg' c' denv hours' limit' db'').*1.
Proof.
  intros Hstats Hsession Hsend Htotal Hsel.
  unfold generate_and_send_summary. rewrite Hstats.
  destruct (get_message_stats (s_stats_now env) hours (s_between_counts env) db)
    as [total chats].
  cbn [fst] in Htotal.
  rewrite (proj2 (Z.eqb_neq _ _) Htotal). cbv zeta.
  unfold get_unlabeled_messages. rewrite Hsession.
  pose proof Hsel as Hrow.
  apply selected_row_inv in Hrow as (m & Hm & _ & _).
  assert (Hmarked :
            messages (mark_included
                        (selection cfg c (s_digest env) hours max_messages
                           (s_meanwhile env db))
                        (d_marked_at (s_digest env)) (s_meanwhile env db)) !! id
            = Some (set_included (d_marked_at (s_digest env)) m)).
  { rewrite lookup_mark_included, Hm. cbn.
    by rewrite bool_decide_eq_true_2. }
  assert (Hne : synchronise (d_marked_at (s_digest env))
                  (selection cfg c (s_digest env) hours max_messages
                     (s_meanwhile env db)) ≠ []).
  { intros Hnil. apply (f_equal (fmap fst)) in Hnil.
    rewrite synchronise_ids in Hnil. cbn in Hnil. rewrite Hnil in Hsel.
    by apply elem_of_nil in Hsel. }
  destruct (synchronise _ _) as [|r rows]; [done|].
  rewrite Hsend. split_and!; [done|by rewrite Hmarked|].
  intros db'' cfg' c' denv hours' limit' Hsteps Hagain.
  destruct (rows_kept_rtc _ _ Hsteps id _ Hmarked) as (m' & Hm' & Hkept & _).
  apply selected_row_inv in Hagain as (m'' & Hm'' & _ & Hnot).
  rewrite Hm' in Hm''. injection Hm'' as <-.
  rewrite (Hkept eq_refl) in Hnot. discriminate.
Qed.

(** The busy day, with one more message stored between the statistics
    and the selection: record 6 is consumed by the failed digest. *)
Lemma failed_send_still_consumes_the_records_witness :
  let senv := {| oracle := Utils.OracleTimeout; topic := None;
                 insert_raises := false; threshold_lookup_raises := false;
                 alert := Sample.quiet_alert; now := 999 |} in
  let env := {| s_stats_now := 999; s_stats_raise := false;
                s_between_counts := fun db => db;
                s_meanwhile := fun db =>
                  save_message Sample.cfg Sample.muted_77 senv
                    (Sample.args "one more") db;
                s_digest := {| d_now := 1000; d_marked_at := 1001;
                               d_prefs_raise := false;
                               d_session_raises := false |};
                s_send_raises := true |} in
  let '(notice, db') :=
    generate_and_send_summary 1 5 Sample.cfg Sample.muted_77 env
      Sample.busy_day in
  notice = ErrorNotice
  ∧ included_in_summary <$> messages db' !! 6 = Some true
  ∧ ∀ db'' cfg' c' denv hours' limit',
      rtc core_step db' db'' →
      6 ∉ (selection cfg' c' denv hours' limit' db'').*1.
Proof.
  intros senv env.
  exact (failed_send_still_consumes_the_records 1 5 Sample.cfg Sample.muted_77
           env Sample.busy_day 6 eq_refl eq_refl eq_refl
           ltac:(vm_compute; discriminate)
           ltac:(apply (bool_decide_unpack _); vm_compute; exact I)).
Defined.

End DigestJob.

(** ** The cleanup script *)

Section CleanupScript.
Import Models Userbot Scheduler Cleanup.

Lemma sum_values_insert (counts : gmap Z Z) (k : Z) :
  sum_values (<[k := default 0 (counts !! k) + 1]> counts)
  = sum_values counts + 1.
Proof.
  unfold sum_values.
  assert (Hcomm : ∀ (m : gmap Z Z) (j1 j2 z1 z2 y : Z),
            j1 ≠ j2 → m !! j1 = Some z1 → m !! j2 = Some z2 →
            z1 + (z2 + y) = z2 + (z1 + y)) by (intros; lia).
  destruct (counts !! k) as [v|] eqn:Hk; cbn [default].
  - rewrite <- (insert_delete_id counts k v Hk) at 2.
    rewrite <- (insert_delete_eq counts k (v + 1)).
    rewrite !map_fold_insert_L; [lia|apply Hcomm|apply lookup_delete_eq
                                 |apply Hcomm|apply lookup_delete_eq].
  - rewrite map_fold_insert_L; [lia|apply Hcomm|done].
Qed.

Lemma counts_sum (chat_ids : gset Z) (l : list (Z * Message)) :
  sum_values
    (foldr (fun (kv : Z * Message) (counts : gmap Z Z) =>
              if bool_decide (chat_id kv.2 ∈ chat_ids)
              then <[chat_id kv.2 := default 0 (counts !! chat_id kv.2) + 1]> counts
              else counts) ∅ l)
  = Z.of_nat (length (filter (fun kv : Z * Message => chat_id kv.2 ∈ chat_ids) l)).
Proof.
  induction l as [|kv l IH]; [done|].
  cbn [foldr]. rewrite filter_cons.
  case_bool_decide as Hin.
  - rewrite sum_values_insert, IH, decide_True by done. cbn [length]. lia.
  - by rewrite decide_False.
Qed.

(** The deletion does what the script announced: the number of rows
    deleted is the total of the per-conversation counts shown before
    the prompt, it is the difference between the sizes of the table
    before and after, the rows left are exactly those of the other
    conversations, unchanged, and the preferences are not touched. *)
Theorem cleanup_deletes_what_it_announced (chat_ids : gset Z) (db : Store) :
  let '(deleted_count, db') := delete_messages_from_chats chat_ids db in
  deleted_count = sum_values (get_message_counts_by_chat chat_ids db)
  ∧ deleted_count + Z.of_nat (size (messages db'))
    = Z.of_nat (size (messages db))
  ∧ (∀ id m, messages db' !! id = Some m
             ↔ messages db !! id = Some m ∧ chat_id m ∉ chat_ids)
  ∧ user_preferences db' = user_preferences db.
Proof.
  unfold delete_messages_from_chats, get_message_counts_by_chat.
  case_bool_decide as Hempty.
  - subst chat_ids. split_and!; [done|lia| |done].
    intros id m. split; [|tauto]. intros Hm. split; [done|].
    apply not_elem_of_empty.
  - cbn [messages with_messages user_preferences]. split_and!.
    + by rewrite counts_sum, size_filter_map_to_list.
    + rewrite <- (map_filter_union_complement
                    (fun kv : Z * Message => chat_id kv.2 ∈ chat_ids)
                    (messages db)) at 3.
      rewrite map_size_disj_union
        by apply map_disjoint_filter_complement.
      lia.
    + intros id m. by rewrite map_lookup_filter_Some.
    + done.
Qed.

Lemma cleanup_excluded (cfg : Config) (c : Cache) :
  (if cfg_ignore_muted_chats cfg then get_muted_chats c else ∅)
  ∪ (if cfg_ignore_large_groups cfg
     then get_large_group_ids (cfg_max_group_size cfg) c else ∅)
  = excluded_chat_ids cfg c.
Proof.
  unfold excluded_chat_ids.
  destruct (cfg_ignore_muted_chats cfg), (cfg_ignore_large_groups cfg);
    apply set_eq; intros x; rewrite ?elem_of_union, ?elem_of_empty; tauto.
Qed.

(** The cleanup only removes what the digest ignores: it deletes whole
    rows and changes none, it keeps every row of a conversation the
    digest does not exclude, and the rows a digest selection can choose
    from are the same before and after, for every window and under the
    same configuration and caches. *)
Theorem cleanup_keeps_the_digest_candidates (cfg : Config) (c : Cache)
    (response : option string) (db : Store) :
  let db' := cleanup_filtered_messages cfg c response db in
  (∀ id m, messages db' !! id = Some m → messages db !! id = Some m)
  ∧ (∀ id m, messages db !! id = Some m →
             chat_id m ∉ excluded_chat_ids cfg c →
             messages db' !! id = Some m)
  ∧ user_preferences db' = user_preferences db
  ∧ ∀ (denv : DigestEnv) (hours : Z) (r : Selected),
      r ∈ qualifying_rows (cutoff denv hours)
            (min_priority cfg (d_prefs_raise denv) db')
            (excluded_chat_ids cfg c) db'
      ↔ r ∈ qualifying_rows (cutoff denv hours)
              (min_priority cfg (d_prefs_raise denv) db)
              (excluded_chat_ids cfg c) db.
Proof.
  intros db'.
  assert (Hcases : db' = db
            ∨ (messages db'
               = filter (fun kv : Z * Message =>
                           chat_id kv.2 ∉ excluded_chat_ids cfg c) (messages db)
               ∧ user_preferences db' = user_preferences db)).
  { subst db'. unfold cleanup_filtered_messages. cbv zeta.
    rewrite cleanup_excluded.
    case_bool_decide as Hempty; [by left|].
    destruct (_ =? 0); [by left|].
    destruct (negb _); [by left|].
    right. unfold delete_messages_from_chats.
    by rewrite bool_decide_eq_false_2. }
  assert (Hsub : ∀ id m, messages db' !! id = Some m → messages db !! id = Some m).
  { intros id m. destruct Hcases as [->|[-> _]]; [done|].
    rewrite map_lookup_filter_Some. tauto. }
  assert (Hkeep : ∀ id m, messages db !! id = Some m →
                    chat_id m ∉ excluded_chat_ids cfg c →
                    messages db' !! id = Some m).
  { intros id m Hm Hout. destruct Hcases as [->|[-> _]]; [done|].
    by rewrite map_lookup_filter_Some. }
  assert (Hprefs : user_preferences db' = user_preferences db).
  { by destruct Hcases as [->|[_ ->]]. }
  split_and!; [done..|].
  intros denv hours [id m].
  assert (Hmin : min_priority cfg (d_prefs_raise denv) db'
                 = min_priority cfg (d_prefs_raise denv) db).
  { unfold min_priority, load_prefs. by rewrite Hprefs. }
  rewrite Hmin, !elem_of_qualifying_rows. split.
  - intros [Hm Hq]. split; [by apply Hsub|done].
  - intros [Hm Hq]. split; [|done].
    apply Hkeep; [done|].
    by apply qualifies_spec in Hq as (_ & _ & _ & _ & Hout).
Qed.

End CleanupScript.

(** ** The engine URL *)

Section EngineUrl.
Import Utils Database.

Lemma startswith_split (p s : string) :
  startswith p s = true → s = p +:+ skip (String.length p) s.
Proof.
  revert s. induction p as [|a p IH]; intros s; [done|].
  destruct s as [|b s]; [done|]. cbn [startswith].
  intros [Hab Hps]%andb_prop. apply Ascii.eqb_eq in Hab as ->.
  rewrite append_cons. cbn [String.length skip]. f_equal. by apply IH.
Qed.

Lemma replace_first_prefix (old new s : string) :
  startswith old s = true →
  replace_first old new s = new +:+ skip (String.length old) s.
Proof. intros H. destruct s; cbn [replace_first]; by rewrite H. Qed.

(** [_convert_database_url] rewrites the scheme and nothing else: what
    follows [sqlite:///], [postgresql://] or [postgres://] is kept as it
    is, even where it contains the scheme again, and any other URL is
    returned unchanged. A converted URL is left alone by a second
    conversion. *)
Theorem convert_database_url_rewrites_the_scheme (url rest : string) :
  _convert_database_url ("sqlite:///" +:+ rest) = "sqlite+aiosqlite:///" +:+ rest
  ∧ _convert_database_url ("postgresql://" +:+ rest)
    = "postgresql+asyncpg://" +:+ rest
  ∧ _convert_database_url ("postgres://" +:+ rest)
    = "postgresql+asyncpg://" +:+ rest
  ∧ (startswith "sqlite:///" url || startswith "postgresql://" url
     || startswith "postgres://" url = false →
     _convert_database_url url = url)
  ∧ _convert_database_url (_convert_database_url url)
    = _convert_database_url url.
Proof.
  split_and!; [reflexivity..| |].
  - intros Hnone. apply orb_false_elim in Hnone as [Hnone H3].
    apply orb_false_elim in Hnone as [H1 H2].
    unfold _convert_database_url. by rewrite H1, H2, H3.
  - destruct (startswith "sqlite:///" url) eqn:H1.
    { assert (Hc : _convert_database_url url
                   = "sqlite+aiosqlite:///" +:+ skip 10 url).
      { unfold _convert_database_url. rewrite H1.
        by apply replace_first_prefix. }
      rewrite Hc. reflexivity. }
    destruct (startswith "postgresql://" url) eqn:H2.
    { assert (Hc : _convert_database_url url
                   = "postgresql+asyncpg://" +:+ skip 13 url).
      { unfold _convert_database_url. rewrite H1, H2.
        by apply replace_first_prefix. }
      rewrite Hc. reflexivity. }
    destruct (startswith "postgres://" url) eqn:H3.
    { assert (Hc : _convert_database_url url
                   = "postgresql+asyncpg://" +:+ skip 11 url).
      { unfold _convert_database_url. rewrite H1, H2, H3.
        by apply replace_first_prefix. }
      rewrite Hc. reflexivity. }
    assert (Hc : _convert_database_url url = url).
    { unfold _convert_database_url. by rewrite H1, H2, H3. }
    by rewrite !Hc.
Qed.

End EngineUrl.

(** ** Loading the configuration *)

Section Loading.
Import Utils Settings.
Context {F : Type} (float : string → option F).

Lemma bind_ok {A B} (r : result A) (f : A → result B) (b : B) :
  (r ≫= f) = Ok b → ∃ a, r = Ok a ∧ f a = Ok b.
Proof. destruct r as [a|key]; [by exists a|discriminate]. Qed.

Lemma check_ok (ok : bool) (key : string) (u : unit) :
  check ok key = Ok u → ok = true.
Proof. by destruct ok. Qed.

Lemma get_int_env_default (environ : gmap string string) (key : string)
    (d value : Z) :
  _get_int_env environ key (Some d) = Ok value →
  match environ !! key with
  | Some v => Bot.int v = Some value
  | None => value = d
  end.
Proof.
  unfold _get_int_env, _get_optional_env. cbn.
  destruct (environ !! key) as [v|].
  - destruct (Bot.int v); [by intros [= ->]|discriminate].
  - rewrite int_str_int. by intros [= ->].
Qed.

(** What a successful [load_config] has read and checked. *)
Lemma load_config_inv (environ : gmap string string) (cfg : Config F) :
  load_config float environ = Ok cfg →
  _get_int_env environ "TELEGRAM_API_ID" None = Ok (api_id (telegram cfg))
  ∧ _get_required_env environ "BOT_TOKEN" = Ok (bot_token (telegram cfg))
  ∧ _get_required_env environ "TELEGRAM_PHONE" = Ok (phone (telegram cfg))
  ∧ _get_required_env environ "DATABASE_URL" = Ok (url (database cfg))
  ∧ _get_int_env environ "SUMMARY_INTERVAL_HOURS" (Some 4)
    = Ok (summary_interval_hours (scheduler cfg))
  ∧ _get_int_env environ "MAX_MESSAGES_PER_SUMMARY" (Some 15)
    = Ok (max_messages_per_summary (scheduler cfg))
  ∧ _get_int_env environ "MIN_PRIORITY_SCORE" (Some 1)
    = Ok (min_priority_score (scheduler cfg))
  ∧ _get_int_env environ "WARNING_THRESHOLD_SCORE" (Some 5)
    = Ok (warning_threshold_score (scheduler cfg))
  ∧ _get_int_env environ "MAX_GROUP_SIZE" (Some 20)
    = Ok (max_group_size (Settings.filter cfg))
  ∧ 0 < api_id (telegram cfg)
  ∧ contains ":" (bot_token (telegram cfg)) = true
  ∧ startswith "+" (phone (telegram cfg)) = true
  ∧ startswith "sqlite" (url (database cfg))
    || startswith "postgresql" (url (database cfg)) = true
  ∧ 1 <= summary_interval_hours (scheduler cfg)
  ∧ 1 <= max_messages_per_summary (scheduler cfg)
  ∧ 0 <= min_priority_score (scheduler cfg)
  ∧ 0 <= warning_threshold_score (scheduler cfg) <= 10
  ∧ 2 <= max_group_size (Settings.filter cfg)
  ∧ password (telegram cfg) ≠ Some EmptyString.
Proof.
  unfold load_config. intros H.
  repeat match type of H with
         | (check _ _ ≫= _) = Ok _ =>
             let u := fresh "u" in let Hc := fresh "Hc" in
             apply bind_ok in H as (u & Hc & H); apply check_ok in Hc
         | (_ ≫= _) = Ok _ =>
             let a := fresh "a" in let Ha := fresh "Ha" in
             apply bind_ok in H as (a & Ha & H)
         end.
  injection H as <-.
  cbn [telegram database scheduler ai Settings.filter api_id bot_token phone url
       summary_interval_hours max_messages_per_summary min_priority_score
       warning_threshold_score max_group_size password].
  repeat match goal with
         | H : negb _ = true |- _ => apply negb_true_iff in H
         | H : _ || _ = false |- _ => apply orb_false_elim in H as [? ?]
         | H : (_ <=? _) = false |- _ => apply Z.leb_gt in H
         | H : (_ <? _) = false |- _ => apply Z.ltb_ge in H
         end.
  split_and!; try done; try lia.
  destruct (environ !! "TELEGRAM_PASSWORD") as [[|? ?]|]; done.
Qed.

(** A configuration that loads is within the bounds the rest of the
    program relies on: a positive API id, a bot token with a colon, a
    phone number with its plus sign, a summary interval and a digest cap
    of at least 1, a minimum score of at least 0, an alert threshold
    between 0 and 10, a group-size threshold of at least 2 and a database
    URL on an [sqlite] or [postgresql] scheme, so that the [postgres://]
    branch of [_convert_database_url] is never the one taken for it. An
    empty password is read as no password. *)
Theorem loaded_config_is_within_bounds (environ : gmap string string)
    (cfg : Config F) :
  load_config float environ = Ok cfg →
  0 < api_id (telegram cfg)
  ∧ contains ":" (bot_token (telegram cfg)) = true
  ∧ startswith "+" (phone (telegram cfg)) = true
  ∧ 1 <= summary_interval_hours (scheduler cfg)
  ∧ 1 <= max_messages_per_summary (scheduler cfg)
  ∧ 0 <= min_priority_score (scheduler cfg)
  ∧ 0 <= warning_threshold_score (scheduler cfg) <= 10
  ∧ 2 <= max_group_size (Settings.filter cfg)
  ∧ password (telegram cfg) ≠ Some EmptyString
  ∧ startswith "postgres://" (url (database cfg)) = false
  ∧ (Database._convert_database_url (url (database cfg)) = url (database cfg)
     ∨ startswith "sqlite:///" (url (database cfg)) = true
     ∨ startswith "postgresql://" (url (database cfg)) = true).
Proof.
  intros Hload. apply load_config_inv in Hload
    as (_ & _ & _ & _ & _ & _ & _ & _ & _ & Hid & Htok & Hph & Hurl & Hint
        & Hmax & Hmin & Hwarn & Hsize & Hpw).
  assert (Hpg : startswith "postgres://" (url (database cfg)) = false).
  { apply orb_prop in Hurl as [Hs | Hp].
    - apply startswith_split in Hs. rewrite Hs. reflexivity.
    - apply startswith_split in Hp. rewrite Hp. reflexivity. }
  split_and!; try done; try lia.
  unfold Database._convert_database_url. rewrite Hpg.
  destruct (startswith "sqlite:///" _); [by right; left|].
  destruct (startswith "postgresql://" _); [by right; right|]. by left.
Qed.

(** Each of the five optional integers of a configuration that loads
    is the integer its variable holds when the variable is set, and the
    default when it is unset. A variable that is set to the empty
    string, or to anything else [int] rejects, therefore makes
    [load_config] fail: the default stands in for an unset variable, not
    for an unusable one. *)
Theorem optional_integers_are_read_or_defaulted
    (environ : gmap string string) (cfg : Config F) :
  load_config float environ = Ok cfg →
  Forall (fun '(key, default, loaded) =>
            match environ !! key with
            | Some value => Bot.int value = Some loaded ∧ value ≠ EmptyString
            | None => loaded = default
            end)
    [ ("SUMMARY_INTERVAL_HOURS", 4, summary_interval_hours (scheduler cfg));
      ("MAX_MESSAGES_PER_SUMMARY", 15, max_messages_per_summary (scheduler cfg));
      ("MIN_PRIORITY_SCORE", 1, min_priority_score (scheduler cfg));
      ("WARNING_THRESHOLD_SCORE", 5, warning_threshold_score (scheduler cfg));
      ("MAX_GROUP_SIZE", 20, max_group_size (Settings.filter cfg)) ].
Proof.
  intros Hload. apply load_config_inv in Hload
    as (_ & _ & _ & _ & H1 & H2 & H3 & H4 & H5 & _).
  apply get_int_env_default in H1, H2, H3, H4, H5.
  repeat constructor;
    match goal with
    | H : match ?e with _ => _ end |- match ?e with _ => _ end =>
        destruct e as [v|]; [split; [exact H|]|exact H];
        intros ->; discriminate
    end.
Qed.

End Loading.

Section LoadingExamples.
Import Utils Settings.

(** The sample environment loads, and its configuration is within the
    bounds. *)
Lemma loaded_config_is_within_bounds_witness :
  ∃ cfg : Config unit,
    load_config (fun _ => Some tt) Sample.environ = Ok cfg
    ∧ 0 < api_id (telegram cfg)
    ∧ contains ":" (bot_token (telegram cfg)) = true
    ∧ startswith "+" (phone (telegram cfg)) = true
    ∧ 1 <= summary_interval_hours (scheduler cfg)
    ∧ 1 <= max_messages_per_summary (scheduler cfg)
    ∧ 0 <= min_priority_score (scheduler cfg)
    ∧ 0 <= warning_threshold_score (scheduler cfg) <= 10
    ∧ 2 <= max_group_size (Settings.filter cfg)
    ∧ password (telegram cfg) ≠ Some EmptyString
    ∧ startswith "postgres://" (url (database cfg)) = false
    ∧ (Database._convert_database_url (url (database cfg)) = url (database cfg)
       ∨ startswith "sqlite:///" (url (database cfg)) = true
       ∨ startswith "postgresql://" (url (database cfg)) = true).
Proof.
  eexists. split; [vm_compute; reflexivity|].
  apply (loaded_config_is_within_bounds (fun _ => Some tt) Sample.environ).
  vm_compute. reflexivity.
Defined.

(** In the sample environment the group-size threshold is set to 50 and
    the other four optional integers are unset. *)
Lemma optional_integers_are_read_or_defaulted_witness :
  ∃ cfg : Config unit,
    load_config (fun _ => Some tt) Sample.environ = Ok cfg
    ∧ Forall (fun '(key, default, loaded) =>
                match Sample.environ !! key with
                | Some value => Bot.int value = Some loaded ∧ value ≠ EmptyString
                | None => loaded = default
                end)
        [ ("SUMMARY_INTERVAL_HOURS", 4, summary_interval_hours (scheduler cfg));
          ("MAX_MESSAGES_PER_SUMMARY", 15,
           max_messages_per_summary (scheduler cfg));
          ("MIN_PRIORITY_SCORE", 1, min_priority_score (scheduler cfg));
          ("WARNING_THRESHOLD_SCORE", 5, warning_threshold_score (scheduler cfg));
          ("MAX_GROUP_SIZE", 20, max_group_size (Settings.filter cfg)) ].
Proof.
  eexists. split; [vm_compute; reflexivity|].
  apply (optional_integers_are_read_or_defaulted (fun _ => Some tt)
           Sample.environ).
  vm_compute. reflexivity.
Defined.

End LoadingExamples.
